(** * Portfolio analytics backend: replay store, acquisition, returns,
      metrics, regression and Monte Carlo

    A shallow embedding of the deterministic core of the backend
    ([app/data/persistence/storage.py], [app/data/providers/yahoo.py],
    [app/core/memoization.py] and
    [app/analytics/{metrics,returns,portfolio_agg,factors,regression,monte_carlo}.py])
    together with the properties stated about it.

    Conventions.
    - A Python [float] is an IEEE-754 binary64 number: Rocq's primitive
      [float] with its round-to-nearest operations.
    - A Python exception is a value of [exn]; a function that may raise
      returns a [result].
    - A [dict] whose iteration order is never observed is a [gmap]; a [set]
      is a [gset].
    - Functions of numpy, scipy, json, pydantic, hashlib and yfinance are
      not part of the repository: they are Section variables, and every
      theorem holds for all of them. *)

From Stdlib Require Import Floats ZArith.
From stdpp Require Import base option list gmap sorting strings.

(* Decimal literals denote the nearest binary64 value, as in Python. *)
Set Warnings "-inexact-float".
Local Open Scope Z_scope.

(** ** Exceptions and fallible computations *)

(** The key of a failed dict lookup: a date or a ticker. *)
Inductive dict_key : Type :=
  | DateKey (d : Z)
  | StrKey (s : string).

(** Python exceptions seen by the analytics code. The [ValueError]s raised by
    the analytics functions have one constructor per raise site; their
    arguments are the values the message interpolates. *)
Inductive exn : Type :=
  | ValueError (e : value_error)
  | KeyError (key : dict_key)
      (* a dict indexed by a key it does not hold *)
  | IndexError
      (* a list indexed out of range *)
  | TypeError (detail : string)
  | ValidationError (model : string)
      (* pydantic: a field constraint or a validator rejected the model *)
  | LinAlgError (detail : string)
      (* numpy.linalg *)
  | OtherError (detail : string)
with value_error : Type :=
  | CagrRequiresPositiveYears (years : float)
      (* "CAGR calculation requires positive years, got {years}. ..." *)
  | VolatilityRequiresTwoReturns (n : nat)
      (* "Volatility calculation requires at least 2 returns, got {n}. ..." *)
  | SharpeRequiresTwoReturns (n : nat)
      (* "Sharpe ratio calculation requires at least 2 returns, got {n}. ..." *)
  | SharpeZeroVolatility
      (* "Sharpe ratio cannot be computed for constant returns (zero volatility). ..." *)
  | MathDomainError
      (* math.sqrt of a negative number *)
  | AlignedReturnsEmpty
      (* "aligned_returns cannot be empty" *)
  | ReturnLengthMismatch
      (* "All return series must have the same length as dates" *)
  | MissingWeights (tickers : list string)
      (* "Missing weights for tickers in aligned returns: {missing_weights}. ..." *)
  | NoCommonDates
      (* "No common dates found across return series" *)
  | HistoricalReturnsEmpty
      (* "historical_returns cannot be empty" *)
  | NumSimulationsNotPositive
      (* "num_simulations must be positive" *)
  | HorizonDaysNotPositive
      (* "horizon_days must be positive" *)
  | RandomSeedRequired
      (* "random_seed is required for deterministic Monte Carlo simulation. ..." *)
  | UnknownSimulationMethod (method : string)
      (* "Unknown simulation method: {method}" *)
  | SimulatedPathsEmpty
      (* "simulated_paths cannot be empty" *)
  | PathLengthMismatch (i len expected : nat)
      (* "All paths must have the same length. Path {i} has length {len}, expected {expected}" *)
  | InsufficientObservations (n : nat)
      (* "Insufficient data for regression: {n} observations, minimum 30 required" *)
  | RankDeficient (rank : Z)
      (* "Regression matrix is rank-deficient (rank={rank}, expected 4)" *)
  | BroadcastError
      (* numpy: operands could not be broadcast together / mismatched dimensions *)
  | RegressionNumerical (detail : string)
      (* "Regression failed due to numerical issues: {e}" *)
  | RegressionFailed (cause : exn)
      (* "Regression failed: {e}" *).

Inductive result (A : Type) : Type :=
  | Return (a : A)
  | Raise (e : exn).
Arguments Return {A} a.
Arguments Raise {A} e.

#[global] Instance result_ret : MRet result := fun A a => Return a.
#[global] Instance result_bind : MBind result := fun A B k r =>
  match r with
  | Return a => k a
  | Raise e => Raise e
  end.

(** The binary64 nearest to an integer of any size, ties to even; an
    integer beyond the range of binary64 gives an infinity. *)
Definition float_of_int (n : Z) : float :=
  SF2Prim (binary_normalize prec emax n 0 false).

(** The conversion of a Python int to a float, as [float(n)], [math.sqrt(n)]
    and [x * n] perform it: exact rounding, and [OverflowError] for an int
    too large. *)
Definition int_to_float (n : Z) : result float :=
  let x := float_of_int n in
  if PrimFloat.is_infinity x
  then Raise (OtherError "OverflowError: int too large to convert to float")
  else Return x.

(** ** Performance metrics ([app/analytics/metrics.py]) *)

Module Metrics.

Definition TRADING_DAYS_PER_YEAR : Z := 252.

(** The loop of [compute_cumulative_return], from a given value of
    [cumulative]: [for ret in returns: cumulative *= 1.0 + ret]. *)
Definition compound_from (start : float) (returns : list float) : float :=
  fold_left (fun cumulative ret => (cumulative * (1 + ret))%float) returns start.

(** [cumulative = 1.0], the loop, and [return cumulative - 1.0]. *)
Definition compute_cumulative_return (returns : list float) : float :=
  (compound_from 1 returns - 1)%float.

(** The vocabulary of the claim: the compounded factor of a sequence, the
    binary64 product of its factors [1 + r] multiplied left to right from
    1.0; and that product continued over a further sequence. *)
Definition multiply_factors (start : float) (returns : list float) : float :=
  fold_left PrimFloat.mul ((fun r => (1 + r)%float) <$> returns) start.

Definition compounded_factor (returns : list float) : float :=
  multiply_factors 1 returns.

Section WithNumpy.
(** [np.mean(a)] and [np.std(a, ddof=1)] on a float64 array, and Python's
    [x ** y] on floats (which may raise). *)
Variable np_mean : list float → float.
Variable np_std_ddof1 : list float → float.
Variable float_pow : float → float → result float.

Definition compute_cagr (cumulative_return years : float) : result float :=
  if PrimFloat.leb years 0%float
  then Raise (ValueError (CagrRequiresPositiveYears years))
  else
    p ← float_pow (1 + cumulative_return)%float (1 / years)%float ;
    Return (p - 1)%float.

(** [math.sqrt(n)] for a Python int [n]: the int is converted first. *)
Definition math_sqrt (n : Z) : result float :=
  x ← int_to_float n ;
  if n <? 0 then Raise (ValueError MathDomainError)
  else Return (PrimFloat.sqrt x).

Definition compute_annualized_volatility
    (returns : list float) (trading_days_per_year : Z) : result float :=
  if (length returns <? 2)%nat
  then Raise (ValueError (VolatilityRequiresTwoReturns (length returns)))
  else
    let daily_std := np_std_ddof1 returns in
    s ← math_sqrt trading_days_per_year ;
    Return (daily_std * s)%float.

Definition compute_sharpe_ratio
    (returns : list float) (risk_free_rate : float)
    (trading_days_per_year : Z) : result float :=
  if (length returns <? 2)%nat
  then Raise (ValueError (SharpeRequiresTwoReturns (length returns)))
  else
    let mean_return := np_mean returns in
    volatility ← compute_annualized_volatility returns trading_days_per_year ;
    if PrimFloat.eqb volatility 0%float
    then Raise (ValueError SharpeZeroVolatility)
    else
      days ← int_to_float trading_days_per_year ;
      let mean_annualized := (mean_return * days)%float in
      Return ((mean_annualized - risk_free_rate) / volatility)%float.
End WithNumpy.

End Metrics.

(** ** Return series and their alignment ([app/analytics/returns.py]) *)

Module Returns.

(** A [datetime.date] is its proleptic ordinal, a [Z]; the order of dates is
    the order of ordinals. *)

Record ReturnBar : Type := {
  trading_date : Z;
  return_ : float;
}.

Record ReturnSeries : Type := {
  ticker : string;
  returns : list ReturnBar;
  uses_adjusted_prices : bool;
}.

(** [{ret.trading_date for ret in rs.returns}] *)
Definition dates_of (rs : ReturnSeries) : gset Z :=
  list_to_set (trading_date <$> returns rs).

(** [date_sets = {}; for rs in ...: date_sets[rs.ticker] = dates] *)
Definition build_date_sets (return_series_list : list ReturnSeries)
    : gmap string (gset Z) :=
  foldl (fun date_sets rs => <[ticker rs := dates_of rs]> date_sets)
        ∅ return_series_list.

(** [set.intersection] applied to the unpacked values: the unbound method
    needs its first argument. *)
Definition set_intersection (sets : list (gset Z)) : result (gset Z) :=
  match sets with
  | [] => Raise (TypeError "unbound method set.intersection() needs an argument")
  | s :: rest => Return (foldl (∩) s rest)
  end.

(** [sorted(common_dates)] *)
Definition sorted_dates (common_dates : gset Z) : list Z :=
  merge_sort Z.le (elements common_dates).

(** [{ret.trading_date: ret.return_ for ret in rs.returns}]: a later bar of
    the same date replaces an earlier one. *)
Definition return_map (rs : ReturnSeries) : gmap Z float :=
  foldl (fun m ret => <[trading_date ret := return_ ret]> m) ∅ (returns rs).

(** [[return_map[dt] for dt in common_dates_sorted]] *)
Fixpoint extract_returns (m : gmap Z float) (common_dates_sorted : list Z)
    : result (list float) :=
  match common_dates_sorted with
  | [] => Return []
  | dt :: rest =>
      match m !! dt with
      | None => Raise (KeyError (DateKey dt))
      | Some r => row ← extract_returns m rest ; Return (r :: row)
      end
  end.

(** The loop [for rs in return_series_list: aligned[rs.ticker] = ...]. *)
Fixpoint build_aligned (return_series_list : list ReturnSeries)
    (common_dates_sorted : list Z) (aligned : gmap string (list float))
    : result (gmap string (list float)) :=
  match return_series_list with
  | [] => Return aligned
  | rs :: rest =>
      row ← extract_returns (return_map rs) common_dates_sorted ;
      build_aligned rest common_dates_sorted (<[ticker rs := row]> aligned)
  end.

Definition align_return_series (return_series_list : list ReturnSeries)
    (original_start original_end : Z)
    : result (gmap string (list float) * list Z) :=
  match return_series_list with
  | [] => Return (∅, [])
  | _ :: _ =>
      let date_sets := build_date_sets return_series_list in
      common_dates ← set_intersection ((map_to_list date_sets).*2) ;
      if decide (common_dates = ∅)
      then Raise (ValueError NoCommonDates)
      else
        let common_dates_sorted := sorted_dates common_dates in
        aligned ← build_aligned return_series_list common_dates_sorted ∅ ;
        Return (aligned, common_dates_sorted)
  end.

(** The vocabulary of the alignment contract. *)

(** The return a series holds for a date: that of its last bar of the date. *)
Definition return_on (rs : ReturnSeries) (d : Z) : option float :=
  return_ <$> last (filter (fun bar => trading_date bar = d) (returns rs)).

(** A date common to all the series. *)
Definition common_date (l : list ReturnSeries) (d : Z) : Prop :=
  ∀ rs, rs ∈ l → d ∈ dates_of rs.

(** What [align_return_series] owes its caller for the series [l]: failure
    when no date is common; otherwise the common dates in ascending order
    and, for every series, a row of its returns on those dates. *)
Definition alignment_contract (l : list ReturnSeries)
    (outcome : result (gmap string (list float) * list Z)) : Prop :=
  ((¬ ∃ d, common_date l d) → outcome = Raise (ValueError NoCommonDates))
  ∧ ((∃ d, common_date l d) →
     ∃ aligned ds,
       outcome = Return (aligned, ds)
       ∧ StronglySorted Z.lt ds
       ∧ (∀ d, d ∈ ds ↔ common_date l d)
       ∧ (∀ t, t ∈ dom aligned ↔ t ∈ ticker <$> l)
       ∧ ∀ rs, rs ∈ l →
           ∃ row, aligned !! ticker rs = Some row
                  ∧ length row = length ds
                  ∧ ∀ i d, ds !! i = Some d →
                      ∃ r, row !! i = Some r ∧ return_on rs d = Some r).

End Returns.

(** ** Portfolio aggregation ([app/analytics/portfolio_agg.py]) *)

Module PortfolioAgg.

(** [Holding] of [app/portfolio/models.py]; [weight] stands for
    [float(holding.weight)], the only use this module makes of it. *)
Record Holding : Type := {
  ticker : string;
  weight : float;
}.

Record Portfolio : Type := {
  holdings : list Holding;
  currency : string;
  benchmark : option string;
  start_date : Z;
  end_date : Z;
}.

Record PortfolioReturnSeries : Type := {
  dates : list Z;
  returns : list float;
  benchmark_returns : option (list float);
}.

(** [{holding.ticker: float(holding.weight) for holding in portfolio.holdings}] *)
Definition build_weight_map (portfolio : Portfolio) : gmap string float :=
  foldl (fun m holding => <[ticker holding := weight holding]> m)
        ∅ (holdings portfolio).

(** [sorted(aligned_returns.keys())]: str comparison is lexicographic. *)
Definition sorted_keys (aligned_returns : gmap string (list float)) : list string :=
  merge_sort String.le (elements (dom aligned_returns)).

(** The inner loop: [for ticker in sorted_tickers:
    portfolio_return += weight_map[ticker] * aligned_returns[ticker][i]]. *)
Fixpoint accumulate_day (aligned_returns : gmap string (list float))
    (weight_map : gmap string float) (i : nat)
    (tickers : list string) (portfolio_return : float) : result float :=
  match tickers with
  | [] => Return portfolio_return
  | ticker :: rest =>
      match aligned_returns !! ticker with
      | None => Raise (KeyError (StrKey ticker))
      | Some asset_returns =>
          match weight_map !! ticker with
          | None => Raise (KeyError (StrKey ticker))
          | Some weight =>
              match asset_returns !! i with
              | None => Raise IndexError
              | Some r =>
                  accumulate_day aligned_returns weight_map i rest
                    (portfolio_return + weight * r)%float
              end
          end
      end
  end.

(** The outer loop: [for i in range(num_days): ...; portfolio_returns.append(...)],
    with [days] the day indices still to visit. *)
Fixpoint accumulate_days (aligned_returns : gmap string (list float))
    (weight_map : gmap string float) (sorted_tickers : list string)
    (days : list nat) : result (list float) :=
  match days with
  | [] => Return []
  | i :: rest =>
      portfolio_return ←
        accumulate_day aligned_returns weight_map i sorted_tickers 0%float ;
      portfolio_returns ←
        accumulate_days aligned_returns weight_map sorted_tickers rest ;
      Return (portfolio_return :: portfolio_returns)
  end.

Definition aggregate_portfolio_returns
    (aligned_returns : gmap string (list float)) (dates : list Z)
    (portfolio : Portfolio) (benchmark_returns : option (list float))
    : result PortfolioReturnSeries :=
  if decide (aligned_returns = ∅)
  then Raise (ValueError AlignedReturnsEmpty)
  else
    let num_days := length dates in
    if negb (bool_decide
               (map_Forall (fun _ returns => length returns = num_days)
                           aligned_returns))
    then Raise (ValueError ReturnLengthMismatch)
    else
      let weight_map := build_weight_map portfolio in
      let sorted_tickers := sorted_keys aligned_returns in
      let missing_weights :=
        filter (fun ticker => weight_map !! ticker = None) sorted_tickers in
      match missing_weights with
      | _ :: _ => Raise (ValueError (MissingWeights missing_weights))
      | [] =>
          portfolio_returns ←
            accumulate_days aligned_returns weight_map sorted_tickers
                            (seq 0 num_days) ;
          Return {| dates := dates;
                    returns := portfolio_returns;
                    benchmark_returns := benchmark_returns |}
      end.

(** The vocabulary of the aggregation contract. *)

(** The weight a portfolio gives a ticker: that of its last holding of it. *)
Definition weight_of (portfolio : Portfolio) (t : string) : option float :=
  weight <$> last (filter (fun holding => ticker holding = t) (holdings portfolio)).

(** [x] is the term [weight_t * return_t[i]] of ticker [t] on day [i]. *)
Definition weighted_term (aligned_returns : gmap string (list float))
    (portfolio : Portfolio) (i : nat) (t : string) (x : float) : Prop :=
  ∃ w asset_returns r,
    weight_of portfolio t = Some w
    ∧ aligned_returns !! t = Some asset_returns
    ∧ asset_returns !! i = Some r
    ∧ x = (w * r)%float.

(** What [aggregate_portfolio_returns] owes its caller, given the tickers in
    the order it visits them. *)
Definition aggregation_contract (aligned_returns : gmap string (list float))
    (dates : list Z) (portfolio : Portfolio)
    (benchmark_returns : option (list float))
    (tickers : list string) (outcome : result PortfolioReturnSeries) : Prop :=
  Sorted String.le tickers ∧ NoDup tickers
  ∧ (∀ t, t ∈ tickers ↔ t ∈ dom aligned_returns)
  ∧ ((∀ t, t ∈ dom aligned_returns → is_Some (weight_of portfolio t)) →
     ∃ rets,
       outcome = Return {| dates := dates; returns := rets;
                           benchmark_returns := benchmark_returns |}
       ∧ length rets = length dates
       ∧ ∀ i, (i < length dates)%nat →
           ∃ terms,
             Forall2 (weighted_term aligned_returns portfolio i) tickers terms
             ∧ rets !! i = Some (fold_left PrimFloat.add terms 0%float))
  ∧ ((∃ t, t ∈ dom aligned_returns ∧ weight_of portfolio t = None) →
     ∃ missing,
       outcome = Raise (ValueError (MissingWeights missing))
       ∧ ∀ t, t ∈ missing ↔ t ∈ dom aligned_returns ∧ weight_of portfolio t = None).

End PortfolioAgg.

(** ** Monte Carlo simulation ([app/analytics/monte_carlo.py]) *)

Module MonteCarlo.

Record SimulationMetadata : Type := {
  simulation_method : string;
  number_of_simulations : Z;
  horizon_days : Z;
  random_seed : option Z;
  historical_returns_count : Z;
  assumptions : list string;
  mean_return : option float;
  volatility : option float;
}.

Record MonteCarloSimulation : Type := {
  simulated_paths : list (list float);
  cumulative_paths : option (list (list float));
  metadata : SimulationMetadata;
}.

(** Construction of a [SimulationMetadata]: pydantic enforces the literal
    method names and the [gt=0] constraints of the fields. *)
Definition SimulationMetadata_init (m : SimulationMetadata)
    : result SimulationMetadata :=
  if bool_decide (simulation_method m = "historical_bootstrap"
                  ∨ simulation_method m = "multivariate_normal")
     && (0 <? number_of_simulations m)
     && (0 <? horizon_days m)
     && (0 <? historical_returns_count m)
  then Return m
  else Raise (ValidationError "SimulationMetadata").

(** The loop of [validate_paths_shape] over [enumerate(v)]. *)
Fixpoint check_path_lengths (i : nat) (paths : list (list float))
    (path_length : nat) : result unit :=
  match paths with
  | [] => Return ()
  | path :: rest =>
      if decide (length path = path_length)
      then check_path_lengths (S i) rest path_length
      else Raise (ValueError (PathLengthMismatch i (length path) path_length))
  end.

Definition validate_paths_shape (v : list (list float))
    : result (list (list float)) :=
  match v with
  | [] => Raise (ValueError SimulatedPathsEmpty)
  | first :: _ =>
      _ ← check_path_lengths 0 v (length first) ;
      Return v
  end.

(** Construction of a [MonteCarloSimulation]: pydantic runs the field
    validator and reports its [ValueError] as a [ValidationError]. *)
Definition MonteCarloSimulation_init (paths : list (list float))
    (cumulative : option (list (list float))) (meta : SimulationMetadata)
    : result MonteCarloSimulation :=
  match validate_paths_shape paths with
  | Raise _ => Raise (ValidationError "MonteCarloSimulation")
  | Return v =>
      Return {| simulated_paths := v;
                cumulative_paths := cumulative;
                metadata := meta |}
  end.

(** [cumulative = [0.0]; for ret in path: cumulative.append(cumulative[-1] + ret)]
    and then [cumulative[1:]]. *)
Definition cumulative_of_path (path : list float) : list float :=
  let cumulative :=
    foldl (fun cumulative ret =>
             cumulative ++ [(List.last cumulative 0 + ret)%float])
          [0%float] path in
  drop 1 cumulative.

Definition bootstrap_assumptions : list string :=
  [ "Returns are sampled from historical empirical distribution";
    "No normality assumption";
    "Historical distribution is stationary (may not hold in reality)";
    "Returns are independent across days (may not hold in reality)";
    "Simulations are hypothetical stress tests, not predictions" ].

Definition normal_assumptions : list string :=
  [ "Returns follow a normal distribution (may not hold in reality)";
    "Mean and volatility are estimated from historical data";
    "Returns are independent across days (may not hold in reality)";
    "Distribution parameters are stationary (may not hold in reality)";
    "Simulations are hypothetical stress tests, not predictions" ].

Section WithNumpy.
(** The state of a [numpy.random.Generator]. *)
Variable Generator : Type.
(** Seeding a bit generator from an integer (numpy rejects some). *)
Variable seed_generator : Z → result Generator.
(** [rng.choice(a, size=n, replace=True)] and
    [rng.normal(loc, scale, size=n)]: the sample and the generator's next
    state. *)
Variable choice : Generator → list float → Z → result (list float * Generator).
Variable normal : Generator → float → float → Z → result (list float * Generator).
Variable np_mean : list float → float.
Variable np_std_ddof1 : list float → float.

(** [np.random.default_rng(seed)]: with [seed=None] the generator is seeded
    from the operating system's entropy, [os_entropy]. *)
Definition default_rng (os_entropy : Z) (seed : option Z) : result Generator :=
  match seed with
  | Some s => seed_generator s
  | None => seed_generator os_entropy
  end.

Definition _estimate_statistics (returns : list float) : float * float :=
  (np_mean returns, np_std_ddof1 returns).

(** [for _ in range(n): simulated_paths.append(draw(rng))], the generator
    advancing from one draw to the next. *)
Fixpoint sample_paths (draw : Generator → result (list float * Generator))
    (n : nat) (rng : Generator) : result (list (list float)) :=
  match n with
  | O => Return []
  | S n' =>
      sampled ← draw rng ;
      rest ← sample_paths draw n' sampled.2 ;
      Return (sampled.1 :: rest)
  end.

Definition simulate_bootstrap (os_entropy : Z)
    (historical_returns : list float) (num_simulations horizon_days : Z)
    (random_seed : option Z) : result MonteCarloSimulation :=
  match historical_returns with
  | [] => Raise (ValueError HistoricalReturnsEmpty)
  | _ :: _ =>
      rng ← default_rng os_entropy random_seed ;
      simulated_paths ←
        sample_paths (fun rng => choice rng historical_returns horizon_days)
                     (Z.to_nat num_simulations) rng ;
      let cumulative_paths := cumulative_of_path <$> simulated_paths in
      let stats := _estimate_statistics historical_returns in
      metadata ← SimulationMetadata_init
        {| simulation_method := "historical_bootstrap";
           number_of_simulations := num_simulations;
           horizon_days := horizon_days;
           random_seed := random_seed;
           historical_returns_count := Z.of_nat (length historical_returns);
           assumptions := bootstrap_assumptions;
           mean_return := Some stats.1;
           volatility := Some stats.2 |} ;
      MonteCarloSimulation_init simulated_paths (Some cumulative_paths) metadata
  end.

Definition simulate_multivariate_normal (os_entropy : Z)
    (historical_returns : list float) (num_simulations horizon_days : Z)
    (random_seed : option Z) : result MonteCarloSimulation :=
  match historical_returns with
  | [] => Raise (ValueError HistoricalReturnsEmpty)
  | _ :: _ =>
      let stats := _estimate_statistics historical_returns in
      rng ← default_rng os_entropy random_seed ;
      simulated_paths ←
        sample_paths (fun rng => normal rng stats.1 stats.2 horizon_days)
                     (Z.to_nat num_simulations) rng ;
      let cumulative_paths := cumulative_of_path <$> simulated_paths in
      metadata ← SimulationMetadata_init
        {| simulation_method := "multivariate_normal";
           number_of_simulations := num_simulations;
           horizon_days := horizon_days;
           random_seed := random_seed;
           historical_returns_count := Z.of_nat (length historical_returns);
           assumptions := normal_assumptions;
           mean_return := Some stats.1;
           volatility := Some stats.2 |} ;
      MonteCarloSimulation_init simulated_paths (Some cumulative_paths) metadata
  end.

Definition simulate_monte_carlo (os_entropy : Z)
    (historical_returns : list float) (num_simulations horizon_days : Z)
    (method : string) (random_seed : option Z) : result MonteCarloSimulation :=
  match historical_returns with
  | [] => Raise (ValueError HistoricalReturnsEmpty)
  | _ :: _ =>
      if num_simulations <=? 0
      then Raise (ValueError NumSimulationsNotPositive)
      else if horizon_days <=? 0
      then Raise (ValueError HorizonDaysNotPositive)
      else
        match random_seed with
        | None => Raise (ValueError RandomSeedRequired)
        | Some _ =>
            if String.eqb method "historical_bootstrap"
            then simulate_bootstrap os_entropy historical_returns
                   num_simulations horizon_days random_seed
            else if String.eqb method "multivariate_normal"
            then simulate_multivariate_normal os_entropy historical_returns
                   num_simulations horizon_days random_seed
            else Raise (ValueError (UnknownSimulationMethod method))
        end
  end.
End WithNumpy.

(** The vocabulary of the simulation contract. *)

(** The sums [start + r0], [start + r0 + r1], ... accumulated left to right. *)
Fixpoint running_sums (start : float) (path : list float) : list float :=
  match path with
  | [] => []
  | ret :: rest => (start + ret)%float :: running_sums (start + ret)%float rest
  end.

(** A simulation of [n] paths over [h] days: both matrices are [n]×[h], and
    each cumulative path accumulates the daily returns of its path from 0. *)
Definition simulation_shape (n h : Z) (sim : MonteCarloSimulation) : Prop :=
  0 < n ∧ 0 < h
  ∧ length (simulated_paths sim) = Z.to_nat n
  ∧ Forall (fun path => length path = Z.to_nat h) (simulated_paths sim)
  ∧ ∃ cumulative,
      cumulative_paths sim = Some cumulative
      ∧ length cumulative = Z.to_nat n
      ∧ Forall2 (fun path cum =>
                   length cum = Z.to_nat h
                   ∧ cum = running_sums 0 path
                   ∧ ∀ i, (i < length path)%nat →
                       cum !! i = Some (fold_left PrimFloat.add (take (S i) path) 0%float))
                (simulated_paths sim) cumulative.

End MonteCarlo.

(** ** Factor regression ([app/analytics/regression.py]) *)

Module Regression.

Definition MIN_OBSERVATIONS : Z := 30.

(** [AlignedFactorMatrix] of [app/analytics/factors.py]. *)
Record AlignedFactorMatrix : Type := {
  dates : list Z;
  portfolio_returns : list float;
  market_excess_returns : list float;
  smb_returns : list float;
  hml_returns : list float;
  risk_free_rates : list float;
}.

Record FactorAlignmentMetadata : Type := {
  aligned_days : Z;
  portfolio_dropped_days : Z;
  factor_dropped_days : Z;
  alignment_method : string;
}.

Record AlignedFactorData : Type := {
  matrix : AlignedFactorMatrix;
  metadata : FactorAlignmentMetadata;
}.

Record FactorLoadings : Type := {
  market_beta : float;
  smb_beta : float;
  hml_beta : float;
}.

Record RegressionStatistics : Type := {
  r_squared : float;
  adjusted_r_squared : float;
  alpha_t_stat : float;
  alpha_p_value : float;
  market_t_stat : float;
  market_p_value : float;
  smb_t_stat : float;
  smb_p_value : float;
  hml_t_stat : float;
  hml_p_value : float;
}.

Record FactorRegressionResults : Type := {
  alpha : float;
  factor_loadings : FactorLoadings;
  statistics : RegressionStatistics;
  num_observations : Z;
  assumptions : list string;
}.

(** A pydantic field declared with [ge=0.0, le=1.0]. *)
Definition in_unit_interval (x : float) : bool :=
  PrimFloat.leb 0 x && PrimFloat.leb x 1.

(** Construction of a [RegressionStatistics]: the bounded fields are checked. *)
Definition RegressionStatistics_init (st : RegressionStatistics)
    : result RegressionStatistics :=
  if in_unit_interval (r_squared st)
     && in_unit_interval (adjusted_r_squared st)
     && in_unit_interval (alpha_p_value st)
     && in_unit_interval (market_p_value st)
     && in_unit_interval (smb_p_value st)
     && in_unit_interval (hml_p_value st)
  then Return st
  else Raise (ValidationError "RegressionStatistics").

(** Construction of a [FactorRegressionResults]: [num_observations] has
    [ge=MIN_OBSERVATIONS]. *)
Definition FactorRegressionResults_init (res : FactorRegressionResults)
    : result FactorRegressionResults :=
  if MIN_OBSERVATIONS <=? num_observations res
  then Return res
  else Raise (ValidationError "FactorRegressionResults").

Definition regression_assumptions : list string :=
  [ "Linear relationship between portfolio returns and factors";
    "Factors are exogenous (not correlated with error term)";
    "Homoscedasticity (constant variance of residuals)";
    "No autocorrelation in residuals";
    "Residuals are normally distributed (for t-stats and p-values)";
    "Factors are stationary (mean and variance constant over time)";
    "Regression is descriptive attribution, not forecasting";
    "Alpha represents excess return not explained by factors";
    "Factor loadings represent sensitivity to factor returns" ].

(** A row of the design matrix [X], or a vector of the four coefficients. *)
Record vec4 : Type := Vec4 { v0 : float; v1 : float; v2 : float; v3 : float }.
(** A 4×4 matrix, by rows. *)
Record mat4 : Type := Mat4 { r0 : vec4; r1 : vec4; r2 : vec4; r3 : vec4 }.

Definition vec4_map2 (f : float → float → float) (a b : vec4) : vec4 :=
  Vec4 (f (v0 a) (v0 b)) (f (v1 a) (v1 b)) (f (v2 a) (v2 b)) (f (v3 a) (v3 b)).
Definition vec4_map (f : float → float) (a : vec4) : vec4 :=
  Vec4 (f (v0 a)) (f (v1 a)) (f (v2 a)) (f (v3 a)).
(** [np.diag(m)] *)
Definition diag (m : mat4) : vec4 :=
  Vec4 (v0 (r0 m)) (v1 (r1 m)) (v2 (r2 m)) (v3 (r3 m)).
(** [m * c] for a scalar [c] *)
Definition mat4_scale (m : mat4) (c : float) : mat4 :=
  let sc := vec4_map (fun x => (x * c)%float) in
  Mat4 (sc (r0 m)) (sc (r1 m)) (sc (r2 m)) (sc (r3 m)).

(** [a - b] on one-dimensional arrays, with numpy's broadcasting of a
    length-one operand. *)
Definition np_subtract (a b : list float) : result (list float) :=
  if decide (length a = length b) then Return (zip_with PrimFloat.sub a b)
  else match a, b with
       | [x], _ => Return ((fun y => (x - y)%float) <$> b)
       | _, [y] => Return ((fun x => (x - y)%float) <$> a)
       | _, _ => Raise (ValueError BroadcastError)
       end.

(** [np.column_stack([np.ones(n), market_excess, smb, hml])]: the columns
    must have one length. *)
Fixpoint rows_of_columns (mkt smb hml : list float) : list vec4 :=
  match mkt, smb, hml with
  | m :: mkt', s :: smb', h :: hml' =>
      Vec4 1 m s h :: rows_of_columns mkt' smb' hml'
  | _, _, _ => []
  end.

Definition column_stack (n : nat) (mkt smb hml : list float)
    : result (list vec4) :=
  if decide (length mkt = n ∧ length smb = n ∧ length hml = n)
  then Return (rows_of_columns mkt smb hml)
  else Raise (ValueError BroadcastError).

Section WithNumpy.
(** [np.linalg.lstsq(X, y, rcond=None)]: the coefficients and the rank
    (the residuals and singular values are not used). *)
Variable lstsq : list vec4 → list float → result (vec4 * Z).
(** [X @ coefficients] *)
Variable matvec : list vec4 → vec4 → list float.
(** [np.linalg.inv(X.T @ X)] *)
Variable inv_gram : list vec4 → result mat4.
Variable np_sum : list float → float.
Variable np_mean : list float → float.
(** [stats.t.cdf(x, df)] *)
Variable t_cdf : float → Z → float.

(** The body of the [try] block. *)
Definition regression_body (X : list vec4) (y : list float)
    : result FactorRegressionResults :=
  fit ← lstsq X y ;
  let coefficients := fit.1 in
  let rank := fit.2 in
  if rank <? 4
  then Raise (ValueError (RankDeficient rank))
  else
    let alpha := v0 coefficients in
    let beta_mkt := v1 coefficients in
    let beta_smb := v2 coefficients in
    let beta_hml := v3 coefficients in
    let y_fitted := matvec X coefficients in
    residuals_array ← np_subtract y y_fitted ;
    let ss_res := np_sum ((fun r => (r * r)%float) <$> residuals_array) in
    let mean_y := np_mean y in
    let ss_tot :=
      np_sum ((fun v => ((v - mean_y) * (v - mean_y))%float) <$> y) in
    let r_squared :=
      if PrimFloat.ltb 0 ss_tot then (1 - ss_res / ss_tot)%float
      else 0%float in
    let n := Z.of_nat (length y) in
    let k := 3 in
    let adjusted_r_squared :=
      if 0 <? n - k - 1
      then (1 - (1 - r_squared) * float_of_int (n - 1)
                  / float_of_int (n - k - 1))%float
      else 0%float in
    let mse :=
      if 0 <? n - k - 1 then (ss_res / float_of_int (n - k - 1))%float
      else 0%float in
    XtX_inv ← inv_gram X ;
    let cov_matrix := mat4_scale XtX_inv mse in
    let se_coefficients := vec4_map PrimFloat.sqrt (diag cov_matrix) in
    let t_stats := vec4_map2 PrimFloat.div coefficients se_coefficients in
    let degrees_of_freedom := n - k - 1 in
    let p_values :=
      vec4_map (fun t => (2 * (1 - t_cdf (PrimFloat.abs t) degrees_of_freedom))%float)
               t_stats in
    let factor_loadings :=
      {| market_beta := beta_mkt; smb_beta := beta_smb; hml_beta := beta_hml |} in
    statistics ← RegressionStatistics_init
      {| r_squared := r_squared;
         adjusted_r_squared := adjusted_r_squared;
         alpha_t_stat := v0 t_stats;
         alpha_p_value := v0 p_values;
         market_t_stat := v1 t_stats;
         market_p_value := v1 p_values;
         smb_t_stat := v2 t_stats;
         smb_p_value := v2 p_values;
         hml_t_stat := v3 t_stats;
         hml_p_value := v3 p_values |} ;
    FactorRegressionResults_init
      {| alpha := alpha;
         factor_loadings := factor_loadings;
         statistics := statistics;
         num_observations := n;
         assumptions := regression_assumptions |}.

(** The two [except] clauses. *)
Definition regression_handlers (r : result FactorRegressionResults)
    : result FactorRegressionResults :=
  match r with
  | Return res => Return res
  | Raise (LinAlgError detail) => Raise (ValueError (RegressionNumerical detail))
  | Raise e => Raise (ValueError (RegressionFailed e))
  end.

Definition run_factor_regression (aligned_data : AlignedFactorData)
    : result FactorRegressionResults :=
  let matrix := matrix aligned_data in
  if Z.of_nat (length (dates matrix)) <? MIN_OBSERVATIONS
  then Raise (ValueError (InsufficientObservations (length (dates matrix))))
  else
    portfolio_excess ←
      np_subtract (portfolio_returns matrix) (risk_free_rates matrix) ;
    X ← column_stack (length portfolio_excess)
           (market_excess_returns matrix) (smb_returns matrix)
           (hml_returns matrix) ;
    let y := portfolio_excess in
    regression_handlers (regression_body X y).
End WithNumpy.

End Regression.

(** ** The replay store ([app/data/persistence/storage.py]) *)

Module Storage.

(** Exceptions of [app/core/exceptions.py], and any other exception the
    acquisition code catches: the class name, [str(e)] and, for an
    [APIException], its context. *)
Record exception : Type := {
  exn_class : string;
  exn_message : string;
  exn_context : list (string * string);
}.

Inductive outcome (A : Type) : Type :=
  | Ok (a : A)
  | Err (e : exception).
Arguments Ok {A} a.
Arguments Err {A} e.

Definition NotFoundError (message : string) (context : list (string * string))
    : exception :=
  {| exn_class := "NotFoundError"; exn_message := message; exn_context := context |}.

Definition BadRequestError (message : string) (context : list (string * string))
    : exception :=
  {| exn_class := "BadRequestError"; exn_message := message; exn_context := context |}.

(** [full_message = f"Provider '{provider_name}' is unavailable: {message}"],
    and [provider_name] joins the context. *)
Definition ProviderUnavailableError (message provider_name : string)
    (context : list (string * string)) : exception :=
  {| exn_class := "ProviderUnavailableError";
     exn_message := "Provider '" +:+ provider_name +:+ "' is unavailable: " +:+ message;
     exn_context := context ++ [("provider_name", provider_name)] |}.

(** The files of the backing directory, by name. *)
Definition files := gmap string (list Byte.byte).

(** What the file system does to one call: nothing, or an [OSError] when the
    temporary file is opened, after [n] bytes of it are written, or when it
    is renamed; or an [OSError] on reading. *)
Inductive io_fault : Type :=
  | NoFault
  | OpenFails (detail : string)
  | WriteFails (n : nat) (detail : string)
  | ReplaceFails (detail : string)
  | ReadFails (detail : string).

(** [key[:50]] *)
Definition key_prefix (key : string) : string := String.substring 0 50 key.

Section WithHash.
(** [hashlib.sha256(key.encode("utf-8")).hexdigest()] *)
Variable sha256_hexdigest : string → string.

Definition _key_to_path (key : string) : string :=
  sha256_hexdigest key +:+ ".dat".

(** [path.with_suffix(".tmp")] *)
Definition temp_path_of (key : string) : string :=
  sha256_hexdigest key +:+ ".tmp".

Definition exists_ (fs : files) (key : string) : bool :=
  bool_decide (is_Some (fs !! _key_to_path key)).

Definition read (fs : files) (fault : io_fault) (key : string)
    : outcome (list Byte.byte) :=
  let path := _key_to_path key in
  match fs !! path with
  | None =>
      Err (NotFoundError
             ("Stored data not found for key: " +:+ key_prefix key +:+ "...")
             [("key", key); ("path", path)])
  | Some data =>
      match fault with
      | ReadFails detail =>
          Err (BadRequestError
                 ("Failed to read stored data for key: " +:+ key_prefix key +:+ "...")
                 [("key", key); ("path", path); ("error", detail)])
      | _ =>
          match data with
          | [] =>
              Err (BadRequestError
                     ("Stored data is empty for key: " +:+ key_prefix key +:+ "...")
                     [("key", key); ("path", path)])
          | _ :: _ => Ok data
          end
      end
  end.

Definition write_failed (key detail : string) : exception :=
  BadRequestError
    ("Failed to write stored data for key: " +:+ key_prefix key +:+ "...")
    [("key", key); ("path", _key_to_path key); ("error", detail)].

(** [write]: the data goes to the temporary file, which then replaces the
    file of the key. *)
Definition write (fs : files) (fault : io_fault) (key : string)
    (data : list Byte.byte) : outcome unit * files :=
  match data with
  | [] => (Err (BadRequestError "Cannot store empty data" [("key", key)]), fs)
  | _ :: _ =>
      let path := _key_to_path key in
      let temp_path := temp_path_of key in
      match fault with
      | OpenFails detail => (Err (write_failed key detail), fs)
      | WriteFails n detail =>
          (Err (write_failed key detail), <[temp_path := take n data]> fs)
      | ReplaceFails detail =>
          (Err (write_failed key detail), <[temp_path := data]> fs)
      | _ => (Ok (), <[path := data]> (delete temp_path (<[temp_path := data]> fs)))
      end
  end.
End WithHash.

(** [sorted(kwargs.items())]: the keyword names are distinct, so the pairs
    are ordered by name. *)
Definition kwarg_le (p q : string * string) : Prop := String.le p.1 q.1.

#[global] Instance kwarg_le_dec : RelDecision kwarg_le.
Proof. intros p q. unfold kwarg_le. apply _. Defined.

Fixpoint join (sep : string) (parts : list string) : string :=
  match parts with
  | [] => ""
  | [p] => p
  | p :: rest => p +:+ sep +:+ join sep rest
  end.

Definition make_storage_key (prefix : string) (kwargs : list (string * string))
    : string :=
  let sorted_items := merge_sort kwarg_le kwargs in
  let components := join ":" ((fun kv => kv.1 +:+ ":" +:+ kv.2) <$> sorted_items) in
  prefix +:+ ":" +:+ components.

End Storage.

(** ** Price acquisition ([app/data/providers/yahoo.py]) *)

Module Yahoo.
Import Storage.

(** [app/data/models/prices.py] *)
Record PriceBar : Type := {
  trading_date : Z;
  open : float;
  high : float;
  low : float;
  close : float;
  adjusted_close : option float;
  volume : Z;
}.

Record PriceSeriesMetadata : Type := {
  source : string;
  ticker : string;
  currency : string;
  is_adjusted : bool;
  frequency : string;
}.

Record PriceSeries : Type := {
  bars : list PriceBar;
  metadata : PriceSeriesMetadata;
}.

(** ASCII case mapping, for [str.lower()] and [str.upper()] on ASCII text. *)
Definition lower_char (c : Ascii.ascii) : Ascii.ascii :=
  let n := Ascii.nat_of_ascii c in
  if ((65 <=? n) && (n <=? 90))%nat then Ascii.ascii_of_nat (n + 32) else c.
Definition upper_char (c : Ascii.ascii) : Ascii.ascii :=
  let n := Ascii.nat_of_ascii c in
  if ((97 <=? n) && (n <=? 122))%nat then Ascii.ascii_of_nat (n - 32) else c.

Fixpoint map_string (f : Ascii.ascii → Ascii.ascii) (s : string) : string :=
  match s with
  | EmptyString => EmptyString
  | String c rest => String (f c) (map_string f rest)
  end.
Definition lower : string → string := map_string lower_char.
Definition upper : string → string := map_string upper_char.

(** [pattern in s] *)
Fixpoint contains (pattern s : string) : bool :=
  String.prefix pattern s
  || match s with
     | EmptyString => false
     | String _ rest => contains pattern rest
     end.

Definition not_found_patterns : list string :=
  ["not found"; "no data"; "invalid"; "does not exist"; "symbol"].

(** What reading back a stored blob gives: [json.loads] of the decoded
    bytes and the pydantic models built from it. *)
Inductive parsed : Type :=
  | Parsed (bars : list PriceBar) (metadata : PriceSeriesMetadata)
      (* a dict with "bars" and "metadata" from which the models validate *)
  | BadStructure
      (* valid JSON that is not a dict holding "bars" and "metadata" *)
  | DecodeFailure (detail : string)
      (* JSONDecodeError, UnicodeDecodeError, KeyError or TypeError *)
  | OtherFailure (e : exception)
      (* any other exception, e.g. a pydantic ValidationError *).

(** What one call meets outside the program: the answer of the upstream
    ([yf.Ticker(ticker).history(...)] and the bars built from its rows, or
    the exception either raises), the store as other callers leave it while
    the call waits for the upstream, and the faults of its own reads and
    writes. *)
Record environment : Type := {
  upstream : outcome (list PriceBar);
  concurrent_writes : files → files;
  read_fault : io_fault;
  write_fault : io_fault;
}.

Section WithLibraries.
Variable sha256_hexdigest : string → string.
(** [date.isoformat()], which is also [str(date)] *)
Variable isoformat : Z → string.
(** [json.dumps(price_data, sort_keys=True, default=str).encode("utf-8")] *)
Variable serialize : list PriceBar → PriceSeriesMetadata → list Byte.byte.
(** [json.loads(stored_data.decode("utf-8"))] and the model constructors *)
Variable deserialize : list Byte.byte → parsed.

Definition storage_key (ticker : string) (start end_ : Z) : string :=
  make_storage_key "yahoo"
    [("ticker", upper ticker); ("start", isoformat start); ("end", isoformat end_)].

Definition no_price_data (ticker : string) (start end_ : Z) : string :=
  "No price data available for ticker '" +:+ ticker +:+ "' for date range "
  +:+ isoformat start +:+ " to " +:+ isoformat end_ +:+ ".".

Definition corrupted (ticker : string) : string :=
  "Price data for ticker '" +:+ ticker +:+ "' is corrupted or invalid.".

Definition request_context (ticker : string) (start end_ : Z)
    : list (string * string) :=
  [("ticker", ticker); ("start", isoformat start); ("end", isoformat end_)].

(** The replay path: the body of [if self._storage.exists(storage_key)]. *)
Definition load_replay (fs : files) (env : environment)
    (ticker : string) (start end_ : Z) : outcome PriceSeries :=
  match read sha256_hexdigest fs (read_fault env) (storage_key ticker start end_) with
  | Err e => Err e
  | Ok stored_data =>
      match deserialize stored_data with
      | BadStructure =>
          Err (BadRequestError
                 ("Stored price data has invalid structure for ticker '" +:+ ticker
                  +:+ "'. Expected dict with 'bars' and 'metadata' keys.")
                 (request_context ticker start end_))
      | Parsed [] _ =>
          Err (NotFoundError (no_price_data ticker start end_)
                             (request_context ticker start end_))
      | Parsed bars metadata => Ok {| bars := bars; metadata := metadata |}
      | DecodeFailure detail =>
          Err (BadRequestError (corrupted ticker)
                 (request_context ticker start end_ ++ [("error", detail)]))
      | OtherFailure e => Err e
      end
  end.

(** The fallback path: the body of [if self._storage.exists(storage_key)]
    inside [except Exception as e]. *)
Definition load_fallback (fs : files) (env : environment) (e : exception)
    (ticker : string) (start end_ : Z) : outcome PriceSeries :=
  match read sha256_hexdigest fs (read_fault env) (storage_key ticker start end_) with
  | Err e' => Err e'
  | Ok stored_data =>
      match deserialize stored_data with
      | BadStructure =>
          Err (BadRequestError (corrupted ticker)
                               (request_context ticker start end_))
      | Parsed [] _ =>
          Err (NotFoundError (no_price_data ticker start end_)
                             (request_context ticker start end_))
      | Parsed bars metadata => Ok {| bars := bars; metadata := metadata |}
      | DecodeFailure detail =>
          Err (BadRequestError (corrupted ticker)
                 [("ticker", ticker); ("start_date", isoformat start);
                  ("end_date", isoformat end_);
                  ("upstream_error", exn_message e); ("storage_error", detail)])
      | OtherFailure e' => Err e'
      end
  end.

(** The end of the handler, when nothing is persisted: the error raised is
    chosen from the text of the one caught. *)
Definition classify_failure (e : exception) (ticker : string) (start end_ : Z)
    : exception :=
  let error_msg := lower (exn_message e) in
  let error_msg_lower := lower error_msg in
  let is_not_found :=
    existsb (fun pattern => contains pattern error_msg_lower) not_found_patterns in
  if is_not_found
  then NotFoundError (no_price_data ticker start end_)
         [("ticker", ticker); ("start_date", isoformat start);
          ("end_date", isoformat end_)]
  else ProviderUnavailableError
         "Market data provider is temporarily unavailable." "yahoo"
         [("ticker", ticker); ("start_date", isoformat start);
          ("end_date", isoformat end_); ("error_type", exn_class e)].

(** The [try] block up to the construction of [price_series]. *)
Definition fetch_fresh (env : environment) (ticker : string) (start end_ : Z)
    : outcome PriceSeries :=
  match upstream env with
  | Err e => Err e
  | Ok [] =>
      Err (NotFoundError (no_price_data ticker start end_)
                         (request_context ticker start end_))
  | Ok bars =>
      Ok {| bars := bars;
            metadata := {| source := "yahoo"; ticker := upper ticker;
                           currency := "USD"; is_adjusted := true;
                           frequency := "daily" |} |}
  end.

(** The store-if-absent step: [if not self._storage.exists(storage_key)]
    write, and a failed write is logged, not raised. *)
Definition store_if_absent (fs : files) (fault : io_fault) (key : string)
    (stored_data : list Byte.byte) : files :=
  if exists_ sha256_hexdigest fs key then fs
  else (write sha256_hexdigest fs fault key stored_data).2.

(** [get_price_series]: the result and the store it leaves;
    [storage = None] is a provider without persistence. *)
Definition get_price_series (storage : option files) (env : environment)
    (ticker : string) (start end_ : Z) : outcome PriceSeries * option files :=
  let key := storage_key ticker start end_ in
  match storage with
  | Some fs =>
      if exists_ sha256_hexdigest fs key
      then (load_replay fs env ticker start end_, Some fs)
      else
        let fs := concurrent_writes env fs in
        match fetch_fresh env ticker start end_ with
        | Ok price_series =>
            let stored_data :=
              serialize (bars price_series) (metadata price_series) in
            (Ok price_series,
             Some (store_if_absent fs (write_fault env) key stored_data))
        | Err e =>
            if exists_ sha256_hexdigest fs key
            then (load_fallback fs env e ticker start end_, Some fs)
            else (Err (classify_failure e ticker start end_), Some fs)
        end
  | None =>
      match fetch_fresh env ticker start end_ with
      | Ok price_series => (Ok price_series, None)
      | Err e => (Err (classify_failure e ticker start end_), None)
      end
  end.

(** What the provider owes a key once [d1] is stored under it in [fs1]: it
    exists and reads back as [d1], and the store-if-absent step and a whole
    call of [get_price_series] for the key leave the store as it is. *)
Definition key_preserved (fs1 : files) (key : string) (d1 : list Byte.byte)
    : Prop :=
  exists_ sha256_hexdigest fs1 key = true
  ∧ read sha256_hexdigest fs1 NoFault key = Ok d1
  ∧ (∀ fault d2, store_if_absent fs1 fault key d2 = fs1)
  ∧ (∀ env ticker start end_,
       storage_key ticker start end_ = key →
       (get_price_series (Some fs1) env ticker start end_).2 = Some fs1).

(** [pattern] occurs in [s]. *)
Definition occurs_in (pattern s : string) : Prop :=
  ∃ before after, s = before +:+ pattern +:+ after.

(** The text of an error reads as a missing ticker or missing data: in lower
    case it holds one of the five patterns. *)
Definition reads_as_not_found (e : exception) : Prop :=
  ∃ pattern,
    pattern ∈ ["not found"; "no data"; "invalid"; "does not exist"; "symbol"]
    ∧ occurs_in pattern (lower (exn_message e)).

(** What a call owes when the upstream raises [e], the store holding
    nothing under the key when the call began. If a value is under the key
    by then: a value that reads back as a non-empty series is returned; one
    that is empty, does not decode or has another structure raises a
    [BadRequestError]; one that holds no bars raises a [NotFoundError]. If
    no value is under the key, the error raised is chosen from the text of
    [e]: the [NotFoundError] of the request when the text reads as not
    found, otherwise a [ProviderUnavailableError] of the provider yahoo that
    carries the class name of [e] as [error_type]. *)
Definition fallback_contract (fs : files) (env : environment)
    (ticker : string) (start end_ : Z) (e : exception) : Prop :=
  let key := storage_key ticker start end_ in
  let fs' := concurrent_writes env fs in
  let run := get_price_series (Some fs) env ticker start end_ in
  let dated :=
    [("ticker", ticker); ("start_date", isoformat start);
     ("end_date", isoformat end_)] in
  (∀ data bar bars metadata,
     fs' !! _key_to_path sha256_hexdigest key = Some data → data ≠ [] →
     read_fault env = NoFault →
     deserialize data = Parsed (bar :: bars) metadata →
     run = (Ok {| bars := bar :: bars; metadata := metadata |}, Some fs'))
  ∧ (∀ data,
       fs' !! _key_to_path sha256_hexdigest key = Some data →
       read_fault env = NoFault →
       data = [] ∨ deserialize data = BadStructure
       ∨ (∃ detail, deserialize data = DecodeFailure detail) →
       ∃ raised, run = (Err raised, Some fs')
                 ∧ exn_class raised = "BadRequestError")
  ∧ (∀ data metadata,
       fs' !! _key_to_path sha256_hexdigest key = Some data → data ≠ [] →
       read_fault env = NoFault →
       deserialize data = Parsed [] metadata →
       run = (Err (NotFoundError (no_price_data ticker start end_)
                                 (request_context ticker start end_)),
              Some fs'))
  ∧ (exists_ sha256_hexdigest fs' key = false →
     (reads_as_not_found e →
      run = (Err (NotFoundError (no_price_data ticker start end_) dated), Some fs'))
     ∧ (¬ reads_as_not_found e →
        run = (Err {| exn_class := "ProviderUnavailableError";
                      exn_message :=
                        "Provider 'yahoo' is unavailable: "
                        +:+ "Market data provider is temporarily unavailable.";
                      exn_context :=
                        dated ++ [("error_type", exn_class e);
                                  ("provider_name", "yahoo")] |},
               Some fs'))).
End WithLibraries.

End Yahoo.

(** ** Sample instances of the library parameters

    Simple stand-ins for the numpy and hashlib functions, used to run the
    model on concrete inputs. The theorems below hold for every instance. *)

Module Instances.

Definition sum_left (l : list float) : float :=
  fold_left PrimFloat.add l 0%float.

Definition mean_left (l : list float) : float :=
  (sum_left l / float_of_int (Z.of_nat (length l)))%float.

(** Two-pass sample standard deviation. *)
Definition std_ddof1_left (l : list float) : float :=
  let m := mean_left l in
  let squares := (fun x => ((x - m) * (x - m))%float) <$> l in
  PrimFloat.sqrt (sum_left squares / float_of_int (Z.of_nat (length l) - 1))%float.

(** A power function that only knows the exponent one. *)
Definition pow_one (x y : float) : result float :=
  if PrimFloat.eqb y 1 then Return x else Raise (OtherError "OverflowError").

(** A linear congruential generator standing in for numpy's: its state is
    an integer, a draw of [n] values advances it [n] times. *)
Definition lcg_next (g : Z) : Z := (g * 1103515245 + 12345) mod 2147483648.

Definition lcg_seed (s : Z) : result Z :=
  if s <? 0 then Raise (OtherError "expected non-negative integer") else Return s.

Fixpoint lcg_draws (f : Z → float) (n : nat) (g : Z) : list float * Z :=
  match n with
  | O => ([], g)
  | S n' =>
      let rest := lcg_draws f n' (lcg_next g) in
      (f (lcg_next g) :: rest.1, rest.2)
  end.

(** Sampling with replacement: the element at the state modulo the length. *)
Definition lcg_choice (g : Z) (a : list float) (n : Z) : result (list float * Z) :=
  if n <? 0 then Raise (OtherError "negative dimensions are not allowed")
  else Return (lcg_draws
                 (fun x => default 0%float (a !! Z.to_nat (x mod Z.of_nat (length a))))
                 (Z.to_nat n) g).

(** A three-point stand-in for the normal law: [loc - scale], [loc] or
    [loc + scale]. *)
Definition lcg_normal (g : Z) (loc scale : float) (n : Z) : result (list float * Z) :=
  if n <? 0 then Raise (OtherError "negative dimensions are not allowed")
  else Return (lcg_draws
                 (fun x => (loc + scale * float_of_int (x mod 3 - 1))%float)
                 (Z.to_nat n) g).

(** [date.fromordinal(n).isoformat()], by the civil-from-days computation. *)
Definition digit (n : Z) : string :=
  String (Ascii.ascii_of_nat (48 + Z.to_nat (n mod 10))) "".
Definition two_digits (n : Z) : string := digit (n / 10) +:+ digit n.
Definition four_digits (n : Z) : string := two_digits (n / 100) +:+ two_digits n.

Definition isoformat (n : Z) : string :=
  let z := n + 305 in
  let era := z / 146097 in
  let doe := z - era * 146097 in
  let yoe := (doe - doe / 1460 + doe / 36524 - doe / 146096) / 365 in
  let doy := doe - (365 * yoe + yoe / 4 - yoe / 100) in
  let mp := (5 * doy + 2) / 153 in
  let d := doy - (153 * mp + 2) / 5 + 1 in
  let m := if mp <? 10 then mp + 3 else mp - 9 in
  let y := yoe + era * 400 + (if m <=? 2 then 1 else 0) in
  four_digits y +:+ "-" +:+ two_digits m +:+ "-" +:+ two_digits d.

(** A digest that only wraps the key: injective, which is all the store
    asks of SHA-256. *)
Definition wrap_digest (key : string) : string := "sha256(" +:+ key +:+ ")".

End Instances.

(** ** A stand-in for numpy.linalg and scipy.stats *)

Module Ols.
Import Regression.

(** Ordinary least squares by the normal equations, solved by Gauss-Jordan
    elimination without pivoting. *)
Definition list_of_vec4 (v : vec4) : list float := [v0 v; v1 v; v2 v; v3 v].
Definition vec4_of_list (l : list float) : vec4 :=
  Vec4 (default 0%float (l !! 0%nat)) (default 0%float (l !! 1%nat))
       (default 0%float (l !! 2%nat)) (default 0%float (l !! 3%nat)).
Definition dot (a b : list float) : float :=
  fold_left PrimFloat.add (zip_with PrimFloat.mul a b) 0%float.
Definition column (X : list vec4) (j : nat) : list float :=
  (fun row => default 0%float (list_of_vec4 row !! j)) <$> X.
(** [X.T @ X], each row followed by the matching row of the identity. *)
Definition augmented_gram (X : list vec4) : list (list float) :=
  (fun i => ((fun j => dot (column X i) (column X j)) <$> seq 0 4)
            ++ ((fun j => if decide (i = j) then 1%float else 0%float) <$> seq 0 4))
  <$> seq 0 4.
Definition eliminate (col : nat) (rows : list (list float)) : option (list (list float)) :=
  pivot_row ← rows !! col ;
  pivot ← pivot_row !! col ;
  if PrimFloat.eqb pivot 0 then None
  else
    let unit_row := (fun x => (x / pivot)%float) <$> pivot_row in
    Some (imap (fun i row =>
                  if decide (i = col) then unit_row
                  else let c := default 0%float (row !! col) in
                       zip_with (fun a b => (a - c * b)%float) row unit_row)
               rows).
Definition inverse_gram (X : list vec4) : option (list (list float)) :=
  rows ← foldl (fun acc col => acc ≫= eliminate col) (Some (augmented_gram X)) (seq 0 4) ;
  Some (drop 4 <$> rows).
Definition mat4_of_rows (rows : list (list float)) : mat4 :=
  Mat4 (vec4_of_list (default [] (rows !! 0%nat))) (vec4_of_list (default [] (rows !! 1%nat)))
       (vec4_of_list (default [] (rows !! 2%nat))) (vec4_of_list (default [] (rows !! 3%nat))).
Definition inv_gram (X : list vec4) : result mat4 :=
  match inverse_gram X with
  | Some rows => Return (mat4_of_rows rows)
  | None => Raise (LinAlgError "Singular matrix")
  end.
Definition lstsq (X : list vec4) (y : list float) : result (vec4 * Z) :=
  match inverse_gram X with
  | Some rows =>
      let Xty := (fun j => dot (column X j) y) <$> seq 0 4 in
      Return (vec4_of_list ((fun row => dot row Xty) <$> rows), 4)
  | None => Return (Vec4 0 0 0 0, 3)
  end.
Definition matvec (X : list vec4) (c : vec4) : list float :=
  (fun row => dot (list_of_vec4 row) (list_of_vec4 c)) <$> X.
(** The normal law in place of Student's, by the rational approximation
    26.2.18 of Abramowitz and Stegun (for [x >= 0]). *)
Definition t_cdf (x : float) (df : Z) : float :=
  let p := (1 + 0.196854 * x + 0.115194 * x * x + 0.000344 * x * x * x
            + 0.019527 * x * x * x * x)%float in
  let p2 := (p * p)%float in
  (1 - 0.5 / (p2 * p2))%float.
End Ols.

(** ** Sample inputs *)

Module Samples.

Definition bar (d : Z) (r : float) : Returns.ReturnBar :=
  {| Returns.trading_date := d; Returns.return_ := r |}.

(** Two series of one ticker; the first lacks the third day. *)
Definition acme_short : Returns.ReturnSeries :=
  {| Returns.ticker := "ACME";
     Returns.returns := [bar 1 0.5; bar 2 0.25];
     Returns.uses_adjusted_prices := true |}.
Definition acme : Returns.ReturnSeries :=
  {| Returns.ticker := "ACME";
     Returns.returns := [bar 1 0.5; bar 2 0.25; bar 3 0.125];
     Returns.uses_adjusted_prices := true |}.
(** Out of order, with day 2 twice. *)
Definition bolt : Returns.ReturnSeries :=
  {| Returns.ticker := "BOLT";
     Returns.returns := [bar 3 0.5; bar 2 0.25; bar 2 (-0.125); bar 4 1];
     Returns.uses_adjusted_prices := true |}.

(** Tickers A (weight 0.6) and B (weight 0.4) over five common dates. *)
Definition ab_returns : gmap string (list float) :=
  <["B" := [0.02; 0.01; -0.01; 0.005; 0]%float]>
    (<["A" := [0.01; -0.02; 0.03; 0; 0.015]%float]> ∅).

Definition ab_dates : list Z := [1; 2; 3; 4; 5].

Definition ab_portfolio : PortfolioAgg.Portfolio :=
  {| PortfolioAgg.holdings :=
       [ {| PortfolioAgg.ticker := "A"; PortfolioAgg.weight := 0.6 |};
         {| PortfolioAgg.ticker := "B"; PortfolioAgg.weight := 0.4 |} ];
     PortfolioAgg.currency := "USD";
     PortfolioAgg.benchmark := None;
     PortfolioAgg.start_date := 1;
     PortfolioAgg.end_date := 5 |}.

(** The same portfolio without a holding of B. *)
Definition a_only_portfolio : PortfolioAgg.Portfolio :=
  {| PortfolioAgg.holdings :=
       [ {| PortfolioAgg.ticker := "A"; PortfolioAgg.weight := 1 |} ];
     PortfolioAgg.currency := "USD";
     PortfolioAgg.benchmark := None;
     PortfolioAgg.start_date := 1;
     PortfolioAgg.end_date := 5 |}.

(** Thirty (or [n]) days of factor returns and of a portfolio that follows
    them with loadings 1.1, 0.3 and -0.2, an alpha of 0.001 and some noise. *)
Definition day_value (a m c scale : Z) (i : nat) : float :=
  (float_of_int ((Z.of_nat i * a) mod m - c) / float_of_int scale)%float.

Definition factor_matrix (n : nat) : Regression.AlignedFactorMatrix :=
  let days := seq 0 n in
  {| Regression.dates := Z.of_nat <$> days;
     Regression.portfolio_returns :=
       (fun i => (0.001 + 1.1 * day_value 7 11 5 100 i
                  + 0.3 * day_value 5 7 3 100 i
                  - 0.2 * day_value 3 5 2 100 i
                  + day_value 11 13 6 1000 i + 0.0001)%float) <$> days;
     Regression.market_excess_returns := day_value 7 11 5 100 <$> days;
     Regression.smb_returns := day_value 5 7 3 100 <$> days;
     Regression.hml_returns := day_value 3 5 2 100 <$> days;
     Regression.risk_free_rates := (fun _ => 0.0001%float) <$> days |}.


(** The same days with a portfolio that does not follow the factors: its
    returns are the noise alone. *)
Definition noise_matrix (n : nat) : Regression.AlignedFactorMatrix :=
  let m := factor_matrix n in
  {| Regression.dates := Regression.dates m;
     Regression.portfolio_returns :=
       (fun i => (day_value 11 13 6 1000 i + 0.0001)%float) <$> seq 0 n;
     Regression.market_excess_returns := Regression.market_excess_returns m;
     Regression.smb_returns := Regression.smb_returns m;
     Regression.hml_returns := Regression.hml_returns m;
     Regression.risk_free_rates := Regression.risk_free_rates m |}.

Definition aligned_data (m : Regression.AlignedFactorMatrix)
    : Regression.AlignedFactorData :=
  {| Regression.matrix := m;
     Regression.metadata :=
       {| Regression.aligned_days := Z.of_nat (length (Regression.dates m));
          Regression.portfolio_dropped_days := 0;
          Regression.factor_dropped_days := 0;
          Regression.alignment_method := "intersection" |} |}.

(** 2023-01-03 and 2023-01-04, as ordinals, and two bars of those days. *)
Definition jan_3 : Z := 738523.
Definition jan_4 : Z := 738524.

(** The key of the request for AAPL over those two days. *)
Definition aapl_key : string :=
  "yahoo:end:2023-01-04:start:2023-01-03:ticker:AAPL".

Definition two_bars : list Yahoo.PriceBar :=
  [ {| Yahoo.trading_date := jan_3; Yahoo.open := 125; Yahoo.high := 130;
       Yahoo.low := 124; Yahoo.close := 125.5;
       Yahoo.adjusted_close := Some 125.5%float; Yahoo.volume := 1000 |};
    {| Yahoo.trading_date := jan_4; Yahoo.open := 126; Yahoo.high := 128;
       Yahoo.low := 125; Yahoo.close := 126.5;
       Yahoo.adjusted_close := Some 126.5%float; Yahoo.volume := 1200 |} ].

Definition yahoo_metadata : Yahoo.PriceSeriesMetadata :=
  {| Yahoo.source := "yahoo"; Yahoo.ticker := "AAPL"; Yahoo.currency := "USD";
     Yahoo.is_adjusted := true; Yahoo.frequency := "daily" |}.

(** A codec that knows one blob, that of [two_bars]. *)
Definition blob : list Byte.byte := [Byte.x7b; Byte.x7d].
Definition other_blob : list Byte.byte := [Byte.x5b; Byte.x5d].

Definition serialize_blob (bars : list Yahoo.PriceBar)
    (metadata : Yahoo.PriceSeriesMetadata) : list Byte.byte := blob.

Definition deserialize_blob (data : list Byte.byte) : Yahoo.parsed :=
  match data with
  | [Byte.x7b; Byte.x7d] => Yahoo.Parsed two_bars yahoo_metadata
  | _ => Yahoo.DecodeFailure "Expecting value: line 1 column 1 (char 0)"
  end.

(** An upstream that cannot be reached. *)
Definition connection_error : Storage.exception :=
  {| Storage.exn_class := "ConnectionError";
     Storage.exn_message := "Connection timed out";
     Storage.exn_context := [] |}.

(** An upstream that does not know the ticker, in the words of yfinance. *)
Definition delisted_error : Storage.exception :=
  {| Storage.exn_class := "Exception";
     Storage.exn_message := "AAPL: No data found, symbol may be delisted";
     Storage.exn_context := [] |}.

(** A call that meets the given upstream answer, no other caller and no
    fault. *)
Definition quiet (upstream : Storage.outcome (list Yahoo.PriceBar))
    : Yahoo.environment :=
  {| Yahoo.upstream := upstream;
     Yahoo.concurrent_writes := fun fs => fs;
     Yahoo.read_fault := Storage.NoFault;
     Yahoo.write_fault := Storage.NoFault |}.

(** A call during which another caller persists [blob] under the key. *)
Definition raced (key : string) (upstream : Storage.outcome (list Yahoo.PriceBar))
    : Yahoo.environment :=
  {| Yahoo.upstream := upstream;
     Yahoo.concurrent_writes := fun fs =>
       (Storage.write Instances.wrap_digest fs Storage.NoFault key blob).2;
     Yahoo.read_fault := Storage.NoFault;
     Yahoo.write_fault := Storage.NoFault |}.

End Samples.

(** * Further functions of the analytics core *)

(** ** Their exceptions *)

(** The [ValueError]s of the functions below, one constructor per raise
    site. *)
Inductive analytics_error : Type :=
  | PriceSeriesTooShort
      (* "Price series must have at least 2 bars to compute returns" *)
  | MixedAdjustedPrices (ticker : string)
      (* "Mixed adjusted/unadjusted prices detected for {ticker}. ..." *)
  | MaxDrawdownEmpty
      (* "Max drawdown calculation requires non-empty return series. ..." *)
  | PortfolioReturnsEmpty
      (* "Portfolio returns cannot be empty. ..." *)
  | PortfolioSeriesEmpty
      (* "Portfolio return series cannot be empty" *)
  | FactorSeriesEmpty
      (* "Factor series cannot be empty" *)
  | NoCommonFactorDates (portfolio_first portfolio_last factor_first factor_last : Z)
      (* "No common dates found between portfolio returns ({..} to {..})
         and factor returns ({..} to {..})" *).

(** What a call of these functions can raise: one of the errors above, a
    division by zero, or an exception of the functions modelled earlier. *)
Inductive failure : Type :=
  | ValueErrorOf (e : analytics_error)
  | ZeroDivisionError
  | Earlier (e : exn).

Inductive attempt (A : Type) : Type :=
  | Done (a : A)
  | Failed (f : failure).
Arguments Done {A} a.
Arguments Failed {A} f.

#[global] Instance attempt_ret : MRet attempt := fun A a => Done a.
#[global] Instance attempt_bind : MBind attempt := fun A B k r =>
  match r with
  | Done a => k a
  | Failed f => Failed f
  end.

(** A call of an earlier function inside a later one. *)
Definition lift {A} (r : result A) : attempt A :=
  match r with
  | Return a => Done a
  | Raise e => Failed (Earlier e)
  end.

(** [x / y] on floats: Python raises when the divisor is zero. *)
Definition float_div (x y : float) : attempt float :=
  if PrimFloat.eqb y 0 then Failed ZeroDivisionError else Done (x / y)%float.

(** [a / b] on Python ints of any size: the binary64 nearest to the exact
    quotient, ties to even. The quotient is taken to 64 bits or more, with a
    last bit that records a remainder, and rounded once. A quotient beyond
    the range of binary64 raises [OverflowError]. *)
Definition int_true_div (a b : Z) : attempt float :=
  if b =? 0 then Failed ZeroDivisionError
  else
    let negative := xorb (a <? 0) (b <? 0) in
    let n := Z.abs a in
    let d := Z.abs b in
    let shift := Z.max 0 (Z.log2 d - Z.log2 n + 64) in
    let q := (n * 2 ^ shift) / d in
    let sticky := if (n * 2 ^ shift) mod d =? 0 then 0 else 1 in
    let m := 2 * q + sticky in
    let x := SF2Prim (binary_normalize prec emax (if negative then - m else m)
                        (- (shift + 1)) negative) in
    if PrimFloat.is_infinity x
    then Failed (Earlier (OtherError
                            "OverflowError: integer division result too large for a float"))
    else Done x.

(** ** Drawdown and the metrics record ([app/analytics/metrics.py]) *)

Module Drawdown.

Record PerformanceMetrics : Type := {
  cumulative_return : float;
  cagr : float;
  annualized_volatility : float;
  max_drawdown : float;
  sharpe_ratio : float;
}.

(** The variables of the loop of [compute_max_drawdown]. *)
Record loop_state : Type := {
  cumulative : float;
  peak : float;
  max_dd : float;
}.

(** One turn of the loop, for the return [ret]. *)
Definition step (st : loop_state) (ret : float) : attempt loop_state :=
  let cumulative := (cumulative st * (1 + ret))%float in
  let peak := if PrimFloat.ltb (peak st) cumulative then cumulative else peak st in
  drawdown ← float_div (cumulative - peak)%float peak ;
  let max_dd := if PrimFloat.ltb drawdown (max_dd st) then drawdown else max_dd st in
  Done {| cumulative := cumulative; peak := peak; max_dd := max_dd |}.

Fixpoint loop (st : loop_state) (returns : list float) : attempt loop_state :=
  match returns with
  | [] => Done st
  | ret :: rest => st' ← step st ret ; loop st' rest
  end.

Definition compute_max_drawdown (returns : list float) : attempt float :=
  match returns with
  | [] => Failed (ValueErrorOf MaxDrawdownEmpty)
  | _ :: _ =>
      st ← loop {| cumulative := 1; peak := 1; max_dd := 0 |} returns ;
      Done (max_dd st)
  end.

(** What the loop keeps: a positive peak, and a drawdown that is zero or
    negative. *)
Definition loop_invariant (st : loop_state) : Prop :=
  PrimFloat.ltb 0 (peak st) = true
  ∧ (max_dd st = 0%float ∨ PrimFloat.ltb (max_dd st) 0 = true).

Section WithNumpy.
Variable np_mean : list float → float.
Variable np_std_ddof1 : list float → float.
Variable float_pow : float → float → result float.

Definition compute_metrics (portfolio_returns : PortfolioAgg.PortfolioReturnSeries)
    (risk_free_rate : float) (trading_days_per_year : Z)
    : attempt PerformanceMetrics :=
  let returns := PortfolioAgg.returns portfolio_returns in
  match returns with
  | [] => Failed (ValueErrorOf PortfolioReturnsEmpty)
  | _ :: _ =>
      let cumulative_return := Metrics.compute_cumulative_return returns in
      years ← int_true_div (Z.of_nat (length returns)) trading_days_per_year ;
      cagr ← lift (Metrics.compute_cagr float_pow cumulative_return years) ;
      annualized_volatility ←
        lift (Metrics.compute_annualized_volatility np_std_ddof1 returns
                trading_days_per_year) ;
      max_drawdown ← compute_max_drawdown returns ;
      sharpe_ratio ←
        lift (Metrics.compute_sharpe_ratio np_mean np_std_ddof1 returns
                risk_free_rate trading_days_per_year) ;
      Done {| cumulative_return := cumulative_return;
              cagr := cagr;
              annualized_volatility := annualized_volatility;
              max_drawdown := max_drawdown;
              sharpe_ratio := sharpe_ratio |}
  end.
End WithNumpy.

End Drawdown.

(** ** From prices to returns ([app/analytics/returns.py]) *)

Module PriceReturns.

(** [bar.adjusted_close if bar.adjusted_close is not None else bar.close] *)
Definition price_of (bar : Yahoo.PriceBar) : float :=
  match Yahoo.adjusted_close bar with
  | Some adjusted => adjusted
  | None => Yahoo.close bar
  end.

(** The loop [for i in range(1, len(bars))], with [prev_bar = bars[i - 1]]
    and [rest] the bars from [bars[i]] on. *)
Fixpoint daily_returns (prev_bar : Yahoo.PriceBar) (rest : list Yahoo.PriceBar)
    : attempt (list Returns.ReturnBar) :=
  match rest with
  | [] => Done []
  | curr_bar :: rest' =>
      ratio ← float_div (price_of curr_bar) (price_of prev_bar) ;
      let daily_return := (ratio - 1)%float in
      returns ← daily_returns curr_bar rest' ;
      Done ({| Returns.trading_date := Yahoo.trading_date curr_bar;
               Returns.return_ := daily_return |} :: returns)
  end.

Definition price_series_to_returns (price_series : Yahoo.PriceSeries)
    : attempt Returns.ReturnSeries :=
  let bars := Yahoo.bars price_series in
  match bars with
  | first :: ((_ :: _) as rest) =>
      let has_adjusted :=
        existsb (fun bar => bool_decide (Yahoo.adjusted_close bar ≠ None)) bars in
      let has_unadjusted :=
        existsb (fun bar => bool_decide (Yahoo.adjusted_close bar = None)) bars in
      if has_adjusted && has_unadjusted
      then Failed (ValueErrorOf
                     (MixedAdjustedPrices
                        (Yahoo.ticker (Yahoo.metadata price_series))))
      else
        returns ← daily_returns first rest ;
        let uses_adjusted :=
          Yahoo.is_adjusted (Yahoo.metadata price_series)
          && forallb (fun bar => bool_decide (Yahoo.adjusted_close bar ≠ None)) bars in
        Done {| Returns.ticker := Yahoo.ticker (Yahoo.metadata price_series);
                Returns.returns := returns;
                Returns.uses_adjusted_prices := uses_adjusted |}
  | _ => Failed (ValueErrorOf PriceSeriesTooShort)
  end.

(** The vocabulary of its contract. *)

(** All bars carry an adjusted close, or none does. *)
Definition uniform_adjustment (bars : list Yahoo.PriceBar) : Prop :=
  Forall (fun bar => Yahoo.adjusted_close bar ≠ None) bars
  ∨ Forall (fun bar => Yahoo.adjusted_close bar = None) bars.

(** [returns] holds one return per pair of consecutive bars: dated as the
    later bar, and worth the ratio of the two prices minus one. *)
Definition returns_of_bars (bars : list Yahoo.PriceBar)
    (returns : list Returns.ReturnBar) : Prop :=
  S (length returns) = length bars
  ∧ ∀ i prev_bar curr_bar,
      bars !! i = Some prev_bar → bars !! S i = Some curr_bar →
      returns !! i
      = Some {| Returns.trading_date := Yahoo.trading_date curr_bar;
                Returns.return_ :=
                  (price_of curr_bar / price_of prev_bar - 1)%float |}.

End PriceReturns.

(** ** Alignment of portfolio and factor returns ([app/analytics/factors.py]) *)

Module Factors.

(** [app/data/models/factors.py] *)
Record FactorBar : Type := {
  trading_date : Z;
  market_excess_return : float;
  smb : float;
  hml : float;
  risk_free_rate : float;
}.

Record FactorSeriesMetadata : Type := {
  source : string;
  dataset_name : string;
  frequency : string;
  factors_included : list string;
  start_date : Z;
  end_date : Z;
}.

Record FactorSeries : Type := {
  bars : list FactorBar;
  metadata : FactorSeriesMetadata;
}.

Record FactorAlignmentMetadata : Type := {
  portfolio_original_start : Z;
  portfolio_original_end : Z;
  portfolio_original_days : Z;
  factor_original_start : Z;
  factor_original_end : Z;
  factor_original_days : Z;
  aligned_start : option Z;
  aligned_end : option Z;
  aligned_days : Z;
  portfolio_dropped_days : Z;
  factor_dropped_days : Z;
  alignment_method : string;
}.

(** The matrix is the one the regression reads. *)
Record AlignedFactorData : Type := {
  matrix : Regression.AlignedFactorMatrix;
  alignment : FactorAlignmentMetadata;
}.

(** [{bar.trading_date: bar for bar in factor_series.bars}] *)
Definition build_factor_map (bars : list FactorBar) : gmap Z FactorBar :=
  foldl (fun m bar => <[trading_date bar := bar]> m) ∅ bars.

(** [dict(zip(dates, returns))]: the pairs stop with the shorter list, and a
    later pair of a date replaces an earlier one. *)
Definition build_portfolio_map (dates : list Z) (returns : list float)
    : gmap Z float :=
  foldl (fun m pair => <[pair.1 := pair.2]> m) ∅ (zip dates returns).

(** The lists the loop [for dt in common_dates_sorted] appends to. *)
Record columns : Type := {
  aligned_portfolio_returns : list float;
  aligned_market_excess : list float;
  aligned_smb : list float;
  aligned_hml : list float;
  aligned_rf : list float;
}.

Fixpoint extract_columns (portfolio_map : gmap Z float)
    (factor_map : gmap Z FactorBar) (common_dates_sorted : list Z)
    : attempt columns :=
  match common_dates_sorted with
  | [] =>
      Done {| aligned_portfolio_returns := []; aligned_market_excess := [];
              aligned_smb := []; aligned_hml := []; aligned_rf := [] |}
  | dt :: rest =>
      match portfolio_map !! dt with
      | None => Failed (Earlier (KeyError (DateKey dt)))
      | Some portfolio_return =>
          match factor_map !! dt with
          | None => Failed (Earlier (KeyError (DateKey dt)))
          | Some factor_bar =>
              cols ← extract_columns portfolio_map factor_map rest ;
              Done {| aligned_portfolio_returns :=
                        portfolio_return :: aligned_portfolio_returns cols;
                      aligned_market_excess :=
                        market_excess_return factor_bar :: aligned_market_excess cols;
                      aligned_smb := smb factor_bar :: aligned_smb cols;
                      aligned_hml := hml factor_bar :: aligned_hml cols;
                      aligned_rf := risk_free_rate factor_bar :: aligned_rf cols |}
          end
      end
  end.

Definition align_portfolio_with_factors
    (portfolio_returns : PortfolioAgg.PortfolioReturnSeries)
    (factor_series : FactorSeries) : attempt AlignedFactorData :=
  match PortfolioAgg.dates portfolio_returns, bars factor_series with
  | [], _ => Failed (ValueErrorOf PortfolioSeriesEmpty)
  | _ :: _, [] => Failed (ValueErrorOf FactorSeriesEmpty)
  | first_date :: _, first_bar :: _ =>
      let dates := PortfolioAgg.dates portfolio_returns in
      let last_date := List.last dates first_date in
      let last_bar := List.last (bars factor_series) first_bar in
      let portfolio_dates_set : gset Z := list_to_set dates in
      let factor_dates_set : gset Z :=
        list_to_set (trading_date <$> bars factor_series) in
      let common_dates := portfolio_dates_set ∩ factor_dates_set in
      if decide (common_dates = ∅)
      then Failed (ValueErrorOf
                     (NoCommonFactorDates first_date last_date
                        (trading_date first_bar) (trading_date last_bar)))
      else
        let common_dates_sorted := Returns.sorted_dates common_dates in
        let factor_map := build_factor_map (bars factor_series) in
        let portfolio_map :=
          build_portfolio_map dates (PortfolioAgg.returns portfolio_returns) in
        cols ← extract_columns portfolio_map factor_map common_dates_sorted ;
        let portfolio_original_days := Z.of_nat (length dates) in
        let factor_original_days := Z.of_nat (length (bars factor_series)) in
        let aligned_days := Z.of_nat (length common_dates_sorted) in
        Done {| matrix :=
                  {| Regression.dates := common_dates_sorted;
                     Regression.portfolio_returns := aligned_portfolio_returns cols;
                     Regression.market_excess_returns := aligned_market_excess cols;
                     Regression.smb_returns := aligned_smb cols;
                     Regression.hml_returns := aligned_hml cols;
                     Regression.risk_free_rates := aligned_rf cols |};
                alignment :=
                  {| portfolio_original_start := first_date;
                     portfolio_original_end := last_date;
                     portfolio_original_days := portfolio_original_days;
                     factor_original_start := trading_date first_bar;
                     factor_original_end := trading_date last_bar;
                     factor_original_days := factor_original_days;
                     aligned_start := head common_dates_sorted;
                     aligned_end := last common_dates_sorted;
                     aligned_days := aligned_days;
                     portfolio_dropped_days := portfolio_original_days - aligned_days;
                     factor_dropped_days := factor_original_days - aligned_days;
                     alignment_method := "intersection" |} |}
  end.

(** The vocabulary of its contract. *)

(** The return the portfolio series holds for a date: that of the last
    position of the date among the dates that have a return. *)
Definition portfolio_return_on
    (portfolio_returns : PortfolioAgg.PortfolioReturnSeries) (d : Z)
    : option float :=
  snd <$> last (filter (fun pair => pair.1 = d)
                       (zip (PortfolioAgg.dates portfolio_returns)
                            (PortfolioAgg.returns portfolio_returns))).

(** The factor bar of a date: the last one of that date. *)
Definition factor_bar_on (factor_series : FactorSeries) (d : Z) : option FactorBar :=
  last (filter (fun bar => trading_date bar = d) (bars factor_series)).

(** Row [i] of the matrix holds the portfolio return and the factor bar of
    date [d]. *)
Definition matrix_row (m : Regression.AlignedFactorMatrix) (i : nat)
    (portfolio_return : float) (bar : FactorBar) : Prop :=
  Regression.portfolio_returns m !! i = Some portfolio_return
  ∧ Regression.market_excess_returns m !! i = Some (market_excess_return bar)
  ∧ Regression.smb_returns m !! i = Some (smb bar)
  ∧ Regression.hml_returns m !! i = Some (hml bar)
  ∧ Regression.risk_free_rates m !! i = Some (risk_free_rate bar).

(** The five columns of the matrix have the length of its date list. *)
Definition rectangular (m : Regression.AlignedFactorMatrix) : Prop :=
  length (Regression.portfolio_returns m) = length (Regression.dates m)
  ∧ length (Regression.market_excess_returns m) = length (Regression.dates m)
  ∧ length (Regression.smb_returns m) = length (Regression.dates m)
  ∧ length (Regression.hml_returns m) = length (Regression.dates m)
  ∧ length (Regression.risk_free_rates m) = length (Regression.dates m).

(** A date both series hold. *)
Definition shared_date (portfolio_returns : PortfolioAgg.PortfolioReturnSeries)
    (factor_series : FactorSeries) (d : Z) : Prop :=
  d ∈ PortfolioAgg.dates portfolio_returns
  ∧ d ∈ trading_date <$> bars factor_series.

(** What [align_portfolio_with_factors] owes its caller: an error for an
    empty portfolio series, an empty factor series or no shared date;
    otherwise the shared dates in ascending order and, row by row, the
    portfolio return and the factor bar of each date. *)
Definition factor_alignment_contract
    (portfolio_returns : PortfolioAgg.PortfolioReturnSeries)
    (factor_series : FactorSeries) (outcome : attempt AlignedFactorData) : Prop :=
  (PortfolioAgg.dates portfolio_returns = [] →
   outcome = Failed (ValueErrorOf PortfolioSeriesEmpty))
  ∧ (PortfolioAgg.dates portfolio_returns ≠ [] → bars factor_series = [] →
     outcome = Failed (ValueErrorOf FactorSeriesEmpty))
  ∧ (PortfolioAgg.dates portfolio_returns ≠ [] → bars factor_series ≠ [] →
     (¬ ∃ d, shared_date portfolio_returns factor_series d) →
     ∃ p_first p_last f_first f_last,
       outcome = Failed (ValueErrorOf
                           (NoCommonFactorDates p_first p_last f_first f_last))
       ∧ head (PortfolioAgg.dates portfolio_returns) = Some p_first
       ∧ last (PortfolioAgg.dates portfolio_returns) = Some p_last
       ∧ head (trading_date <$> bars factor_series) = Some f_first
       ∧ last (trading_date <$> bars factor_series) = Some f_last)
  ∧ ((∃ d, shared_date portfolio_returns factor_series d) →
     ∃ data,
       outcome = Done data
       ∧ StronglySorted Z.lt (Regression.dates (matrix data))
       ∧ (∀ d, d ∈ Regression.dates (matrix data)
               ↔ shared_date portfolio_returns factor_series d)
       ∧ rectangular (matrix data)
       ∧ ∀ i d, Regression.dates (matrix data) !! i = Some d →
           ∃ r bar,
             portfolio_return_on portfolio_returns d = Some r
             ∧ factor_bar_on factor_series d = Some bar
             ∧ matrix_row (matrix data) i r bar).

(** The day counts of the alignment metadata add up. *)
Definition day_accounting
    (portfolio_returns : PortfolioAgg.PortfolioReturnSeries)
    (factor_series : FactorSeries) (data : AlignedFactorData) : Prop :=
  let a := alignment data in
  aligned_days a = Z.of_nat (length (Regression.dates (matrix data)))
  ∧ 1 ≤ aligned_days a
  ∧ portfolio_original_days a
    = Z.of_nat (length (PortfolioAgg.dates portfolio_returns))
  ∧ factor_original_days a = Z.of_nat (length (bars factor_series))
  ∧ 0 ≤ portfolio_dropped_days a
  ∧ 0 ≤ factor_dropped_days a
  ∧ aligned_days a + portfolio_dropped_days a = portfolio_original_days a
  ∧ aligned_days a + factor_dropped_days a = factor_original_days a
  ∧ aligned_start a = head (Regression.dates (matrix data))
  ∧ aligned_end a = last (Regression.dates (matrix data)).

(** The input the regression takes from an aligned dataset: it reads the
    matrix only. *)
Definition regression_input (data : AlignedFactorData)
    : Regression.AlignedFactorData :=
  {| Regression.matrix := matrix data;
     Regression.metadata :=
       {| Regression.aligned_days := aligned_days (alignment data);
          Regression.portfolio_dropped_days := portfolio_dropped_days (alignment data);
          Regression.factor_dropped_days := factor_dropped_days (alignment data);
          Regression.alignment_method := alignment_method (alignment data) |} |}.

End Factors.

(** ** Within-request memoization ([app/core/memoization.py]) *)

Module Memoization.

Section Cache.
(** The cached values, the world the wrapped function acts on (the upstream
    it calls), and what the function may raise. *)
Context {T W E : Type}.

(** [get_request_cache]: the dict of the context variable, created on first
    use; the variable then holds that dict. *)
Definition get_request_cache (var : option (gmap string T))
    : gmap string T * option (gmap string T) :=
  match var with
  | None => (∅, Some ∅)
  | Some cache => (cache, Some cache)
  end.

Definition clear_request_cache (var : option (gmap string T))
    : option (gmap string T) :=
  Some ∅.

(** The wrapper that [memoize_request_sync(key)] puts around [func]: the
    result, the context variable and the world after the call. The dict the
    wrapper writes to is the one the variable holds. *)
Definition memoize_request_sync (key : string) (func : W → (E + T) * W)
    (var : option (gmap string T)) (w : W)
    : (E + T) * option (gmap string T) * W :=
  let cache := (get_request_cache var).1 in
  let var := (get_request_cache var).2 in
  match cache !! key with
  | Some cached => (inr cached, var, w)
  | None =>
      match func w with
      | (inl e, w') => (inl e, var, w')
      | (inr result, w') => (inr result, Some (<[key := result]> cache), w')
      end
  end.
End Cache.

End Memoization.

(** ** The vocabulary of the store's contract *)

Module StoreContract.

Section WithHash.
Variable sha256_hexdigest : string → string.

(** The stores that [write] alone can build from an empty directory,
    whatever the faults met. *)
Inductive built_by_writes : Storage.files → Prop :=
  | built_empty : built_by_writes ∅
  | built_write fs fault key data :
      built_by_writes fs →
      built_by_writes (Storage.write sha256_hexdigest fs fault key data).2.

(** Two stores that no [exists] and no [read] of the key [key] can tell
    apart. *)
Definition same_view (fs fs' : Storage.files) (key : string) : Prop :=
  Storage.exists_ sha256_hexdigest fs' key = Storage.exists_ sha256_hexdigest fs key
  ∧ ∀ fault, Storage.read sha256_hexdigest fs' fault key
             = Storage.read sha256_hexdigest fs fault key.
End WithHash.

End StoreContract.

(** ** Further sample data *)

Module MoreSamples.

(** The two sample bars as a series; its first bar alone; and the two bars
    when the second has lost its adjusted close. *)
Definition aapl_series : Yahoo.PriceSeries :=
  {| Yahoo.bars := Samples.two_bars; Yahoo.metadata := Samples.yahoo_metadata |}.

Definition one_bar_series : Yahoo.PriceSeries :=
  {| Yahoo.bars := take 1 Samples.two_bars;
     Yahoo.metadata := Samples.yahoo_metadata |}.

Definition unadjusted (bar : Yahoo.PriceBar) : Yahoo.PriceBar :=
  {| Yahoo.trading_date := Yahoo.trading_date bar; Yahoo.open := Yahoo.open bar;
     Yahoo.high := Yahoo.high bar; Yahoo.low := Yahoo.low bar;
     Yahoo.close := Yahoo.close bar; Yahoo.adjusted_close := None;
     Yahoo.volume := Yahoo.volume bar |}.

Definition mixed_series : Yahoo.PriceSeries :=
  {| Yahoo.bars := take 1 Samples.two_bars ++ (unadjusted <$> drop 1 Samples.two_bars);
     Yahoo.metadata := Samples.yahoo_metadata |}.

(** Factor bars of the days [0 .. n-1], and a portfolio series of [n] days
    from day [first] on that follows them as [Samples.factor_matrix] does. *)
Definition factor_bar (i : nat) : Factors.FactorBar :=
  {| Factors.trading_date := Z.of_nat i;
     Factors.market_excess_return := Samples.day_value 7 11 5 100 i;
     Factors.smb := Samples.day_value 5 7 3 100 i;
     Factors.hml := Samples.day_value 3 5 2 100 i;
     Factors.risk_free_rate := 0.0001 |}.

Definition factor_series (n : nat) : Factors.FactorSeries :=
  {| Factors.bars := factor_bar <$> seq 0 n;
     Factors.metadata :=
       {| Factors.source := "fama_french";
          Factors.dataset_name := "F-F_Research_Data_Factors_daily";
          Factors.frequency := "daily";
          Factors.factors_included := ["MKT-RF"; "SMB"; "HML"; "RF"];
          Factors.start_date := 0;
          Factors.end_date := Z.of_nat n - 1 |} |}.

Definition portfolio_series (first n : nat) : PortfolioAgg.PortfolioReturnSeries :=
  let days := seq first n in
  {| PortfolioAgg.dates := Z.of_nat <$> days;
     PortfolioAgg.returns :=
       (fun i => (0.001 + 1.1 * Samples.day_value 7 11 5 100 i
                  + 0.3 * Samples.day_value 5 7 3 100 i
                  - 0.2 * Samples.day_value 3 5 2 100 i
                  + Samples.day_value 11 13 6 1000 i + 0.0001)%float) <$> days;
     PortfolioAgg.benchmark_returns := None |}.

(** An upstream call that counts its calls: one that answers [v], and one
    that fails. *)
Definition counting_fetch (v : Z) (calls : nat) : (string + Z) * nat :=
  (inr v, S calls).

Definition failing_fetch (calls : nat) : (string + Z) * nat :=
  (inl "upstream is down", S calls).

(** A store that holds, under the key of the AAPL request, bytes that are
    not the JSON of a price series. *)
Definition corrupt_store : Storage.files :=
  (Storage.write Instances.wrap_digest ∅ Storage.NoFault Samples.aapl_key
     Samples.other_blob).2.

(** A call that meets the given upstream answer and a disk that fails as
    [fault] says. *)
Definition faulty (fault : Storage.io_fault)
    (upstream : Storage.outcome (list Yahoo.PriceBar)) : Yahoo.environment :=
  {| Yahoo.upstream := upstream;
     Yahoo.concurrent_writes := fun fs => fs;
     Yahoo.read_fault := Storage.NoFault;
     Yahoo.write_fault := fault |}.

(** The keyword arguments of the AAPL request, in the order the provider
    passes them and in another. *)
Definition aapl_kwargs : list (string * string) :=
  [("ticker", "AAPL"); ("start", "2023-01-03"); ("end", "2023-01-04")].

Definition aapl_kwargs_reordered : list (string * string) :=
  [("start", "2023-01-03"); ("ticker", "AAPL"); ("end", "2023-01-04")].

(** The portfolio of [Samples.ab_portfolio] as another request states it:
    the holdings in another order, a third holding the data does not cover,
    another currency, a benchmark and other dates. *)
Definition ab_portfolio_restated : PortfolioAgg.Portfolio :=
  {| PortfolioAgg.holdings :=
       [ {| PortfolioAgg.ticker := "C"; PortfolioAgg.weight := 0.25 |};
         {| PortfolioAgg.ticker := "B"; PortfolioAgg.weight := 0.4 |};
         {| PortfolioAgg.ticker := "A"; PortfolioAgg.weight := 0.6 |} ];
     PortfolioAgg.currency := "EUR";
     PortfolioAgg.benchmark := Some "SPY";
     PortfolioAgg.start_date := 0;
     PortfolioAgg.end_date := 9 |}.

(** A portfolio of the two sample tickers ACME and BOLT. *)
Definition acme_bolt_portfolio : PortfolioAgg.Portfolio :=
  {| PortfolioAgg.holdings :=
       [ {| PortfolioAgg.ticker := "ACME"; PortfolioAgg.weight := 0.5 |};
         {| PortfolioAgg.ticker := "BOLT"; PortfolioAgg.weight := 0.5 |} ];
     PortfolioAgg.currency := "USD";
     PortfolioAgg.benchmark := None;
     PortfolioAgg.start_date := 1;
     PortfolioAgg.end_date := 4 |}.

End MoreSamples.

(** * Properties *)

(** ** Metrics *)

Section MetricsFacts.
Import Metrics.

Lemma compound_from_app start xs ys :
  compound_from start (xs ++ ys) = compound_from (compound_from start xs) ys.
Proof. unfold compound_from. apply fold_left_app. Qed.

Lemma compound_from_factors start returns :
  compound_from start returns = multiply_factors start returns.
Proof.
  unfold compound_from, multiply_factors.
  revert start. induction returns as [|r returns IH]; intros start; simpl; [done|].
  apply IH.
Qed.
End MetricsFacts.

(** C4, as stated, fails on binary64: with [xs = [0.1]] and [ys = [0.3; 0.3]]
    the whole sequence gives 0.8590000000000002 and the product of the two
    compounded factors gives 0.8590000000000004. *)
Lemma cumulative_return_concat_counterexample :
  let whole := Metrics.compute_cumulative_return ([0.1] ++ [0.3; 0.3])%float in
  let chained :=
    ((1 + Metrics.compute_cumulative_return [0.1])
     * (1 + Metrics.compute_cumulative_return [0.3; 0.3]) - 1)%float in
  whole = 0.8590000000000002%float
  ∧ chained = 0.8590000000000004%float
  ∧ whole ≠ chained.
Proof.
  intros whole chained.
  assert (whole = 0.8590000000000002%float) as Hwhole by (vm_compute; reflexivity).
  assert (chained = 0.8590000000000004%float) as Hchained by (vm_compute; reflexivity).
  split; [exact Hwhole|]. split; [exact Hchained|].
  rewrite Hwhole, Hchained. intros H.
  apply (f_equal (fun x => PrimFloat.eqb x 0.8590000000000002%float)) in H.
  vm_compute in H. discriminate H.
Qed.

(** Nor is the difference a matter of the last digits: after eight returns
    of -99% the compounded factor is about 1e-16 and [1 + r(xs)] no longer
    holds it; eight returns of +9900% then give 7.3e-15 for the whole
    sequence and 0.11 for the product of the two factors. *)
Example cumulative_return_concat_far_apart :
  let xs := replicate 8 (-0.99)%float in
  let ys := replicate 8 99%float in
  Metrics.compute_cumulative_return (xs ++ ys) = 7.3274719625260332e-15%float
  ∧ ((1 + Metrics.compute_cumulative_return xs)
     * (1 + Metrics.compute_cumulative_return ys) - 1)%float
    = 0.11022302462515654%float.
Proof. split; vm_compute; reflexivity. Qed.

(** C4 (amended). On binary64, the cumulative return of a sequence is its
    compounded factor, the product of the factors [1 + r] multiplied left to
    right from 1.0, minus one; the cumulative return of [xs ++ ys] is the
    compounded factor of [xs] multiplied on by the factors of [ys], left to
    right, minus one; and the returns [0.01, -0.02, 0.03] give exactly
    [1.01*0.98*1.03 - 1]. The identity with
    [(1 + r(xs)) * (1 + r(ys)) - 1] is not part of it. *)
Theorem cumulative_return_chaining :
  (∀ xs : list float,
     Metrics.compute_cumulative_return xs = (Metrics.compounded_factor xs - 1)%float)
  ∧ (∀ xs ys : list float,
       Metrics.compute_cumulative_return (xs ++ ys)
       = (Metrics.multiply_factors (Metrics.compounded_factor xs) ys - 1)%float)
  ∧ (∀ (xs : list float) (y : float),
       Metrics.compute_cumulative_return (xs ++ [y])
       = (Metrics.compounded_factor xs * (1 + y) - 1)%float)
  ∧ Metrics.compute_cumulative_return [0.01; -0.02; 0.03]%float
    = (1.01 * 0.98 * 1.03 - 1)%float.
Proof.
  unfold Metrics.compute_cumulative_return, Metrics.compounded_factor.
  split; [|split; [|split]].
  - intros xs. by rewrite compound_from_factors.
  - intros xs ys. by rewrite compound_from_app, !compound_from_factors.
  - intros xs y. by rewrite compound_from_app, !compound_from_factors.
  - vm_compute. reflexivity.
Qed.

(** X25. Each metric raises its own error when its guard fails:
    [compute_cagr] for every [years <= 0]; [compute_annualized_volatility]
    and [compute_sharpe_ratio] for every list of fewer than two returns;
    [compute_sharpe_ratio] whenever the annualized volatility it computes
    compares equal to zero. No float is returned in any of these cases. *)
Theorem metrics_fail_fast
    (np_mean np_std_ddof1 : list float → float)
    (float_pow : float → float → result float) :
  (∀ cumulative_return years,
     PrimFloat.leb years 0 = true →
     Metrics.compute_cagr float_pow cumulative_return years
     = Raise (ValueError (CagrRequiresPositiveYears years)))
  ∧ (∀ returns trading_days,
       (length returns < 2)%nat →
       Metrics.compute_annualized_volatility np_std_ddof1 returns trading_days
       = Raise (ValueError (VolatilityRequiresTwoReturns (length returns))))
  ∧ (∀ returns risk_free_rate trading_days,
       (length returns < 2)%nat →
       Metrics.compute_sharpe_ratio np_mean np_std_ddof1 returns risk_free_rate trading_days
       = Raise (ValueError (SharpeRequiresTwoReturns (length returns))))
  ∧ (∀ returns risk_free_rate trading_days volatility,
       (2 ≤ length returns)%nat →
       Metrics.compute_annualized_volatility np_std_ddof1 returns trading_days
       = Return volatility →
       PrimFloat.eqb volatility 0 = true →
       Metrics.compute_sharpe_ratio np_mean np_std_ddof1 returns risk_free_rate trading_days
       = Raise (ValueError SharpeZeroVolatility)).
Proof.
  repeat split.
  - intros cr years Hy. unfold Metrics.compute_cagr. by rewrite Hy.
  - intros returns tdpy Hlen. unfold Metrics.compute_annualized_volatility.
    apply Nat.ltb_lt in Hlen. by rewrite Hlen.
  - intros returns rf tdpy Hlen. unfold Metrics.compute_sharpe_ratio.
    apply Nat.ltb_lt in Hlen. by rewrite Hlen.
  - intros returns rf tdpy vol Hlen Hvol Hzero. unfold Metrics.compute_sharpe_ratio.
    assert ((length returns <? 2)%nat = false) as -> by (apply Nat.ltb_ge; lia).
    rewrite Hvol. simpl. by rewrite Hzero.
Qed.

(** The four cases on concrete inputs: [years = -1.5] and [years = 0]; a
    single return; and the constant returns [0.5, 0.5, 0.5] over 252 trading
    days, whose computed volatility is zero. *)
Lemma metrics_fail_fast_witness :
  Metrics.compute_cagr Instances.pow_one 0.25 (-1.5)
  = Raise (ValueError (CagrRequiresPositiveYears (-1.5)))
  ∧ Metrics.compute_cagr Instances.pow_one 0.25 0
    = Raise (ValueError (CagrRequiresPositiveYears 0))
  ∧ Metrics.compute_annualized_volatility Instances.std_ddof1_left [0.01%float] 252
    = Raise (ValueError (VolatilityRequiresTwoReturns 1))
  ∧ Metrics.compute_sharpe_ratio Instances.mean_left Instances.std_ddof1_left
      [0.01%float] 0 252
    = Raise (ValueError (SharpeRequiresTwoReturns 1))
  ∧ Metrics.compute_sharpe_ratio Instances.mean_left Instances.std_ddof1_left
      [0.5; 0.5; 0.5]%float 0 252
    = Raise (ValueError SharpeZeroVolatility).
Proof.
  destruct (metrics_fail_fast Instances.mean_left Instances.std_ddof1_left
              Instances.pow_one) as (Hcagr & Hvol & Hsharpe & Hzero).
  split; [|split; [|split; [|split]]].
  - apply Hcagr. reflexivity.
  - apply Hcagr. reflexivity.
  - apply (Hvol [0.01%float] 252). simpl. lia.
  - apply (Hsharpe [0.01%float] 0%float 252). simpl. lia.
  - apply (Hzero [0.5; 0.5; 0.5]%float 0%float 252 0%float).
    + simpl. lia.
    + vm_compute. reflexivity.
    + reflexivity.
Defined.

(** C5. The code on the constant returns [0.1, 0.1, 0.1] over 252 trading
    days: the mean computed is 0.10000000000000002, so the standard
    deviation is not zero, the guard [volatility == 0] does not fire, and a
    Sharpe ratio of 9.3e16 is returned where the docstring promises a
    [ValueError] for constant returns. *)
Theorem constant_returns_get_a_sharpe_ratio :
  let returns := [0.1; 0.1; 0.1]%float in
  Instances.mean_left returns = 0.10000000000000002%float
  ∧ Metrics.compute_annualized_volatility Instances.std_ddof1_left returns 252
    = Return 2.6981503274991466e-16%float
  ∧ Metrics.compute_sharpe_ratio Instances.mean_left Instances.std_ddof1_left
      returns 0 252
    = Return 93397316462190256%float
  ∧ Metrics.compute_sharpe_ratio Instances.mean_left Instances.std_ddof1_left
      returns 0 252
    ≠ Raise (ValueError SharpeZeroVolatility).
Proof.
  intros returns.
  assert (Metrics.compute_sharpe_ratio Instances.mean_left Instances.std_ddof1_left
            returns 0 252 = Return 93397316462190256%float) as Hratio
    by (vm_compute; reflexivity).
  split; [vm_compute; reflexivity|]. split; [vm_compute; reflexivity|].
  split; [exact Hratio|]. rewrite Hratio. discriminate.
Qed.

(** ** Alignment of return series *)

Section MapFacts.
Context {K : Type} `{Countable K} {V A : Type}.
Implicit Types (key : A → K) (val : A → V) (m : gmap K V).

(** A dict built by assigning [m[key x] = val x] in list order holds, for
    each key, the value of the last element carrying it. *)
Lemma foldl_insert_lookup key val (l : list A) m k :
  foldl (fun m x => <[key x := val x]> m) m l !! k
  = match last (filter (fun x => key x = k) l) with
    | Some x => Some (val x)
    | None => m !! k
    end.
Proof.
  revert m. induction l as [|x l IH]; intros m; simpl; [done|].
  rewrite IH, filter_cons. case_decide as Hk.
  - destruct (filter _ l) as [|y l'] eqn:Hf; simpl.
    + subst k. by rewrite lookup_insert_eq.
    + rewrite last_cons. by destruct (last l').
  - destruct (last _); [done|]. by rewrite lookup_insert_ne.
Qed.

Lemma foldl_insert_lookup_notin key val (l : list A) m k :
  k ∉ key <$> l → foldl (fun m x => <[key x := val x]> m) m l !! k = m !! k.
Proof.
  revert m. induction l as [|x l IH]; intros m Hk; simpl; [done|].
  rewrite fmap_cons, not_elem_of_cons in Hk. destruct Hk as [Hx Hl].
  rewrite IH by done. by rewrite lookup_insert_ne.
Qed.

Lemma foldl_insert_lookup_NoDup key val (l : list A) m x :
  NoDup (key <$> l) → x ∈ l →
  foldl (fun m x => <[key x := val x]> m) m l !! key x = Some (val x).
Proof.
  revert m. induction l as [|y l IH]; intros m Hnd Hin; simpl.
  - by apply elem_of_nil in Hin.
  - rewrite fmap_cons in Hnd. apply NoDup_cons in Hnd as [Hy Hnd].
    apply elem_of_cons in Hin as [->|Hin]; [|by apply IH].
    rewrite foldl_insert_lookup_notin by done. apply lookup_insert_eq.
Qed.

Lemma foldl_insert_lookup_Some key val (l : list A) m k v :
  foldl (fun m x => <[key x := val x]> m) m l !! k = Some v →
  (∃ x, x ∈ l ∧ key x = k ∧ v = val x) ∨ m !! k = Some v.
Proof.
  revert m. induction l as [|y l IH]; intros m; simpl; [by right|].
  intros [(x & ? & ? & ?)|Hm]%IH.
  - left. exists x. by rewrite elem_of_cons; auto.
  - destruct (decide (key y = k)) as [<-|Hne].
    + rewrite lookup_insert_eq in Hm. left. exists y.
      split; [left|]. by simplify_eq.
    + rewrite lookup_insert_ne in Hm by done. by right.
Qed.
End MapFacts.

Section ReturnsFacts.
Import Returns.

Lemma return_map_lookup rs d : return_map rs !! d = return_on rs d.
Proof.
  unfold return_map, return_on. rewrite foldl_insert_lookup.
  destruct (last _); simpl; [done|]. apply lookup_empty.
Qed.

Lemma return_on_is_Some rs d : d ∈ dates_of rs → is_Some (return_on rs d).
Proof.
  unfold dates_of, return_on. rewrite elem_of_list_to_set, list_elem_of_fmap.
  intros (bar & -> & Hin).
  assert (bar ∈ filter (fun b => trading_date b = trading_date bar) (returns rs)) as Hf
    by (apply list_elem_of_filter; done).
  destruct (filter _ _) as [|b l] using rev_ind; [by apply elem_of_nil in Hf|].
  rewrite last_snoc. simpl. eauto.
Qed.

Lemma elem_of_foldl_intersection (s : gset Z) (rest : list (gset Z)) d :
  d ∈ foldl (∩) s rest ↔ d ∈ s ∧ ∀ s', s' ∈ rest → d ∈ s'.
Proof.
  revert s. induction rest as [|s1 rest IH]; intros s; simpl.
  - split; [|tauto]. intros ?; split; [done|]. intros ? []%elem_of_nil.
  - rewrite IH, elem_of_intersection. split.
    + intros [[? ?] Hr]. split; [done|]. intros s' [->|?]%elem_of_cons; auto.
    + intros [? Hr]. repeat split; [done|..].
      * apply Hr. left.
      * intros s' ?. apply Hr. by right.
Qed.


(** The values of [date_sets], when the tickers are distinct, are the date
    sets of the series. *)
Lemma date_sets_values l s :
  NoDup (ticker <$> l) →
  s ∈ (map_to_list (build_date_sets l)).*2 ↔ ∃ rs, rs ∈ l ∧ s = dates_of rs.
Proof.
  intros Hnd. rewrite list_elem_of_fmap. split.
  - intros ([t s'] & -> & Hin). simpl. apply elem_of_map_to_list in Hin.
    apply foldl_insert_lookup_Some in Hin as [(rs & ? & ? & ?)|Hin]; [eauto|].
    by rewrite lookup_empty in Hin.
  - intros (rs & Hin & ->). exists (ticker rs, dates_of rs). split; [done|].
    apply elem_of_map_to_list.
    by apply (foldl_insert_lookup_NoDup ticker dates_of).
Qed.

Lemma set_intersection_spec sets :
  sets ≠ [] →
  ∃ common, set_intersection sets = Return common
            ∧ ∀ d, d ∈ common ↔ ∀ s, s ∈ sets → d ∈ s.
Proof.
  destruct sets as [|s rest]; [done|]. intros _. eexists. split; [done|].
  intros d. rewrite elem_of_foldl_intersection. split.
  - intros [? Hr] s' [->|?]%elem_of_cons; auto.
  - intros Hall. split; [apply Hall; left|]. intros s' ?. apply Hall. by right.
Qed.

Lemma StronglySorted_le_lt (l : list Z) :
  StronglySorted Z.le l → NoDup l → StronglySorted Z.lt l.
Proof.
  induction 1 as [|x l Hs IH Hall]; intros Hnd; [constructor|].
  apply NoDup_cons in Hnd as [Hx Hnd]. constructor; [by apply IH|].
  rewrite Forall_forall in Hall |- *. intros y Hy.
  specialize (Hall y Hy). assert (x ≠ y) by (intros ->; by apply Hx). lia.
Qed.

Lemma sorted_dates_spec (common : gset Z) :
  StronglySorted Z.lt (sorted_dates common)
  ∧ ∀ d, d ∈ sorted_dates common ↔ d ∈ common.
Proof.
  unfold sorted_dates.
  pose proof (merge_sort_Permutation Z.le (elements common)) as Hperm.
  split.
  - apply StronglySorted_le_lt; [apply (StronglySorted_merge_sort Z.le)|].
    rewrite Hperm. apply NoDup_elements.
  - intros d. rewrite Hperm. apply elem_of_elements.
Qed.

Lemma extract_returns_total (m : gmap Z float) ds :
  (∀ d, d ∈ ds → is_Some (m !! d)) →
  ∃ row, extract_returns m ds = Return row
         ∧ Forall2 (fun d r => m !! d = Some r) ds row.
Proof.
  induction ds as [|d ds IH]; intros Hall; simpl.
  - exists []. by split.
  - destruct (Hall d) as [r Hr]; [left|]. rewrite Hr.
    destruct IH as (row & -> & Hrow); [intros; apply Hall; by right|].
    exists (r :: row). split; [done|]. by constructor.
Qed.

Lemma build_aligned_spec l ds acc :
  NoDup (ticker <$> l) →
  (∀ rs d, rs ∈ l → d ∈ ds → is_Some (return_map rs !! d)) →
  ∃ aligned, build_aligned l ds acc = Return aligned
    ∧ (∀ rs, rs ∈ l → ∃ row, aligned !! ticker rs = Some row
                              ∧ Forall2 (fun d r => return_map rs !! d = Some r) ds row)
    ∧ (∀ t, t ∉ ticker <$> l → aligned !! t = acc !! t).
Proof.
  revert acc. induction l as [|rs l IH]; intros acc Hnd Hall; simpl.
  - exists acc. split; [done|]. split; [|done]. intros ? []%elem_of_nil.
  - rewrite fmap_cons in Hnd. apply NoDup_cons in Hnd as [Hrs Hnd].
    destruct (extract_returns_total (return_map rs) ds) as (row & -> & Hrow).
    { intros d ?. apply Hall; [left|done]. }
    simpl.
    destruct (IH (<[ticker rs := row]> acc) Hnd) as (aligned & -> & Hin & Hout).
    { intros rs' d ? ?. apply Hall; [by right|done]. }
    exists aligned. split; [done|]. split.
    + intros rs' [->|Hin']%elem_of_cons; [|by apply Hin].
      exists row. split; [|done]. rewrite Hout by done. apply lookup_insert_eq.
    + intros t Ht. apply not_elem_of_cons in Ht as [? ?].
      rewrite Hout by done. by rewrite lookup_insert_ne.
Qed.
End ReturnsFacts.

Section AlignTheorem.
Import Returns.

(** C7 (amended). For every non-empty collection of series with pairwise
    distinct tickers: if no date is common to all the series the call fails
    with "No common dates found across return series"; otherwise it returns
    exactly the common dates in strictly ascending order and, for each
    ticker, a list of the same length as the date list whose i-th element is
    that ticker's return on the i-th date. *)
Theorem align_distinct_tickers (l : list ReturnSeries) (original_start original_end : Z) :
  l ≠ [] → NoDup (ticker <$> l) →
  alignment_contract l (align_return_series l original_start original_end).
Proof.
  intros Hne Hnd. unfold alignment_contract.
  destruct (set_intersection_spec ((map_to_list (build_date_sets l)).*2))
    as (common & Hinter & Hcommon).
  { destruct l as [|rs l]; [done|]. intros Hnil.
    assert (dates_of rs ∈ (map_to_list (build_date_sets (rs :: l))).*2) as Hin
      by (apply date_sets_values; [done|]; exists rs; split; [left|done]).
    rewrite Hnil in Hin. by apply elem_of_nil in Hin. }
  assert (∀ d, d ∈ common ↔ common_date l d) as Hcd.
  { intros d. rewrite Hcommon. unfold common_date. split.
    - intros Hall rs Hrs. apply Hall, date_sets_values; eauto.
    - intros Hall s (rs & Hrs & ->)%date_sets_values; auto. }
  unfold align_return_series. destruct l as [|rs0 l0] eqn:El; [done|]. rewrite <- El in *.
  rewrite Hinter. simpl. split.
  - intros Hno. rewrite decide_True; [done|].
    apply set_eq. intros d. rewrite Hcd. split; [|by intros ?%not_elem_of_empty].
    intros ?. exfalso. eauto.
  - intros [d0 Hd0]. rewrite decide_False.
    2:{ intros Hempty. apply Hcd in Hd0. rewrite Hempty in Hd0. by apply not_elem_of_empty in Hd0. }
    destruct (sorted_dates_spec common) as [Hsorted Hmem].
    destruct (build_aligned_spec l (sorted_dates common) ∅ Hnd) as (aligned & -> & Hin & Hout).
    { intros rs d Hrs Hd. rewrite return_map_lookup. apply return_on_is_Some.
      apply Hmem, Hcd in Hd. by apply Hd. }
    simpl. exists aligned, (sorted_dates common). split; [done|].
    split; [done|]. split; [intros d; by rewrite Hmem|]. split.
    + intros t. rewrite elem_of_dom. split.
      * intros Hsome. destruct (decide (t ∈ ticker <$> l)) as [|Hnot]; [done|].
        rewrite (Hout t Hnot), lookup_empty in Hsome. by destruct Hsome.
      * intros (rs & -> & Hrs)%list_elem_of_fmap.
        destruct (Hin rs Hrs) as (row & -> & _). eauto.
    + intros rs Hrs. destruct (Hin rs Hrs) as (row & Hrow & Hall).
      exists row. split; [done|]. split; [symmetry; by eapply Forall2_length|].
      intros i d Hi. destruct (Forall2_lookup_l _ _ _ _ _ Hall Hi) as (r & Hr & Hmap).
      exists r. split; [done|]. by rewrite <- return_map_lookup.
Qed.
End AlignTheorem.

(** C7 on two series with distinct tickers, one of them out of order and with
    a repeated day. *)
Lemma align_distinct_tickers_witness :
  let l := [Samples.acme; Samples.bolt] in
  l ≠ [] ∧ NoDup (Returns.ticker <$> l)
  ∧ Returns.alignment_contract l (Returns.align_return_series l 1 4).
Proof.
  intros l.
  assert (l ≠ []) as Hne by done.
  assert (NoDup (Returns.ticker <$> l)) as Hnd
    by (apply (bool_decide_unpack _); vm_compute; exact I).
  split; [exact Hne|]. split; [exact Hnd|].
  exact (align_distinct_tickers l 1 4 Hne Hnd).
Defined.

(** The value of the call above: the common days 2 and 3, and for BOLT the
    later of its two returns of day 2. *)
Example align_sample_value :
  Returns.align_return_series [Samples.acme; Samples.bolt] 1 4
  = Return (<["ACME" := [0.25; 0.125]%float]> (<["BOLT" := [-0.125; 0.5]%float]> ∅),
            [2; 3]).
Proof. vm_compute. reflexivity. Qed.

(** C7, as stated, fails when two series carry one ticker: the two series
    share the days 1 and 2, yet the call raises [KeyError] on day 3, which
    only the later series has. *)
Lemma align_duplicate_ticker_counterexample :
  let l := [Samples.acme_short; Samples.acme] in
  l ≠ []
  ∧ Returns.common_date l 1
  ∧ Returns.align_return_series l 1 3 = Raise (KeyError (DateKey 3))
  ∧ ¬ Returns.alignment_contract l (Returns.align_return_series l 1 3).
Proof.
  intros l.
  assert (Returns.common_date l 1) as Hcommon.
  { intros rs Hrs.
    apply elem_of_cons in Hrs as [->|Hrs]; [|apply elem_of_cons in Hrs as [->|Hrs]].
    - unfold Returns.dates_of. simpl. set_solver.
    - unfold Returns.dates_of. simpl. set_solver.
    - by apply elem_of_nil in Hrs. }
  assert (Returns.align_return_series l 1 3 = Raise (KeyError (DateKey 3))) as Hrun
    by (vm_compute; reflexivity).
  split; [done|]. split; [done|]. split; [done|].
  intros [_ Hsome]. destruct Hsome as (aligned & ds & Heq & _); [by exists 1|].
  rewrite Hrun in Heq. discriminate Heq.
Qed.

(** C10. With no series at all the call returns an empty mapping and an
    empty date list, and raises nothing. *)
Theorem align_empty (original_start original_end : Z) :
  Returns.align_return_series [] original_start original_end = Return (∅, []).
Proof. reflexivity. Qed.

(** ** Aggregation of portfolio returns *)

Section AggregationFacts.
Import PortfolioAgg.

Lemma build_weight_map_lookup portfolio t :
  build_weight_map portfolio !! t = weight_of portfolio t.
Proof.
  unfold build_weight_map, weight_of. rewrite foldl_insert_lookup.
  destruct (last _); simpl; [done|]. apply lookup_empty.
Qed.

Lemma sorted_keys_spec (aligned_returns : gmap string (list float)) :
  Sorted String.le (sorted_keys aligned_returns)
  ∧ NoDup (sorted_keys aligned_returns)
  ∧ ∀ t, t ∈ sorted_keys aligned_returns ↔ t ∈ dom aligned_returns.
Proof.
  unfold sorted_keys.
  pose proof (merge_sort_Permutation String.le (elements (dom aligned_returns))) as Hperm.
  split; [apply (Sorted_merge_sort String.le)|]. split.
  - rewrite Hperm. apply NoDup_elements.
  - intros t. rewrite Hperm. apply elem_of_elements.
Qed.

Lemma accumulate_day_spec aligned_returns portfolio i tickers acc :
  (∀ t, t ∈ tickers → ∃ x, weighted_term aligned_returns portfolio i t x) →
  ∃ terms,
    Forall2 (weighted_term aligned_returns portfolio i) tickers terms
    ∧ accumulate_day aligned_returns (build_weight_map portfolio) i tickers acc
      = Return (fold_left PrimFloat.add terms acc).
Proof.
  revert acc. induction tickers as [|t tickers IH]; intros acc Hall; simpl.
  - exists []. by split.
  - destruct (Hall t) as (x & w & rs & r & Hw & Hrs & Hr & ->); [left|].
    rewrite Hrs, build_weight_map_lookup, Hw, Hr.
    destruct (IH (acc + w * r)%float) as (terms & Hterms & ->).
    { intros t' ?. apply Hall. by right. }
    exists ((w * r)%float :: terms). split; [|done].
    constructor; [|done]. by exists w, rs, r.
Qed.

Lemma accumulate_days_spec aligned_returns portfolio tickers days :
  (∀ i t, i ∈ days → t ∈ tickers → ∃ x, weighted_term aligned_returns portfolio i t x) →
  ∃ rets,
    accumulate_days aligned_returns (build_weight_map portfolio) tickers days = Return rets
    ∧ Forall2 (fun i ret =>
                 ∃ terms, Forall2 (weighted_term aligned_returns portfolio i) tickers terms
                          ∧ ret = fold_left PrimFloat.add terms 0%float)
              days rets.
Proof.
  induction days as [|i days IH]; intros Hall; simpl.
  - exists []. by split.
  - destruct (accumulate_day_spec aligned_returns portfolio i tickers 0%float)
      as (terms & Hterms & ->).
    { intros t ?. apply Hall; [left|done]. }
    destruct IH as (rets & -> & Hrets).
    { intros i' t ? ?. apply Hall; [by right|done]. }
    simpl. eexists. split; [done|]. constructor; [|done]. eauto.
Qed.

(** C6. For a non-empty mapping whose series all have the length of the date
    list: the tickers are visited in lexicographic order; when the portfolio
    gives every ticker a weight, the result holds the dates and, at each date
    index [i], the sum of [weight * return[i]] accumulated from 0.0 in that
    order; when some ticker has no weight the call raises the missing-weights
    [ValueError], naming exactly the tickers without a weight. *)
Theorem aggregate_weighted_sum aligned_returns dates portfolio benchmark_returns :
  aligned_returns ≠ ∅ →
  (∀ t asset_returns, aligned_returns !! t = Some asset_returns →
                      length asset_returns = length dates) →
  aggregation_contract aligned_returns dates portfolio benchmark_returns
    (sorted_keys aligned_returns)
    (aggregate_portfolio_returns aligned_returns dates portfolio benchmark_returns).
Proof.
  intros Hne Hlen. unfold aggregation_contract.
  destruct (sorted_keys_spec aligned_returns) as (Hsorted & Hnd & Hmem).
  split; [done|]. split; [done|]. split; [done|].
  assert (∀ t, t ∈ filter (fun ticker => build_weight_map portfolio !! ticker = None)
                      (sorted_keys aligned_returns)
               ↔ t ∈ dom aligned_returns ∧ weight_of portfolio t = None) as Hmissing.
  { intros t. rewrite list_elem_of_filter, build_weight_map_lookup, (Hmem t). tauto. }
  unfold aggregate_portfolio_returns. rewrite decide_False by done.
  rewrite bool_decide_true by (intros t r ?; by eapply Hlen). simpl.
  split.
  - intros Hweights.
    destruct (filter _ (sorted_keys aligned_returns)) as [|t0 missing] eqn:Hf.
    2:{ exfalso. destruct (Hmissing t0) as [[Hd Hnone] _]; [left|].
        destruct (Hweights t0 Hd) as [w Hw]. congruence. }
    destruct (accumulate_days_spec aligned_returns portfolio (sorted_keys aligned_returns) (seq 0 (length dates)))
      as (rets & -> & Hrets).
    { intros i t Hi Ht. apply elem_of_seq in Hi. apply Hmem in Ht.
      destruct (Hweights t Ht) as [w Hw].
      apply elem_of_dom in Ht as [rs Hrs].
      destruct (lookup_lt_is_Some_2 rs i) as [r Hr]; [rewrite (Hlen t rs Hrs); lia|].
      exists (w * r)%float, w, rs, r. done. }
    simpl. exists rets. split; [done|].
    pose proof (Forall2_length _ _ _ Hrets) as Hl. rewrite length_seq in Hl.
    split; [done|]. intros i Hi.
    destruct (Forall2_lookup_l _ _ _ i i Hrets) as (ret & Hret & terms & Hterms & ->).
    { apply lookup_seq. lia. }
    eauto.
  - intros (t & Hd & Hnone).
    destruct (filter _ (sorted_keys aligned_returns)) as [|t0 missing] eqn:Hf.
    { exfalso. destruct (Hmissing t) as [_ Hin]. by apply elem_of_nil in Hin. }
    exists (t0 :: missing). split; [done|]. done.
Qed.
End AggregationFacts.

(** C6 on the two-ticker scenario: A (weight 0.6) and B (weight 0.4) over five
    dates, and the same returns under a portfolio that holds only A. *)
Lemma aggregate_weighted_sum_witness :
  Samples.ab_returns ≠ ∅
  ∧ (∀ t asset_returns, Samples.ab_returns !! t = Some asset_returns →
                        length asset_returns = length Samples.ab_dates)
  ∧ PortfolioAgg.aggregation_contract Samples.ab_returns Samples.ab_dates
      Samples.ab_portfolio None (PortfolioAgg.sorted_keys Samples.ab_returns)
      (PortfolioAgg.aggregate_portfolio_returns Samples.ab_returns
         Samples.ab_dates Samples.ab_portfolio None)
  ∧ PortfolioAgg.aggregation_contract Samples.ab_returns Samples.ab_dates
      Samples.a_only_portfolio None (PortfolioAgg.sorted_keys Samples.ab_returns)
      (PortfolioAgg.aggregate_portfolio_returns Samples.ab_returns
         Samples.ab_dates Samples.a_only_portfolio None).
Proof.
  assert (Samples.ab_returns ≠ ∅) as Hne.
  { intros H. apply (f_equal (fun m => m !! "A")) in H. vm_compute in H. discriminate H. }
  assert (∀ t asset_returns, Samples.ab_returns !! t = Some asset_returns →
                             length asset_returns = length Samples.ab_dates) as Hlen.
  { intros t rs. unfold Samples.ab_returns.
    rewrite !lookup_insert_Some, lookup_empty.
    intros [[_ <-]|[_ [[_ <-]|[_ ?]]]]; done. }
  split; [exact Hne|]. split; [exact Hlen|]. split.
  - exact (aggregate_weighted_sum Samples.ab_returns Samples.ab_dates
             Samples.ab_portfolio None Hne Hlen).
  - exact (aggregate_weighted_sum Samples.ab_returns Samples.ab_dates
             Samples.a_only_portfolio None Hne Hlen).
Defined.

(** The values of the two calls: [0.6*rA + 0.4*rB] at each date, A before B
    and from 0.0; and the missing-weights error for B, not a weight of 0. *)
Example aggregate_sample_values :
  PortfolioAgg.sorted_keys Samples.ab_returns = ["A"; "B"]
  ∧ PortfolioAgg.aggregate_portfolio_returns Samples.ab_returns Samples.ab_dates
      Samples.ab_portfolio None
    = Return {| PortfolioAgg.dates := Samples.ab_dates;
                PortfolioAgg.returns :=
                  [ 0 + 0.6 * 0.01 + 0.4 * 0.02; 0 + 0.6 * -0.02 + 0.4 * 0.01;
                    0 + 0.6 * 0.03 + 0.4 * -0.01; 0 + 0.6 * 0 + 0.4 * 0.005;
                    0 + 0.6 * 0.015 + 0.4 * 0 ]%float;
                PortfolioAgg.benchmark_returns := None |}
  ∧ PortfolioAgg.aggregate_portfolio_returns Samples.ab_returns Samples.ab_dates
      Samples.a_only_portfolio None
    = Raise (ValueError (MissingWeights ["B"])).
Proof. repeat split; vm_compute; reflexivity. Qed.

(** ** Monte Carlo simulation *)

Section CumulativePaths.
Import MonteCarlo.

Lemma cumulative_loop (acc : list float) (a : float) (path : list float) :
  foldl (fun cumulative ret => cumulative ++ [(List.last cumulative 0 + ret)%float])
        (acc ++ [a]) path
  = acc ++ a :: running_sums a path.
Proof.
  revert acc a. induction path as [|ret path IH]; intros acc a; simpl; [done|].
  rewrite List.last_last.
  rewrite (IH (acc ++ [a]) (a + ret)%float). by rewrite <- app_assoc.
Qed.

Lemma cumulative_of_path_running path :
  cumulative_of_path path = running_sums 0 path.
Proof.
  unfold cumulative_of_path.
  pose proof (cumulative_loop [] 0%float path) as Hloop. simpl in Hloop.
  by rewrite Hloop.
Qed.

Lemma length_running_sums a path : length (running_sums a path) = length path.
Proof. revert a. induction path; intros; simpl; auto. Qed.

Lemma running_sums_lookup a path i :
  (i < length path)%nat →
  running_sums a path !! i = Some (fold_left PrimFloat.add (take (S i) path) a).
Proof.
  revert a i. induction path as [|ret path IH]; intros a i Hi; simpl in *; [lia|].
  destruct i as [|i]; simpl.
  - by destruct path.
  - apply IH. lia.
Qed.
End CumulativePaths.

Section SimulationFacts.
Import MonteCarlo.
Variable Generator : Type.
Variable seed_generator : Z → result Generator.
Variable choice : Generator → list float → Z → result (list float * Generator).
Variable normal : Generator → float → float → Z → result (list float * Generator).
Variable np_mean np_std_ddof1 : list float → float.

Lemma sample_paths_shape (draw : Generator → result (list float * Generator))
    (h : nat) n rng paths :
  (∀ g xs g', draw g = Return (xs, g') → length xs = h) →
  sample_paths Generator draw n rng = Return paths →
  length paths = n ∧ Forall (fun path => length path = h) paths.
Proof.
  intros Hdraw. revert rng paths. induction n as [|n IH]; intros rng paths; simpl.
  - intros [= <-]. by split.
  - destruct (draw rng) as [[xs g']|e] eqn:Hd; simpl; [|done].
    destruct (sample_paths _ draw n g') as [rest|e] eqn:Hrest; simpl; [|done].
    intros [= <-]. destruct (IH _ _ Hrest) as [Hlen Hall].
    split; [simpl; by f_equal|]. constructor; [by eapply Hdraw|done].
Qed.

Lemma validate_paths_shape_id paths v :
  validate_paths_shape paths = Return v → v = paths.
Proof.
  unfold validate_paths_shape. destruct paths as [|first rest]; [done|].
  destruct (check_path_lengths _ _ _); simpl; [|done]. by intros [= <-].
Qed.

Lemma simulation_init_shape paths meta meta' sim :
  SimulationMetadata_init meta = Return meta' →
  MonteCarloSimulation_init paths (Some (cumulative_of_path <$> paths)) meta'
  = Return sim →
  length paths = Z.to_nat (number_of_simulations meta) →
  Forall (fun path => length path = Z.to_nat (horizon_days meta)) paths →
  simulation_shape (number_of_simulations meta) (horizon_days meta) sim.
Proof.
  unfold SimulationMetadata_init, MonteCarloSimulation_init.
  destruct (_ && _) eqn:Hguard; [|done]. intros [= <-].
  destruct (validate_paths_shape paths) as [v|e] eqn:Hv; [|done].
  apply validate_paths_shape_id in Hv as ->. intros [= <-] Hlen Hall.
  repeat (apply andb_prop in Hguard as [Hguard ?]).
  unfold simulation_shape. simpl.
  split; [lia|]. split; [lia|]. split; [done|]. split; [done|].
  eexists. split; [done|]. split; [by rewrite length_fmap|].
  apply Forall2_fmap_r, Forall_Forall2_diag.
  eapply Forall_impl; [exact Hall|]. intros path Hpath. simpl.
  rewrite cumulative_of_path_running, length_running_sums.
  split; [done|]. split; [done|]. apply running_sums_lookup.
Qed.

(** Every draw returns as many values as asked for. *)
Hypothesis choice_length : ∀ g a n xs g',
  choice g a n = Return (xs, g') → length xs = Z.to_nat n.
Hypothesis normal_length : ∀ g loc scale n xs g',
  normal g loc scale n = Return (xs, g') → length xs = Z.to_nat n.

(** C9. Every simulation either method produces for [n] paths over [h] days
    holds an [n]×[h] matrix of daily returns and an [n]×[h] matrix of
    cumulative returns, each cumulative path accumulating the daily returns
    of its path from 0.0 (its i-th entry is [0.0 + r_0 + ... + r_i]). *)
Theorem simulation_matrices os_entropy historical_returns n h random_seed sim :
  simulate_bootstrap Generator seed_generator choice np_mean np_std_ddof1
    os_entropy historical_returns n h random_seed = Return sim
  ∨ simulate_multivariate_normal Generator seed_generator normal np_mean np_std_ddof1
      os_entropy historical_returns n h random_seed = Return sim →
  simulation_shape n h sim.
Proof.
  unfold simulate_bootstrap, simulate_multivariate_normal.
  destruct historical_returns as [|r0 rest]; [by intros [|]|].
  destruct (default_rng _ _ _ _) as [rng|e]; simpl; [|by intros [|]].
  intros [Hrun|Hrun].
  - destruct (sample_paths _ _ _ _) as [paths|e] eqn:Hpaths; simpl in Hrun; [|done].
    destruct (SimulationMetadata_init _) as [meta'|e] eqn:Hmeta; simpl in Hrun; [|done].
    destruct (sample_paths_shape _ (Z.to_nat h) _ _ _
                (fun g xs g' => choice_length g _ h xs g') Hpaths) as [Hlen Hall].
    exact (simulation_init_shape _ _ _ _ Hmeta Hrun Hlen Hall).
  - destruct (sample_paths _ _ _ _) as [paths|e] eqn:Hpaths; simpl in Hrun; [|done].
    destruct (SimulationMetadata_init _) as [meta'|e] eqn:Hmeta; simpl in Hrun; [|done].
    destruct (sample_paths_shape _ (Z.to_nat h) _ _ _
                (fun g xs g' => normal_length g _ _ h xs g') Hpaths) as [Hlen Hall].
    exact (simulation_init_shape _ _ _ _ Hmeta Hrun Hlen Hall).
Qed.
End SimulationFacts.

Section SimulationProduced.
Import MonteCarlo.
Variable Generator : Type.
Variable seed_generator : Z → result Generator.
Variable choice : Generator → list float → Z → result (list float * Generator).
Variable normal : Generator → float → float → Z → result (list float * Generator).
Variable np_mean np_std_ddof1 : list float → float.

Lemma sample_paths_total (draw : Generator → result (list float * Generator)) n rng :
  (∀ g, ∃ xs g', draw g = Return (xs, g')) →
  ∃ paths, sample_paths Generator draw n rng = Return paths.
Proof.
  intros Hdraw. revert rng. induction n as [|n IH]; intros rng; simpl; [eauto|].
  destruct (Hdraw rng) as (xs & g' & ->). simpl.
  destruct (IH g') as (rest & ->). simpl. eauto.
Qed.

Lemma check_path_lengths_uniform i paths len :
  Forall (fun path => length path = len) paths →
  check_path_lengths i paths len = Return ().
Proof.
  intros Hall. revert i. induction Hall as [|path paths Hpath _ IH]; intros i; simpl; [done|].
  by rewrite decide_True.
Qed.

Lemma simulation_init_total paths meta (h : nat) :
  simulation_method meta = "historical_bootstrap"
  ∨ simulation_method meta = "multivariate_normal" →
  0 < number_of_simulations meta → 0 < horizon_days meta →
  0 < historical_returns_count meta →
  paths ≠ [] → Forall (fun path => length path = h) paths →
  ∀ cums, ∃ sim,
    (SimulationMetadata_init meta ≫= MonteCarloSimulation_init paths cums) = Return sim.
Proof.
  intros Hmethod Hn Hh Hc Hne Hall cums.
  unfold SimulationMetadata_init.
  rewrite bool_decide_true by done.
  rewrite !(proj2 (Z.ltb_lt _ _)) by done. simpl.
  unfold MonteCarloSimulation_init, validate_paths_shape.
  destruct paths as [|first rest]; [done|].
  rewrite (check_path_lengths_uniform 0 (first :: rest) (length first)); [simpl; eauto|].
  apply Forall_cons in Hall as [Hfirst Hrest]. rewrite Hfirst. by constructor.
Qed.

(** With a seed the generator accepts and draws that answer, a simulation
    is produced for every non-empty sample and positive sizes. *)
Lemma simulate_bootstrap_produces os_entropy historical_returns n h seed rng :
  historical_returns ≠ [] → 0 < n → 0 < h →
  seed_generator seed = Return rng →
  (∀ g, ∃ xs g', choice g historical_returns h = Return (xs, g')) →
  (∀ g xs g', choice g historical_returns h = Return (xs, g') → length xs = Z.to_nat h) →
  ∃ sim,
    simulate_bootstrap Generator seed_generator choice np_mean np_std_ddof1
      os_entropy historical_returns n h (Some seed) = Return sim.
Proof.
  intros Hne Hn Hh Hseed Htotal Hlen. unfold simulate_bootstrap.
  destruct historical_returns as [|r0 rest] eqn:Ehist; [done|]. rewrite <- Ehist in *.
  simpl. rewrite Hseed. simpl.
  destruct (sample_paths_total (fun g => choice g historical_returns h) (Z.to_nat n) rng Htotal)
    as (paths & Hpaths).
  rewrite Hpaths. simpl.
  destruct (sample_paths_shape Generator _ (Z.to_nat h) _ _ _ Hlen Hpaths) as [Hcount Hall].
  apply (simulation_init_total paths _ (Z.to_nat h)); simpl; auto.
  - subst historical_returns. simpl. lia.
  - intros ->. simpl in Hcount. lia.
Qed.
Lemma simulate_multivariate_normal_produces os_entropy historical_returns n h seed rng :
  historical_returns ≠ [] → 0 < n → 0 < h →
  seed_generator seed = Return rng →
  (∀ g loc scale, ∃ xs g', normal g loc scale h = Return (xs, g')) →
  (∀ g loc scale xs g', normal g loc scale h = Return (xs, g') → length xs = Z.to_nat h) →
  ∃ sim,
    simulate_multivariate_normal Generator seed_generator normal np_mean np_std_ddof1
      os_entropy historical_returns n h (Some seed) = Return sim.
Proof.
  intros Hne Hn Hh Hseed Htotal Hlen. unfold simulate_multivariate_normal.
  destruct historical_returns as [|r0 rest] eqn:Ehist; [done|]. rewrite <- Ehist in *.
  simpl. rewrite Hseed. simpl.
  set (loc := np_mean historical_returns).
  set (scale := np_std_ddof1 historical_returns).
  destruct (sample_paths_total (fun g => normal g loc scale h) (Z.to_nat n) rng
              (fun g => Htotal g loc scale)) as (paths & Hpaths).
  rewrite Hpaths. simpl.
  destruct (sample_paths_shape Generator _ (Z.to_nat h) _ _ _
              (fun g => Hlen g loc scale) Hpaths) as [Hcount Hall].
  apply (simulation_init_total paths _ (Z.to_nat h)); simpl; auto.
  - subst historical_returns. simpl. lia.
  - intros ->. simpl in Hcount. lia.
Qed.
End SimulationProduced.

Section Determinism.
Import MonteCarlo.
Variable Generator : Type.
Variable seed_generator : Z → result Generator.
Variable choice : Generator → list float → Z → result (list float * Generator).
Variable normal : Generator → float → float → Z → result (list float * Generator).
Variable np_mean np_std_ddof1 : list float → float.

(** C3. The result of [simulate_monte_carlo] is a function of its arguments
    alone: whatever entropy the operating system would supply, two calls
    with the same historical returns, method, sizes and seed give the same
    result, hence the same [simulated_paths] and [cumulative_paths]; and
    without a seed the call raises instead of drawing from that entropy. *)
Theorem monte_carlo_deterministic :
  (∀ os_entropy1 os_entropy2 historical_returns n h method random_seed,
     simulate_monte_carlo Generator seed_generator choice normal np_mean np_std_ddof1
       os_entropy1 historical_returns n h method random_seed
     = simulate_monte_carlo Generator seed_generator choice normal np_mean np_std_ddof1
         os_entropy2 historical_returns n h method random_seed)
  ∧ (∀ os_entropy historical_returns n h method,
       historical_returns ≠ [] → 0 < n → 0 < h →
       simulate_monte_carlo Generator seed_generator choice normal np_mean np_std_ddof1
         os_entropy historical_returns n h method None
       = Raise (ValueError RandomSeedRequired)).
Proof.
  split.
  - intros os1 os2 hist n h method seed. unfold simulate_monte_carlo.
    destruct hist as [|r0 rest]; [done|].
    destruct (n <=? 0); [done|]. destruct (h <=? 0); [done|].
    destruct seed as [s|]; [|done].
    destruct (String.eqb method "historical_bootstrap"); [reflexivity|].
    destruct (String.eqb method "multivariate_normal"); reflexivity.
  - intros os hist n h method Hne Hn Hh. unfold simulate_monte_carlo.
    destruct hist as [|r0 rest]; [done|].
    rewrite (proj2 (Z.leb_gt _ _) Hn), (proj2 (Z.leb_gt _ _) Hh). done.
Qed.
End Determinism.

Lemma lcg_draws_length f n g : length (Instances.lcg_draws f n g).1 = n.
Proof. revert g. induction n as [|n IH]; intros g; simpl; [done|]. by rewrite IH. Qed.

Lemma lcg_choice_length g a n xs g' :
  Instances.lcg_choice g a n = Return (xs, g') → length xs = Z.to_nat n.
Proof.
  unfold Instances.lcg_choice. destruct (n <? 0); [done|].
  intros [= Heq]. change xs with (xs, g').1. rewrite <- Heq. apply lcg_draws_length.
Qed.

Lemma lcg_normal_length g loc scale n xs g' :
  Instances.lcg_normal g loc scale n = Return (xs, g') → length xs = Z.to_nat n.
Proof.
  unfold Instances.lcg_normal. destruct (n <? 0); [done|].
  intros [= Heq]. change xs with (xs, g').1. rewrite <- Heq. apply lcg_draws_length.
Qed.

(** C9 on a bootstrap and a normal simulation of two paths over three days,
    drawn with the stand-in generator. *)
Lemma simulation_matrices_witness :
  (∃ sim,
     MonteCarlo.simulate_bootstrap Z Instances.lcg_seed Instances.lcg_choice
       Instances.mean_left Instances.std_ddof1_left
       0 [0.01; -0.02; 0.03]%float 2 3 (Some 42) = Return sim
     ∧ MonteCarlo.simulation_shape 2 3 sim)
  ∧ (∃ sim,
       MonteCarlo.simulate_multivariate_normal Z Instances.lcg_seed Instances.lcg_normal
         Instances.mean_left Instances.std_ddof1_left
         0 [0.01; -0.02; 0.03]%float 2 3 (Some 42) = Return sim
       ∧ MonteCarlo.simulation_shape 2 3 sim).
Proof.
  split.
  - eexists. split; [vm_compute; reflexivity|].
    apply (simulation_matrices Z Instances.lcg_seed Instances.lcg_choice
             Instances.lcg_normal Instances.mean_left Instances.std_ddof1_left
             lcg_choice_length lcg_normal_length
             0 [0.01; -0.02; 0.03]%float 2 3 (Some 42)).
    left. vm_compute. reflexivity.
  - eexists. split; [vm_compute; reflexivity|].
    apply (simulation_matrices Z Instances.lcg_seed Instances.lcg_choice
             Instances.lcg_normal Instances.mean_left Instances.std_ddof1_left
             lcg_choice_length lcg_normal_length
             0 [0.01; -0.02; 0.03]%float 2 3 (Some 42)).
    right. vm_compute. reflexivity.
Defined.

(** C3 with the stand-in generator: the seeded call does not see the
    entropy, and the unseeded call raises. *)
Lemma monte_carlo_deterministic_witness :
  MonteCarlo.simulate_monte_carlo Z Instances.lcg_seed Instances.lcg_choice
    Instances.lcg_normal Instances.mean_left Instances.std_ddof1_left
    7 [0.01; -0.02; 0.03]%float 2 3 "historical_bootstrap" (Some 42)
  = MonteCarlo.simulate_monte_carlo Z Instances.lcg_seed Instances.lcg_choice
      Instances.lcg_normal Instances.mean_left Instances.std_ddof1_left
      8 [0.01; -0.02; 0.03]%float 2 3 "historical_bootstrap" (Some 42)
  ∧ MonteCarlo.simulate_monte_carlo Z Instances.lcg_seed Instances.lcg_choice
      Instances.lcg_normal Instances.mean_left Instances.std_ddof1_left
      7 [0.01; -0.02; 0.03]%float 2 3 "multivariate_normal" None
    = Raise (ValueError RandomSeedRequired).
Proof.
  destruct (monte_carlo_deterministic Z Instances.lcg_seed Instances.lcg_choice
              Instances.lcg_normal Instances.mean_left Instances.std_ddof1_left)
    as [Hsame Hseed].
  split.
  - apply Hsame.
  - apply Hseed; [done|lia|lia].
Defined.

(** The guard matters: [simulate_bootstrap] called directly without a seed
    draws from the entropy, and two entropies give two simulations. *)
Example bootstrap_unseeded_depends_on_entropy :
  MonteCarlo.simulate_bootstrap Z Instances.lcg_seed Instances.lcg_choice
    Instances.mean_left Instances.std_ddof1_left
    7 [0.01; -0.02; 0.03]%float 2 3 None
  ≠ MonteCarlo.simulate_bootstrap Z Instances.lcg_seed Instances.lcg_choice
      Instances.mean_left Instances.std_ddof1_left
      8 [0.01; -0.02; 0.03]%float 2 3 None.
Proof.
  intros H.
  apply (f_equal (fun r => match r with
                           | Return sim =>
                               match MonteCarlo.simulated_paths sim with
                               | (x :: _) :: _ => PrimFloat.eqb x 0.01
                               | _ => false
                               end
                           | Raise _ => false
                           end)) in H.
  vm_compute in H. discriminate H.
Qed.

(** ** Factor regression *)

Section RegressionFacts.
Import Regression.
Variable lstsq : list vec4 → list float → result (vec4 * Z).
Variable matvec : list vec4 → vec4 → list float.
Variable inv_gram : list vec4 → result mat4.
Variable np_sum np_mean : list float → float.
Variable t_cdf : float → Z → float.

Lemma regression_handlers_Return r res :
  regression_handlers r = Return res → r = Return res.
Proof. destruct r as [res'|[]]; simpl; congruence. Qed.



End RegressionFacts.



(** The statistics of that fit, which the call never returns. *)
Example regression_noise_statistics :
  let m := Samples.noise_matrix 30 in
  let y := zip_with PrimFloat.sub (Regression.portfolio_returns m)
                    (Regression.risk_free_rates m) in
  let X := Regression.rows_of_columns (Regression.market_excess_returns m)
             (Regression.smb_returns m) (Regression.hml_returns m) in
  ∃ coefficients,
    Ols.lstsq X y = Return (coefficients, 4)
    ∧ let residuals := zip_with PrimFloat.sub y (Ols.matvec X coefficients) in
      let ss_res := Instances.sum_left ((fun r => (r * r)%float) <$> residuals) in
      let mean_y := Instances.mean_left y in
      let ss_tot :=
        Instances.sum_left ((fun v => ((v - mean_y) * (v - mean_y))%float) <$> y) in
      let r_squared := (1 - ss_res / ss_tot)%float in
      r_squared = 0.058984199799036907%float
      ∧ (1 - (1 - r_squared) * 29 / 26)%float = (-0.049594546377997428)%float.
Proof.
  eexists. split; [vm_compute; reflexivity|]. split; vm_compute; reflexivity.
Qed.

(** ** The replay store and the acquisition of prices *)

Section StoreFacts.
Import Storage.
Variable sha256_hexdigest : string → string.

Lemma write_Ok fs fault key data fs1 :
  write sha256_hexdigest fs fault key data = (Ok (), fs1) →
  data ≠ [] ∧ fs1 !! _key_to_path sha256_hexdigest key = Some data.
Proof.
  unfold write. destruct data as [|b data]; [done|].
  destruct fault; intros [= <-]; (split; [done|]); apply lookup_insert_eq.
Qed.

Lemma read_stored fs key data :
  fs !! _key_to_path sha256_hexdigest key = Some data → data ≠ [] →
  ∀ fault, (∀ detail, fault ≠ ReadFails detail) →
  read sha256_hexdigest fs fault key = Ok data.
Proof.
  intros Hfs Hne fault Hfault. unfold read. rewrite Hfs.
  destruct fault; try (by destruct data); by destruct (Hfault detail).
Qed.

Lemma exists_stored fs key data :
  fs !! _key_to_path sha256_hexdigest key = Some data →
  exists_ sha256_hexdigest fs key = true.
Proof. intros Hfs. unfold exists_. apply bool_decide_eq_true. by rewrite Hfs. Qed.
End StoreFacts.

Section AcquisitionFacts.
Import Storage Yahoo.
Variable sha256_hexdigest : string → string.
Variable isoformat : Z → string.
Variable serialize : list PriceBar → PriceSeriesMetadata → list Byte.byte.
Variable deserialize : list Byte.byte → parsed.

(** X24. After a successful [write(key, d1)] the provider never changes
    the key: it exists and [read(key)] returns [d1]; the store-if-absent
    step, with any bytes and under any fault, leaves the store unchanged,
    and so does a whole call of [get_price_series] for that key. *)
Theorem existing_key_preserved fs fault key d1 fs1 :
  write sha256_hexdigest fs fault key d1 = (Ok (), fs1) →
  key_preserved sha256_hexdigest isoformat serialize deserialize fs1 key d1.
Proof.
  intros [Hne Hfs]%write_Ok. unfold key_preserved.
  pose proof (exists_stored _ _ _ _ Hfs) as Hex.
  split; [done|]. split; [by apply read_stored|]. split.
  - intros fault2 d2. unfold store_if_absent. by rewrite Hex.
  - intros env ticker start end_ <-. unfold get_price_series. by rewrite Hex.
Qed.

Lemma append_cons c s t : String c s +:+ t = String c (s +:+ t).
Proof. reflexivity. Qed.

Lemma prefix_occurs pattern s :
  String.prefix pattern s = true ↔ ∃ after, s = pattern +:+ after.
Proof.
  revert s. induction pattern as [|c pattern IH]; intros s.
  - split; [intros _; by exists s|intros _; by destruct s].
  - destruct s as [|c' s]; simpl; [split; [done|by intros [? ?]]|].
    destruct (Ascii.ascii_dec c c') as [<-|Hne].
    + rewrite IH. split; intros [after Heq]; exists after;
        rewrite append_cons in *; congruence.
    + split; [done|]. intros [after Heq]. rewrite append_cons in Heq. congruence.
Qed.

Lemma contains_occurs pattern s :
  contains pattern s = true ↔ occurs_in pattern s.
Proof.
  unfold occurs_in. induction s as [|c s IH].
  - unfold contains. rewrite orb_false_r, prefix_occurs. split.
    + intros [after Heq]. by exists "", after.
    + intros (before & after & Heq). destruct before as [|? ?]; [|done].
      by exists after.
  - change (contains pattern (String c s))
      with (String.prefix pattern (String c s) || contains pattern s).
    rewrite orb_true_iff, prefix_occurs, IH. split.
    + intros [[after Heq]|(before & after & Heq)].
      * by exists "", after.
      * exists (String c before), after. by rewrite append_cons, Heq.
    + intros (before & after & Heq). destruct before as [|c' before].
      * left. by exists after.
      * right. exists before, after. rewrite append_cons in Heq. congruence.
Qed.

Lemma lower_char_idempotent c : lower_char (lower_char c) = lower_char c.
Proof. by destruct c as [[] [] [] [] [] [] [] []]. Qed.

Lemma lower_idempotent s : lower (lower s) = lower s.
Proof.
  unfold lower. induction s as [|c s IH]; simpl; [done|].
  by rewrite lower_char_idempotent, IH.
Qed.

(** The test of the handler is the rule of the contract. *)
Lemma is_not_found_rule e :
  existsb (fun pattern => contains pattern (lower (lower (exn_message e))))
          not_found_patterns = true
  ↔ reads_as_not_found e.
Proof.
  unfold reads_as_not_found, not_found_patterns. rewrite lower_idempotent.
  rewrite existsb_exists. split.
  - intros (pattern & Hin & Hc). exists pattern.
    split; [by apply list_elem_of_In|by apply contains_occurs].
  - intros (pattern & Hin & Hc). exists pattern.
    split; [by apply list_elem_of_In|by apply contains_occurs].
Qed.

(** C2 (amended). When the upstream raises [e] (the key was not stored when
    the call began): the store is checked again. A value that is now under
    the key and reads back as a non-empty series is returned; one that is
    empty, does not decode or has another structure raises a
    [BadRequestError], and one without bars a [NotFoundError]. When nothing
    is under the key, [e] is not propagated: the call raises the
    [NotFoundError] of the request when the lower-cased text of [e] holds
    one of "not found", "no data", "invalid", "does not exist", "symbol",
    and otherwise a [ProviderUnavailableError] of the provider yahoo with
    the class name of [e] as [error_type]. *)
Theorem fetch_failure_fallback fs env ticker start end_ e :
  exists_ sha256_hexdigest fs (storage_key isoformat ticker start end_) = false →
  upstream env = Err e →
  fallback_contract sha256_hexdigest isoformat serialize deserialize
    fs env ticker start end_ e.
Proof.
  intros Hnew Hup. unfold fallback_contract.
  unfold get_price_series, fetch_fresh. rewrite Hnew, Hup.
  split; [|split; [|split]].
  - intros data bar bars metadata Hfs Hne Hfault Hparse.
    rewrite (exists_stored _ _ _ _ Hfs). unfold load_fallback.
    rewrite (read_stored _ _ _ _ Hfs Hne) by (rewrite Hfault; done).
    by rewrite Hparse.
  - intros data Hfs Hfault Hbad.
    rewrite (exists_stored _ _ _ _ Hfs). unfold load_fallback, read.
    rewrite Hfs, Hfault. destruct data as [|b data]; [eauto|].
    destruct Hbad as [?|[->|[detail ->]]]; [done|eauto..].
  - intros data metadata Hfs Hne Hfault Hparse.
    rewrite (exists_stored _ _ _ _ Hfs). unfold load_fallback.
    rewrite (read_stored _ _ _ _ Hfs Hne) by (rewrite Hfault; done).
    by rewrite Hparse.
  - intros ->. unfold classify_failure.
    destruct (existsb _ _) eqn:Htest.
    + split; [done|]. intros Hnot. by apply is_not_found_rule in Htest.
    + split; [|done]. intros Hfound%is_not_found_rule. congruence.
Qed.
End AcquisitionFacts.

(** X24 on the first write of a blob under the key of a request. *)
Lemma existing_key_preserved_witness :
  let fs1 := (Storage.write Instances.wrap_digest ∅ Storage.NoFault
                Samples.aapl_key Samples.blob).2 in
  Storage.write Instances.wrap_digest ∅ Storage.NoFault Samples.aapl_key Samples.blob
  = (Storage.Ok (), fs1)
  ∧ Yahoo.key_preserved Instances.wrap_digest Instances.isoformat
      Samples.serialize_blob Samples.deserialize_blob fs1 Samples.aapl_key Samples.blob.
Proof.
  intros fs1.
  assert (Storage.write Instances.wrap_digest ∅ Storage.NoFault
            Samples.aapl_key Samples.blob = (Storage.Ok (), fs1)) as Hwrite
    by reflexivity.
  split; [exact Hwrite|].
  exact (existing_key_preserved Instances.wrap_digest Instances.isoformat
           Samples.serialize_blob Samples.deserialize_blob
           ∅ Storage.NoFault Samples.aapl_key Samples.blob fs1 Hwrite).
Defined.

(** C1. The store at the failing input: after [write(key, d1)] a second
    [write(key, d2)] under the same key succeeds, and [read(key)] then
    returns [d2], where the module says "Never overwrites existing data". *)
Theorem second_write_replaces_stored_bytes :
  let fs1 := (Storage.write Instances.wrap_digest ∅ Storage.NoFault
                Samples.aapl_key Samples.blob).2 in
  let fs2 := (Storage.write Instances.wrap_digest fs1 Storage.NoFault
                Samples.aapl_key Samples.other_blob).2 in
  (Storage.write Instances.wrap_digest ∅ Storage.NoFault
     Samples.aapl_key Samples.blob).1 = Storage.Ok ()
  ∧ Storage.read Instances.wrap_digest fs1 Storage.NoFault Samples.aapl_key
    = Storage.Ok Samples.blob
  ∧ (Storage.write Instances.wrap_digest fs1 Storage.NoFault
       Samples.aapl_key Samples.other_blob).1 = Storage.Ok ()
  ∧ Storage.read Instances.wrap_digest fs2 Storage.NoFault Samples.aapl_key
    = Storage.Ok Samples.other_blob
  ∧ Storage.read Instances.wrap_digest fs2 Storage.NoFault Samples.aapl_key
    ≠ Storage.Ok Samples.blob
  ∧ fs2 ≠ fs1.
Proof.
  intros fs1 fs2.
  assert (Storage.read Instances.wrap_digest fs1 Storage.NoFault Samples.aapl_key
          = Storage.Ok Samples.blob) as Hread1 by (vm_compute; reflexivity).
  assert (Storage.read Instances.wrap_digest fs2 Storage.NoFault Samples.aapl_key
          = Storage.Ok Samples.other_blob) as Hread2 by (vm_compute; reflexivity).
  split; [reflexivity|]. split; [exact Hread1|]. split; [reflexivity|].
  split; [exact Hread2|]. split.
  - rewrite Hread2. discriminate.
  - intros Heq. rewrite Heq, Hread1 in Hread2. discriminate Hread2.
Qed.

(** C2 on three failed fetches of AAPL over 2023-01-03..04 from an empty
    store: a connection error, alone and while another caller persists the
    series, and an error whose text reads as not found. *)
Lemma fetch_failure_fallback_witness :
  Storage.exists_ Instances.wrap_digest ∅
    (Yahoo.storage_key Instances.isoformat "AAPL" Samples.jan_3 Samples.jan_4) = false
  ∧ Yahoo.fallback_contract Instances.wrap_digest Instances.isoformat
      Samples.serialize_blob Samples.deserialize_blob
      ∅ (Samples.quiet (Storage.Err Samples.connection_error))
      "AAPL" Samples.jan_3 Samples.jan_4 Samples.connection_error
  ∧ Yahoo.fallback_contract Instances.wrap_digest Instances.isoformat
      Samples.serialize_blob Samples.deserialize_blob
      ∅ (Samples.raced Samples.aapl_key (Storage.Err Samples.connection_error))
      "AAPL" Samples.jan_3 Samples.jan_4 Samples.connection_error
  ∧ Yahoo.fallback_contract Instances.wrap_digest Instances.isoformat
      Samples.serialize_blob Samples.deserialize_blob
      ∅ (Samples.quiet (Storage.Err Samples.delisted_error))
      "AAPL" Samples.jan_3 Samples.jan_4 Samples.delisted_error.
Proof.
  assert (Storage.exists_ Instances.wrap_digest ∅
            (Yahoo.storage_key Instances.isoformat "AAPL" Samples.jan_3 Samples.jan_4)
          = false) as Hnew by (vm_compute; reflexivity).
  split; [exact Hnew|]. split; [|split].
  - apply fetch_failure_fallback; [exact Hnew|reflexivity].
  - apply fetch_failure_fallback; [exact Hnew|reflexivity].
  - apply fetch_failure_fallback; [exact Hnew|reflexivity].
Defined.

(** The values of those three calls: the connection error comes back as a
    [ProviderUnavailableError]; the series persisted meanwhile is returned;
    the error that reads as not found comes back as the [NotFoundError] of
    the request. *)
Example fallback_sample_values :
  let run := Yahoo.get_price_series Instances.wrap_digest Instances.isoformat
               Samples.serialize_blob Samples.deserialize_blob (Some ∅) in
  let dated :=
    [("ticker", "AAPL"); ("start_date", "2023-01-03"); ("end_date", "2023-01-04")] in
  Yahoo.storage_key Instances.isoformat "AAPL" Samples.jan_3 Samples.jan_4
  = Samples.aapl_key
  ∧ (run (Samples.quiet (Storage.Err Samples.connection_error))
         "AAPL" Samples.jan_3 Samples.jan_4).1
    = Storage.Err
        (Storage.ProviderUnavailableError
           "Market data provider is temporarily unavailable." "yahoo"
           (dated ++ [("error_type", "ConnectionError")]))
  ∧ (run (Samples.raced Samples.aapl_key (Storage.Err Samples.connection_error))
         "AAPL" Samples.jan_3 Samples.jan_4).1
    = Storage.Ok {| Yahoo.bars := Samples.two_bars;
                    Yahoo.metadata := Samples.yahoo_metadata |}
  ∧ (run (Samples.quiet (Storage.Err Samples.delisted_error))
         "AAPL" Samples.jan_3 Samples.jan_4).1
    = Storage.Err
        (Storage.NotFoundError
           "No price data available for ticker 'AAPL' for date range 2023-01-03 to 2023-01-04."
           dated).
Proof. repeat split; vm_compute; reflexivity. Qed.

(** Outside C2 as amended, since the upstream raised nothing: when it
    answers with no rows, the [NotFoundError] that the provider itself
    raises is caught by the same handler and, none of the patterns occurring
    in its message, comes back as a [ProviderUnavailableError]. *)
Example empty_answer_is_reported_unavailable :
  (Yahoo.get_price_series Instances.wrap_digest Instances.isoformat
     Samples.serialize_blob Samples.deserialize_blob (Some ∅)
     (Samples.quiet (Storage.Ok [])) "AAPL" Samples.jan_3 Samples.jan_4).1
  = Storage.Err
      (Storage.ProviderUnavailableError
         "Market data provider is temporarily unavailable." "yahoo"
         [("ticker", "AAPL"); ("start_date", "2023-01-03");
          ("end_date", "2023-01-04"); ("error_type", "NotFoundError")]).
Proof. vm_compute. reflexivity. Qed.

(** C2, as stated, fails when nothing is persisted: the fetch raises a
    [ConnectionError] and the call raises a [ProviderUnavailableError]
    instead of it. *)
Lemma fetch_error_reclassified_counterexample :
  let env := Samples.quiet (Storage.Err Samples.connection_error) in
  let run := Yahoo.get_price_series Instances.wrap_digest Instances.isoformat
               Samples.serialize_blob Samples.deserialize_blob (Some ∅)
               env "AAPL" Samples.jan_3 Samples.jan_4 in
  Yahoo.fetch_fresh Instances.isoformat env "AAPL" Samples.jan_3 Samples.jan_4
  = Storage.Err Samples.connection_error
  ∧ Storage.exists_ Instances.wrap_digest (Yahoo.concurrent_writes env ∅)
      Samples.aapl_key = false
  ∧ (∃ e, run.1 = Storage.Err e
          ∧ Storage.exn_class e = "ProviderUnavailableError")
  ∧ run.1 ≠ Storage.Err Samples.connection_error.
Proof.
  intros env run.
  assert (run.1 = Storage.Err (Yahoo.classify_failure Instances.isoformat
                                 Samples.connection_error "AAPL"
                                 Samples.jan_3 Samples.jan_4)) as Hrun
    by (vm_compute; reflexivity).
  split; [reflexivity|]. split; [vm_compute; reflexivity|]. split.
  - eexists. split; [exact Hrun|]. vm_compute. reflexivity.
  - rewrite Hrun. intros Heq. vm_compute in Heq. discriminate Heq.
Qed.

(** * Further properties *)

(** ** Signs of binary64 numbers *)

Section FloatSigns.
Local Open Scope float_scope.

Lemma zero_spec : Prim2SF 0 = S754_zero false.
Proof. reflexivity. Qed.

Lemma ltb_negative_trans x y :
  PrimFloat.ltb x y = true → PrimFloat.ltb y 0 = true → PrimFloat.ltb x 0 = true.
Proof.
  rewrite !ltb_spec, zero_spec. unfold SFltb.
  destruct (Prim2SF x) as [[]| [] | |[] ? ?], (Prim2SF y) as [[]| [] | |[] ? ?];
    simpl; try done.
Qed.

Lemma ltb_positive_trans x y :
  PrimFloat.ltb 0 x = true → PrimFloat.ltb x y = true → PrimFloat.ltb 0 y = true.
Proof.
  rewrite !ltb_spec, zero_spec. unfold SFltb.
  destruct (Prim2SF x) as [[]| [] | |[] ? ?], (Prim2SF y) as [[]| [] | |[] ? ?];
    simpl; try done.
Qed.

Lemma ltb_positive_nonzero x :
  PrimFloat.ltb 0 x = true → PrimFloat.eqb x 0 = false.
Proof.
  rewrite ltb_spec, FloatAxioms.eqb_spec, zero_spec. unfold SFltb, SFeqb.
  destruct (Prim2SF x) as [[]| [] | |[] ? ?]; simpl; done.
Qed.

Lemma ltb_negative_leb x :
  PrimFloat.ltb x 0 = true → PrimFloat.leb x 0 = true.
Proof.
  rewrite ltb_spec, leb_spec, zero_spec. unfold SFltb, SFleb.
  destruct (Prim2SF x) as [[]| [] | |[] ? ?]; simpl; done.
Qed.
End FloatSigns.

(** ** Maximum drawdown and the metrics record *)

Section DrawdownFacts.
Import Drawdown.

Lemma step_invariant st ret :
  loop_invariant st → ∃ st', step st ret = Done st' ∧ loop_invariant st'.
Proof.
  intros [Hpeak Hdd]. unfold step, float_div.
  set (c := (cumulative st * (1 + ret))%float).
  assert (PrimFloat.ltb 0 (if PrimFloat.ltb (peak st) c then c else peak st) = true)
    as Hpeak'.
  { destruct (PrimFloat.ltb (peak st) c) eqn:Hc; [|done].
    by eapply ltb_positive_trans. }
  rewrite (ltb_positive_nonzero _ Hpeak'). simpl.
  eexists. split; [done|]. split; [done|]. simpl.
  destruct (PrimFloat.ltb _ (max_dd st)) eqn:Hlt; [|done].
  right. destruct Hdd as [Hz|Hneg].
  - by rewrite Hz in Hlt.
  - by eapply ltb_negative_trans.
Qed.

Lemma loop_invariant_kept returns st :
  loop_invariant st → ∃ st', loop st returns = Done st' ∧ loop_invariant st'.
Proof.
  revert st. induction returns as [|ret rest IH]; intros st Hinv; simpl; [eauto|].
  destruct (step_invariant st ret Hinv) as (st1 & -> & Hinv1). simpl. by apply IH.
Qed.

Lemma max_drawdown_bound returns :
  returns ≠ [] →
  ∃ dd, compute_max_drawdown returns = Done dd ∧ PrimFloat.leb dd 0 = true.
Proof.
  intros Hne. unfold compute_max_drawdown.
  destruct returns as [|r0 rest] eqn:E; [done|]. rewrite <- E.
  destruct (loop_invariant_kept returns {| cumulative := 1; peak := 1; max_dd := 0 |})
    as (st & -> & _ & Hdd).
  { split; [reflexivity|by left]. }
  simpl. exists (max_dd st). split; [done|].
  destruct Hdd as [->|Hneg]; [reflexivity|by apply ltb_negative_leb].
Qed.

(** X1. [compute_max_drawdown] refuses an empty list; for every other list
    it returns, never dividing by zero, and what it returns is at most 0. *)
Theorem max_drawdown_never_positive :
  Drawdown.compute_max_drawdown [] = Failed (ValueErrorOf MaxDrawdownEmpty)
  ∧ ∀ returns, returns ≠ [] →
      ∃ dd, Drawdown.compute_max_drawdown returns = Done dd
            ∧ PrimFloat.leb dd 0 = true.
Proof. split; [done|]. apply max_drawdown_bound. Qed.
End DrawdownFacts.

(** X1 on three returns: a rise, a fall by half and a partial recovery. *)
Lemma max_drawdown_never_positive_witness :
  ∃ dd, Drawdown.compute_max_drawdown [0.1; -0.5; 0.2]%float = Done dd
        ∧ PrimFloat.leb dd 0 = true.
Proof.
  destruct max_drawdown_never_positive as [_ Hdd]. apply Hdd. done.
Defined.

Section MetricsRecordFacts.
Import Drawdown.
Variable np_mean np_std_ddof1 : list float → float.
Variable float_pow : float → float → result float.

Lemma lift_Done {A} (r : result A) a : lift r = Done a → r = Return a.
Proof. destruct r; simpl; congruence. Qed.

(** X2. [compute_metrics] refuses an empty series, and whenever it returns
    metrics the series has at least two returns, the number of trading days
    per year is not zero, the volatility is not zero, the cumulative return
    is that of [compute_cumulative_return] and the maximum drawdown is at
    most 0. *)
Theorem metrics_only_for_valid_series portfolio_returns risk_free_rate trading_days m :
  (PortfolioAgg.returns portfolio_returns = [] →
   compute_metrics np_mean np_std_ddof1 float_pow portfolio_returns
     risk_free_rate trading_days
   = Failed (ValueErrorOf PortfolioReturnsEmpty))
  ∧ (compute_metrics np_mean np_std_ddof1 float_pow portfolio_returns
       risk_free_rate trading_days = Done m →
     (2 ≤ length (PortfolioAgg.returns portfolio_returns))%nat
     ∧ trading_days ≠ 0
     ∧ PrimFloat.eqb (annualized_volatility m) 0 = false
     ∧ cumulative_return m
       = Metrics.compute_cumulative_return (PortfolioAgg.returns portfolio_returns)
     ∧ PrimFloat.leb (max_drawdown m) 0 = true).
Proof.
  unfold compute_metrics. split; [by intros ->|].
  destruct (PortfolioAgg.returns portfolio_returns) as [|r0 rest] eqn:E; [done|].
  rewrite <- E. set (returns := PortfolioAgg.returns portfolio_returns) in *.
  destruct (int_true_div _ trading_days) as [years|f] eqn:Hyears; simpl; [|done].
  assert (trading_days ≠ 0) as Hdays.
  { intros ->. unfold int_true_div in Hyears. discriminate Hyears. }
  destruct (lift (Metrics.compute_cagr _ _ _)) as [cagr_value|f]; simpl; [|done].
  destruct (lift (Metrics.compute_annualized_volatility _ _ _)) as [vol|f] eqn:Hvol;
    simpl; [|done].
  apply lift_Done in Hvol.
  destruct (compute_max_drawdown returns) as [dd|f] eqn:Hdd; simpl; [|done].
  destruct (lift (Metrics.compute_sharpe_ratio _ _ _ _ _)) as [sharpe|f] eqn:Hsharpe;
    simpl; [|done].
  apply lift_Done in Hsharpe. intros [= <-]. simpl.
  assert ((length returns <? 2)%nat = false) as Hlen.
  { unfold Metrics.compute_annualized_volatility in Hvol.
    by destruct (length returns <? 2)%nat. }
  split; [by apply Nat.ltb_ge|]. split; [done|]. split; [|split; [done|]].
  - unfold Metrics.compute_sharpe_ratio in Hsharpe. rewrite Hlen, Hvol in Hsharpe.
    simpl in Hsharpe. by destruct (PrimFloat.eqb vol 0).
  - destruct (max_drawdown_bound returns) as (dd' & Hdd' & Hle); [by rewrite E|].
    rewrite Hdd in Hdd'. by injection Hdd' as ->.
Qed.
End MetricsRecordFacts.

(** X2 on three returns over a year of three trading days, with the stand-in
    numpy functions. *)
Lemma metrics_only_for_valid_series_witness :
  let series := {| PortfolioAgg.dates := [1; 2; 3];
                   PortfolioAgg.returns := [0.01; -0.02; 0.03]%float;
                   PortfolioAgg.benchmark_returns := None |} in
  ∃ m,
    Drawdown.compute_metrics Instances.mean_left Instances.std_ddof1_left
      Instances.pow_one series 0 3 = Done m
    ∧ (2 ≤ length (PortfolioAgg.returns series))%nat
    ∧ PrimFloat.eqb (Drawdown.annualized_volatility m) 0 = false
    ∧ Drawdown.cumulative_return m
      = Metrics.compute_cumulative_return (PortfolioAgg.returns series)
    ∧ PrimFloat.leb (Drawdown.max_drawdown m) 0 = true.
Proof.
  intros series. eexists. split; [vm_compute; reflexivity|].
  destruct (metrics_only_for_valid_series Instances.mean_left Instances.std_ddof1_left
              Instances.pow_one series 0%float 3
              {| Drawdown.cumulative_return := 0.019494000000000122;
                 Drawdown.cagr := 0.019494000000000122;
                 Drawdown.annualized_volatility := 0.043588989435406733;
                 Drawdown.max_drawdown := -0.019999999999999997;
                 Drawdown.sharpe_ratio := 0.45883146774112349 |})
    as [_ Hvalid].
  destruct Hvalid as (H2 & _ & Hvol & Hcum & Hdd); [vm_compute; reflexivity|].
  repeat split; assumption.
Defined.

(** ** From prices to returns *)

Section PriceReturnsFacts.
Import PriceReturns.

Lemma daily_returns_Done prev_bar rest returns :
  daily_returns prev_bar rest = Done returns →
  returns_of_bars (prev_bar :: rest) returns.
Proof.
  revert prev_bar returns. induction rest as [|curr rest IH]; intros prev returns; simpl.
  - intros [= <-]. split; [done|]. intros i p c _ Hc. by destruct i.
  - unfold float_div. destruct (PrimFloat.eqb (price_of prev) 0); [done|]. simpl.
    destruct (daily_returns curr rest) as [tail|f] eqn:Htail; simpl; [|done].
    intros [= <-]. destruct (IH _ _ Htail) as [Hlen Hat].
    split; [simpl; by rewrite Hlen|].
    intros [|i] p c Hp Hc.
    + injection Hp as <-. injection Hc as <-. done.
    + by apply (Hat i p c).
Qed.

Lemma daily_returns_total prev_bar rest :
  Forall (fun bar => PrimFloat.eqb (price_of bar) 0 = false) (prev_bar :: rest) →
  ∃ returns, daily_returns prev_bar rest = Done returns.
Proof.
  revert prev_bar. induction rest as [|curr rest IH]; intros prev Hall; simpl; [eauto|].
  apply Forall_cons in Hall as [Hprev Hall]. unfold float_div. rewrite Hprev. simpl.
  destruct (IH curr Hall) as (tail & ->). simpl. eauto.
Qed.

Lemma existsb_adjusted_false bars :
  existsb (fun bar => bool_decide (Yahoo.adjusted_close bar ≠ None)) bars = false
  ↔ Forall (fun bar => Yahoo.adjusted_close bar = None) bars.
Proof.
  induction bars as [|bar bars IH]; simpl; [by split|].
  rewrite orb_false_iff, IH, Forall_cons, bool_decide_eq_false.
  split; intros [Hbar ?]; split; try done.
  - destruct (Yahoo.adjusted_close bar); [|done]. exfalso. by apply Hbar.
  - intros Hne. by apply Hne.
Qed.

Lemma existsb_unadjusted_false bars :
  existsb (fun bar => bool_decide (Yahoo.adjusted_close bar = None)) bars = false
  ↔ Forall (fun bar => Yahoo.adjusted_close bar ≠ None) bars.
Proof.
  induction bars as [|bar bars IH]; simpl; [by split|].
  by rewrite orb_false_iff, IH, Forall_cons, bool_decide_eq_false.
Qed.

Lemma mixed_guard bars :
  existsb (fun bar => bool_decide (Yahoo.adjusted_close bar ≠ None)) bars
  && existsb (fun bar => bool_decide (Yahoo.adjusted_close bar = None)) bars = false
  ↔ uniform_adjustment bars.
Proof.
  rewrite andb_false_iff, existsb_adjusted_false, existsb_unadjusted_false.
  unfold uniform_adjustment. tauto.
Qed.

(** X3. For a series of at least two bars, all adjusted or all unadjusted,
    whose prices are not zero, [price_series_to_returns] returns the ticker
    of the series and one return per pair of consecutive bars, dated as the
    later bar and equal to [P_t / P_{t-1} - 1] on the adjusted close when
    the bars have one, on the close otherwise. *)
Theorem price_returns_of_consecutive_bars (price_series : Yahoo.PriceSeries) :
  (2 ≤ length (Yahoo.bars price_series))%nat →
  uniform_adjustment (Yahoo.bars price_series) →
  Forall (fun bar => PrimFloat.eqb (price_of bar) 0 = false) (Yahoo.bars price_series) →
  ∃ rs,
    price_series_to_returns price_series = Done rs
    ∧ Returns.ticker rs = Yahoo.ticker (Yahoo.metadata price_series)
    ∧ returns_of_bars (Yahoo.bars price_series) (Returns.returns rs).
Proof.
  intros Hlen Huniform Hprices. unfold price_series_to_returns.
  destruct (Yahoo.bars price_series) as [|first [|second rest]] eqn:E;
    [simpl in Hlen; lia..|].
  rewrite (proj2 (mixed_guard _) Huniform).
  destruct (daily_returns_total first (second :: rest) Hprices) as (returns & Hreturns).
  rewrite Hreturns. simpl. eexists. split; [done|]. split; [done|].
  by apply daily_returns_Done.
Qed.

(** X4. [price_series_to_returns] refuses a series of fewer than two bars,
    and a series of two or more bars of which one has an adjusted close and
    another has none; whenever it returns, the bars are at least two and
    uniformly adjusted, and the returns are those of consecutive bars. *)
Theorem price_returns_refusals (price_series : Yahoo.PriceSeries) :
  ((length (Yahoo.bars price_series) < 2)%nat →
   price_series_to_returns price_series = Failed (ValueErrorOf PriceSeriesTooShort))
  ∧ ((2 ≤ length (Yahoo.bars price_series))%nat →
     ¬ uniform_adjustment (Yahoo.bars price_series) →
     price_series_to_returns price_series
     = Failed (ValueErrorOf
                 (MixedAdjustedPrices (Yahoo.ticker (Yahoo.metadata price_series)))))
  ∧ (∀ rs, price_series_to_returns price_series = Done rs →
       (2 ≤ length (Yahoo.bars price_series))%nat
       ∧ uniform_adjustment (Yahoo.bars price_series)
       ∧ returns_of_bars (Yahoo.bars price_series) (Returns.returns rs)).
Proof.
  unfold price_series_to_returns.
  destruct (Yahoo.bars price_series) as [|first [|second rest]] eqn:E.
  - split; [done|]. split; [simpl; lia|done].
  - split; [done|]. split; [simpl; lia|done].
  - split; [simpl; lia|].
    destruct (_ && _) eqn:Hguard.
    + split; [|done]. intros _ Hmixed. done.
    + apply mixed_guard in Hguard. split; [done|].
      intros rs. destruct (daily_returns _ _) as [returns|f] eqn:Hreturns; simpl; [|done].
      intros [= <-]. simpl. split; [lia|]. split; [done|].
      by apply daily_returns_Done.
Qed.
End PriceReturnsFacts.

(** ** Alignment of portfolio and factor returns *)

Section FactorsFacts.
Import Factors.

Lemma last_filter_is_Some {A} (P : A → Prop) `{∀ x, Decision (P x)} (l : list A) x :
  x ∈ l → P x → is_Some (last (filter P l)).
Proof.
  intros Hin HP.
  assert (x ∈ filter P l) as Hf by (by apply list_elem_of_filter).
  destruct (filter P l) as [|y l'] using rev_ind; [by apply elem_of_nil in Hf|].
  rewrite last_snoc. eauto.
Qed.

Lemma build_factor_map_lookup factor_series d :
  build_factor_map (bars factor_series) !! d = factor_bar_on factor_series d.
Proof.
  unfold build_factor_map, factor_bar_on.
  rewrite (foldl_insert_lookup trading_date (fun bar => bar)).
  destruct (last _); [done|]. apply lookup_empty.
Qed.

Lemma build_portfolio_map_lookup portfolio_returns d :
  build_portfolio_map (PortfolioAgg.dates portfolio_returns)
                      (PortfolioAgg.returns portfolio_returns) !! d
  = portfolio_return_on portfolio_returns d.
Proof.
  unfold build_portfolio_map, portfolio_return_on.
  rewrite (foldl_insert_lookup fst snd).
  destruct (last _); [done|]. apply lookup_empty.
Qed.

Lemma factor_bar_on_is_Some factor_series d :
  d ∈ trading_date <$> bars factor_series → is_Some (factor_bar_on factor_series d).
Proof.
  intros (bar & -> & Hin)%list_elem_of_fmap.
  by apply (last_filter_is_Some _ _ bar).
Qed.

Lemma portfolio_return_on_is_Some portfolio_returns d :
  (length (PortfolioAgg.dates portfolio_returns)
   ≤ length (PortfolioAgg.returns portfolio_returns))%nat →
  d ∈ PortfolioAgg.dates portfolio_returns →
  is_Some (portfolio_return_on portfolio_returns d).
Proof.
  intros Hlen Hin. unfold portfolio_return_on.
  rewrite <- (fst_zip _ _ Hlen) in Hin.
  apply list_elem_of_fmap in Hin as ([d' r] & Hd & Hin). simpl in Hd. subst d.
  destruct (last_filter_is_Some (fun pair : Z * float => pair.1 = d')
              _ (d', r) Hin eq_refl) as [pair Hpair].
  rewrite Hpair. simpl. eauto.
Qed.

Lemma extract_columns_Done portfolio_map factor_map ds cols :
  extract_columns portfolio_map factor_map ds = Done cols →
  length (aligned_portfolio_returns cols) = length ds
  ∧ length (aligned_market_excess cols) = length ds
  ∧ length (aligned_smb cols) = length ds
  ∧ length (aligned_hml cols) = length ds
  ∧ length (aligned_rf cols) = length ds
  ∧ ∀ i d, ds !! i = Some d →
      ∃ r bar,
        portfolio_map !! d = Some r ∧ factor_map !! d = Some bar
        ∧ aligned_portfolio_returns cols !! i = Some r
        ∧ aligned_market_excess cols !! i = Some (market_excess_return bar)
        ∧ aligned_smb cols !! i = Some (smb bar)
        ∧ aligned_hml cols !! i = Some (hml bar)
        ∧ aligned_rf cols !! i = Some (risk_free_rate bar).
Proof.
  revert cols. induction ds as [|dt rest IH]; intros cols; simpl.
  - intros [= <-]. simpl. by repeat split.
  - destruct (portfolio_map !! dt) as [r|] eqn:Hr; [|done].
    destruct (factor_map !! dt) as [bar|] eqn:Hbar; [|done].
    destruct (extract_columns _ _ rest) as [tail|f] eqn:Htail; simpl; [|done].
    intros [= <-]. simpl.
    destruct (IH _ eq_refl) as (H1 & H2 & H3 & H4 & H5 & Hat).
    rewrite H1, H2, H3, H4, H5. repeat split; try done.
    intros [|i] d Hd.
    + injection Hd as <-. exists r, bar. by repeat split.
    + by apply Hat.
Qed.

Lemma extract_columns_total portfolio_map factor_map ds :
  (∀ d, d ∈ ds → is_Some (portfolio_map !! d) ∧ is_Some (factor_map !! d)) →
  ∃ cols, extract_columns portfolio_map factor_map ds = Done cols.
Proof.
  induction ds as [|dt rest IH]; intros Hall; simpl; [eauto|].
  destruct (Hall dt) as [[r ->] [bar ->]]; [left|].
  destruct IH as (cols & ->); [intros d ?; apply Hall; by right|].
  simpl. eauto.
Qed.

Lemma shared_date_common portfolio_returns factor_series d :
  d ∈ (list_to_set (PortfolioAgg.dates portfolio_returns) : gset Z)
      ∩ list_to_set (trading_date <$> bars factor_series)
  ↔ shared_date portfolio_returns factor_series d.
Proof. unfold shared_date. by rewrite elem_of_intersection, !elem_of_list_to_set. Qed.

Lemma last_default {A} (l : list A) (x d : A) : last (x :: l) = Some (List.last (x :: l) d).
Proof.
  revert x. induction l as [|y l IH]; intros x; [done|].
  rewrite last_cons_cons. change (List.last (x :: y :: l) d) with (List.last (y :: l) d).
  apply IH.
Qed.

(** X5. When every date of the portfolio series has a return,
    [align_portfolio_with_factors] fails for an empty portfolio series, an
    empty factor series or no shared date (naming the first and last dates
    of both), and otherwise returns the shared dates in strictly ascending
    order with five columns of that length whose row [i] holds the portfolio
    return and the factor values of the i-th date. *)
Theorem factor_alignment portfolio_returns factor_series :
  (length (PortfolioAgg.dates portfolio_returns)
   ≤ length (PortfolioAgg.returns portfolio_returns))%nat →
  factor_alignment_contract portfolio_returns factor_series
    (align_portfolio_with_factors portfolio_returns factor_series).
Proof.
  intros Hlen. unfold factor_alignment_contract, align_portfolio_with_factors.
  destruct (PortfolioAgg.dates portfolio_returns) as [|d0 ds] eqn:Edates.
  { split; [done|]. split; [done|]. split; [done|].
    intros (d & Hd & _). rewrite Edates in Hd. by apply elem_of_nil in Hd. }
  destruct (bars factor_series) as [|b0 bs] eqn:Ebars.
  { split; [done|]. split; [done|]. split; [done|].
    intros (d & _ & Hd). rewrite Ebars in Hd. by apply elem_of_nil in Hd. }
  rewrite <- Edates, <- Ebars. rewrite <- Edates in Hlen.
  split; [by rewrite Edates|]. split; [by rewrite Ebars|].
  pose proof (shared_date_common portfolio_returns factor_series) as Hcommon.
  set (common := (list_to_set (PortfolioAgg.dates portfolio_returns) : gset Z)
                 ∩ list_to_set (trading_date <$> bars factor_series)) in *.
  split.
  - intros _ _ Hnone. rewrite decide_True.
    2:{ apply set_eq. intros d. rewrite Hcommon. split; [|by intros ?%not_elem_of_empty].
        intros ?. exfalso. eauto. }
    eexists _, _, _, _. split; [done|].
    rewrite Edates, Ebars, fmap_cons. split; [done|]. split; [apply last_default|].
    split; [done|]. rewrite <- fmap_cons, fmap_last, (last_default bs b0 b0). done.
  - intros [d1 Hd1]. rewrite decide_False.
    2:{ intros Hempty. apply Hcommon in Hd1. rewrite Hempty in Hd1.
        by apply not_elem_of_empty in Hd1. }
    destruct (sorted_dates_spec common) as [Hsorted Hmem].
    destruct (extract_columns_total
                (build_portfolio_map (PortfolioAgg.dates portfolio_returns)
                                     (PortfolioAgg.returns portfolio_returns))
                (build_factor_map (bars factor_series))
                (Returns.sorted_dates common)) as (cols & Hcols).
    { intros d Hd. apply Hmem, Hcommon in Hd as [Hp Hf]. split.
      - rewrite build_portfolio_map_lookup. by apply portfolio_return_on_is_Some.
      - rewrite build_factor_map_lookup. by apply factor_bar_on_is_Some. }
    rewrite Hcols. simpl. eexists. split; [done|]. simpl.
    destruct (extract_columns_Done _ _ _ _ Hcols) as (H1 & H2 & H3 & H4 & H5 & Hat).
    split; [done|]. split; [intros d; by rewrite Hmem|]. split; [done|].
    intros i d Hd. destruct (Hat i d Hd) as (r & bar & Hr & Hbar & Hrow).
    exists r, bar. rewrite <- build_portfolio_map_lookup, <- build_factor_map_lookup.
    done.
Qed.

Lemma rows_of_columns_length mkt smb hml n :
  length mkt = n → length smb = n → length hml = n →
  length (Regression.rows_of_columns mkt smb hml) = n.
Proof.
  revert smb hml n. induction mkt as [|m mkt IH]; intros [|s smb] [|h hml] n; simpl;
    intros <-; try done.
  intros [= Hs] [= Hh]. f_equal. by apply IH.
Qed.

Lemma align_Done_rectangular portfolio_returns factor_series data :
  align_portfolio_with_factors portfolio_returns factor_series = Done data →
  rectangular (matrix data).
Proof.
  unfold align_portfolio_with_factors.
  destruct (PortfolioAgg.dates portfolio_returns) as [|d0 ds]; [done|].
  destruct (bars factor_series) as [|b0 bs]; [done|].
  destruct (decide _); [done|].
  destruct (extract_columns _ _ _) as [cols|f] eqn:Hcols; simpl; [|done].
  intros [= <-]. unfold rectangular. simpl.
  by destruct (extract_columns_Done _ _ _ _ Hcols) as (H1 & H2 & H3 & H4 & H5 & _).
Qed.

(** X6. In every dataset [align_portfolio_with_factors] returns, the matrix
    is rectangular and the day counts add up: at least one day is aligned,
    the dropped counts are not negative, aligned plus dropped days give the
    original counts of both series, and the aligned range is the first and
    the last aligned date. *)
Theorem factor_alignment_accounting portfolio_returns factor_series data :
  align_portfolio_with_factors portfolio_returns factor_series = Done data →
  rectangular (matrix data)
  ∧ day_accounting portfolio_returns factor_series data.
Proof.
  unfold align_portfolio_with_factors.
  destruct (PortfolioAgg.dates portfolio_returns) as [|d0 ds] eqn:Edates; [done|].
  destruct (bars factor_series) as [|b0 bs] eqn:Ebars; [done|].
  rewrite <- Edates, <- Ebars.
  pose proof (shared_date_common portfolio_returns factor_series) as Hcommon.
  set (common := (list_to_set (PortfolioAgg.dates portfolio_returns) : gset Z)
                 ∩ list_to_set (trading_date <$> bars factor_series)) in *.
  destruct (decide (common = ∅)) as [|Hne]; [done|].
  destruct (extract_columns _ _ _) as [cols|f] eqn:Hcols; simpl; [|done].
  intros [= <-]. unfold day_accounting, rectangular. simpl.
  destruct (extract_columns_Done _ _ _ _ Hcols) as (H1 & H2 & H3 & H4 & H5 & _).
  split; [done|].
  destruct (sorted_dates_spec common) as [Hsorted Hmem].
  assert (NoDup (Returns.sorted_dates common)) as Hnd.
  { unfold Returns.sorted_dates. rewrite merge_sort_Permutation. apply NoDup_elements. }
  assert (length (Returns.sorted_dates common)
          ≤ length (PortfolioAgg.dates portfolio_returns))%nat as Hp.
  { apply submseteq_length, NoDup_submseteq; [done|].
    intros d Hd. apply Hmem, Hcommon in Hd. apply Hd. }
  assert (length (Returns.sorted_dates common) ≤ length (bars factor_series))%nat as Hf.
  { rewrite <- (length_fmap trading_date).
    apply submseteq_length, NoDup_submseteq; [done|].
    intros d Hd. apply Hmem, Hcommon in Hd. apply Hd. }
  assert (0 < length (Returns.sorted_dates common))%nat as Hpos.
  { destruct (Returns.sorted_dates common) as [|d l] eqn:Es; [|simpl; lia].
    exfalso. apply Hne, set_eq. intros d. rewrite <- Hmem.
    split; intros Hd; [by apply elem_of_nil in Hd|by apply not_elem_of_empty in Hd]. }
  repeat split; try done; lia.
Qed.

Section AlignedRegression.
Variable lstsq : list Regression.vec4 → list float → result (Regression.vec4 * Z).
Variable matvec : list Regression.vec4 → Regression.vec4 → list float.
Variable inv_gram : list Regression.vec4 → result Regression.mat4.
Variable np_sum np_mean : list float → float.
Variable t_cdf : float → Z → float.

(** X7. On a dataset returned by [align_portfolio_with_factors] with at
    least 30 dates, [run_factor_regression] meets no shape error: it reaches
    the least-squares step with one excess return and one design row
    [1, MKT-RF, SMB, HML] per aligned date, and its outcome is that of the
    guarded regression itself. *)
Theorem aligned_data_reaches_regression portfolio_returns factor_series data :
  align_portfolio_with_factors portfolio_returns factor_series = Done data →
  (30 ≤ length (Regression.dates (matrix data)))%nat →
  let m := matrix data in
  let y := zip_with PrimFloat.sub (Regression.portfolio_returns m)
                    (Regression.risk_free_rates m) in
  let X := Regression.rows_of_columns (Regression.market_excess_returns m)
             (Regression.smb_returns m) (Regression.hml_returns m) in
  length y = length (Regression.dates m)
  ∧ length X = length (Regression.dates m)
  ∧ Regression.run_factor_regression lstsq matvec inv_gram np_sum np_mean t_cdf
      (regression_input data)
    = Regression.regression_handlers
        (Regression.regression_body lstsq matvec inv_gram np_sum np_mean t_cdf X y).
Proof.
  intros Hdone Hdays. cbv zeta.
  destruct (align_Done_rectangular _ _ _ Hdone) as (H1 & H2 & H3 & H4 & H5).
  set (m := matrix data) in *.
  assert (length (zip_with PrimFloat.sub (Regression.portfolio_returns m)
                    (Regression.risk_free_rates m))
          = length (Regression.dates m)) as Hy.
  { rewrite length_zip_with, H1, H5. lia. }
  split; [done|].
  split; [by apply rows_of_columns_length|].
  unfold Regression.run_factor_regression, Regression.MIN_OBSERVATIONS. simpl.
  fold m. rewrite (proj2 (Z.ltb_ge _ _)) by lia.
  unfold Regression.np_subtract. rewrite decide_True by lia. simpl.
  unfold Regression.column_stack. rewrite decide_True by (rewrite Hy; done).
  done.
Qed.
End AlignedRegression.
End FactorsFacts.

(** ** Within-request memoization *)

Section MemoizationFacts.
Import Memoization.
Context {T W E : Type}.
Implicit Types (var : option (gmap string T)) (func : W → (E + T) * W).

(** X8. Once a call under a key has returned a value, every later call under
    that key, with any function and in any state of the world, returns that
    value, runs nothing (the world is unchanged) and leaves the cache as it
    is; the entries of other keys are those of before the first call. *)
Theorem memoized_result_is_replayed key func var w v var' w' :
  memoize_request_sync key func var w = (inr v, var', w') →
  (∀ func2 w2, memoize_request_sync key func2 var' w2 = (inr v, var', w2))
  ∧ ∃ cache', var' = Some cache'
      ∧ cache' !! key = Some v
      ∧ ∀ key2, key2 ≠ key → cache' !! key2 = (get_request_cache var).1 !! key2.
Proof.
  unfold memoize_request_sync.
  destruct ((get_request_cache var).1 !! key) as [cached|] eqn:Hkey.
  - intros [= <- <- <-]. destruct var as [cache|]; simpl in *; [|by rewrite lookup_empty in Hkey].
    split; [intros func2 w2; by rewrite Hkey|]. by exists cache.
  - destruct (func w) as [[e|result] w1]; [done|]. intros [= <- <- <-].
    split.
    + intros func2 w2. simpl. by rewrite lookup_insert_eq.
    + eexists. split; [done|]. split; [apply lookup_insert_eq|].
      intros key2 Hne. by rewrite lookup_insert_ne.
Qed.

(** X9. A call that raises caches nothing, and clearing the cache forgets
    everything: after either, the next call under the key runs its function
    again and returns what that function returns. *)
Theorem memo_miss_runs_function key func var w :
  (∀ e var' w' func2 w2,
     memoize_request_sync key func var w = (inl e, var', w') →
     (memoize_request_sync key func2 var' w2).1.1 = (func2 w2).1
     ∧ (memoize_request_sync key func2 var' w2).2 = (func2 w2).2)
  ∧ (memoize_request_sync key func (clear_request_cache var) w).1.1 = (func w).1
  ∧ (memoize_request_sync key func (clear_request_cache var) w).2 = (func w).2.
Proof.
  split.
  - intros e var' w' func2 w2. unfold memoize_request_sync.
    destruct ((get_request_cache var).1 !! key) as [cached|] eqn:Hmiss; [done|].
    destruct (func w) as [[e'|result] w1]; [|done]. intros [= <- <- <-].
    destruct var as [cache|]; simpl in *; rewrite Hmiss;
      by destruct (func2 w2) as [[?|?] ?].
  - unfold memoize_request_sync, clear_request_cache. simpl. rewrite lookup_empty.
    by destruct (func w) as [[?|?] ?].
Qed.
End MemoizationFacts.

(** ** The replay store *)

Section StoreContractFacts.
Import Storage StoreContract.
Variable sha256_hexdigest : string → string.

Lemma app_same_length (a b s t : string) :
  String.length a = String.length b → a +:+ s = b +:+ t → a = b ∧ s = t.
Proof.
  revert b. induction a as [|c a IH]; intros [|c' b]; simpl; try discriminate.
  - done.
  - intros [= Hlen] [= -> Heq]. destruct (IH b Hlen Heq) as [-> ->]. done.
Qed.

Lemma string_length_app (a s : string) :
  String.length (a +:+ s) = (String.length a + String.length s)%nat.
Proof. induction a as [|c a IH]; simpl; [done|]. by rewrite IH. Qed.

Lemma app_suffix_length (a b s t : string) :
  String.length s = String.length t → a +:+ s = b +:+ t →
  String.length a = String.length b.
Proof.
  intros Hst Heq. apply (f_equal String.length) in Heq.
  rewrite !string_length_app in Heq. lia.
Qed.

Lemma tmp_is_not_dat (a b : string) : a +:+ ".tmp" ≠ b +:+ ".dat".
Proof.
  intros Heq. pose proof (app_suffix_length a b ".tmp" ".dat" eq_refl Heq) as Hlen.
  by destruct (app_same_length _ _ _ _ Hlen Heq) as [_ ?].
Qed.

Lemma dat_injective (a b : string) : a +:+ ".dat" = b +:+ ".dat" → a = b.
Proof.
  intros Heq. pose proof (app_suffix_length a b ".dat" ".dat" eq_refl Heq) as Hlen.
  by destruct (app_same_length _ _ _ _ Hlen Heq) as [? _].
Qed.

(** What a [write] does to the file of any key: nothing, unless it succeeds
    and the two keys have one digest. *)
Lemma write_lookup_unchanged fs fault key data key' :
  (∃ e, (write sha256_hexdigest fs fault key data).1 = Err e)
  ∨ sha256_hexdigest key' ≠ sha256_hexdigest key →
  (write sha256_hexdigest fs fault key data).2 !! _key_to_path sha256_hexdigest key'
  = fs !! _key_to_path sha256_hexdigest key'.
Proof.
  unfold write, _key_to_path, temp_path_of.
  assert (sha256_hexdigest key +:+ ".tmp" ≠ sha256_hexdigest key' +:+ ".dat")
    as Htmp by apply tmp_is_not_dat.
  destruct data as [|b data]; [done|].
  intros Hcase.
  assert (fault = NoFault ∨ (∃ d, fault = ReadFails d) →
          sha256_hexdigest key +:+ ".dat" ≠ sha256_hexdigest key' +:+ ".dat") as Hdat.
  { intros Hfault Heq%dat_injective. destruct Hcase as [[e He]|Hne]; [|by apply Hne].
    destruct Hfault as [->|[d ->]]; simpl in He; done. }
  unfold files in *. destruct fault; simpl.
  - rewrite lookup_insert_ne, lookup_delete_ne, lookup_insert_ne; auto.
  - done.
  - by rewrite lookup_insert_ne.
  - by rewrite lookup_insert_ne.
  - rewrite lookup_insert_ne, lookup_delete_ne, lookup_insert_ne; eauto.
Qed.

Lemma write_lookup_written fs fault key data key' :
  (write sha256_hexdigest fs fault key data).1 = Ok () →
  sha256_hexdigest key' = sha256_hexdigest key →
  data ≠ []
  ∧ (write sha256_hexdigest fs fault key data).2 !! _key_to_path sha256_hexdigest key'
    = Some data.
Proof.
  unfold write, _key_to_path. intros Hok ->.
  destruct data as [|b data]; [done|]. split; [done|].
  destruct fault; simpl in *; try done; apply lookup_insert_eq.
Qed.

Lemma same_file_same_view fs fs' key :
  fs' !! _key_to_path sha256_hexdigest key = fs !! _key_to_path sha256_hexdigest key →
  same_view sha256_hexdigest fs fs' key.
Proof.
  intros Heq. unfold same_view, exists_, read. rewrite Heq. by split.
Qed.

(** X10. A [write] that fails, for empty data or for any fault of the file
    system, is invisible: every key exists or not, and reads, exactly as
    before. *)
Theorem failed_write_is_invisible fs fault key data e fs' :
  write sha256_hexdigest fs fault key data = (Err e, fs') →
  ∀ key', same_view sha256_hexdigest fs fs' key'.
Proof.
  intros Hwrite key'. apply same_file_same_view.
  pose proof (write_lookup_unchanged fs fault key data key') as Hlookup.
  rewrite Hwrite in Hlookup. apply Hlookup. left. by exists e.
Qed.

(** X11. A [write] under one key, whatever its outcome, leaves every key of
    another digest as it was. *)
Theorem write_leaves_other_keys fs fault key data key' :
  sha256_hexdigest key' ≠ sha256_hexdigest key →
  same_view sha256_hexdigest fs (write sha256_hexdigest fs fault key data).2 key'.
Proof.
  intros Hne. apply same_file_same_view, write_lookup_unchanged. by right.
Qed.

Lemma built_files_not_empty fs key :
  built_by_writes sha256_hexdigest fs →
  fs !! _key_to_path sha256_hexdigest key ≠ Some [].
Proof.
  induction 1 as [|fs fault key0 data _ IH]; [unfold files; by rewrite lookup_empty|].
  destruct (write sha256_hexdigest fs fault key0 data).1 as [[]|e] eqn:Hout.
  - destruct (decide (sha256_hexdigest key = sha256_hexdigest key0)) as [Heq|Hne].
    + destruct (write_lookup_written fs fault key0 data key Hout Heq) as [Hdata ->].
      by intros [= ->].
    + rewrite write_lookup_unchanged; [done|by right].
  - rewrite write_lookup_unchanged; [done|]. left. by exists e.
Qed.

(** X12. In a store that only [write] has filled, whatever faults the writes
    met, a key that exists reads back as non-empty bytes and a key that does
    not exist reads as [NotFoundError]: no read finds an empty file. *)
Theorem built_store_reads_cleanly fs key :
  built_by_writes sha256_hexdigest fs →
  (exists_ sha256_hexdigest fs key = true
   ∧ ∃ data, data ≠ [] ∧ read sha256_hexdigest fs NoFault key = Ok data)
  ∨ (exists_ sha256_hexdigest fs key = false
     ∧ ∃ e, read sha256_hexdigest fs NoFault key = Err e
            ∧ exn_class e = "NotFoundError").
Proof.
  intros Hbuilt. pose proof (built_files_not_empty fs key Hbuilt) as Hne.
  unfold exists_, read.
  destruct (fs !! _key_to_path sha256_hexdigest key) as [data|] eqn:Hfile.
  - left. split; [by apply bool_decide_eq_true|].
    exists data. destruct data; [done|]. by split.
  - right. split; [apply bool_decide_eq_false; by intros [? ?]|].
    eexists. by split.
Qed.
End StoreContractFacts.

Section StorageKeyFacts.
Import Storage.

Lemma kwarg_le_transitive : Transitive kwarg_le.
Proof. intros p q r. unfold kwarg_le. apply transitivity. Qed.

Lemma kwarg_le_total : Total kwarg_le.
Proof. intros p q. unfold kwarg_le. apply total, _. Qed.

Lemma distinct_names_determine (l : list (string * string)) p q :
  NoDup l.*1 → p ∈ l → q ∈ l → p.1 = q.1 → p = q.
Proof.
  induction l as [|x l IH]; intros Hnd Hp Hq Hkey; [by apply elem_of_nil in Hp|].
  rewrite fmap_cons in Hnd. apply NoDup_cons in Hnd as [Hx Hnd].
  apply elem_of_cons in Hp as [->|Hp]; apply elem_of_cons in Hq as [->|Hq].
  - done.
  - exfalso. apply Hx. rewrite Hkey. by apply list_elem_of_fmap_2.
  - exfalso. apply Hx. rewrite <- Hkey. by apply list_elem_of_fmap_2.
  - by apply IH.
Qed.

(** X13. The storage key does not depend on the order in which the named
    components are given: two lists of components with distinct names that
    are permutations of each other give the same key. *)
Theorem storage_key_ignores_order prefix (kwargs1 kwargs2 : list (string * string)) :
  NoDup kwargs1.*1 → kwargs1 ≡ₚ kwargs2 →
  make_storage_key prefix kwargs1 = make_storage_key prefix kwargs2.
Proof.
  intros Hnd Hperm. unfold make_storage_key.
  assert (merge_sort kwarg_le kwargs1 = merge_sort kwarg_le kwargs2) as ->; [|done].
  apply (@Sorted_unique_strong _ kwarg_le kwarg_le_transitive).
  - intros p q Hp Hq Hpq Hqp.
    rewrite merge_sort_Permutation in Hp. rewrite merge_sort_Permutation, <- Hperm in Hq.
    apply (distinct_names_determine kwargs1); try done.
    unfold kwarg_le in *. by apply (anti_symm String.le).
  - apply (@Sorted_merge_sort _ kwarg_le _ kwarg_le_total).
  - apply (@Sorted_merge_sort _ kwarg_le _ kwarg_le_total).
  - by rewrite !merge_sort_Permutation.
Qed.
End StorageKeyFacts.

(** ** Acquisition of prices: replay, corruption and failed writes *)

Section ReplayFacts.
Import Storage StoreContract Yahoo.
Variable sha256_hexdigest : string → string.
Variable isoformat : Z → string.
Variable serialize : list PriceBar → PriceSeriesMetadata → list Byte.byte.
Variable deserialize : list Byte.byte → parsed.

(** X14. A first call that finds nothing stored under its key, gets a
    non-empty answer from the upstream and stores it, returns the fetched
    series; provided the stored bytes read back as that series, every later
    call for the same request returns the same series and leaves the store
    unchanged, whatever the upstream then answers. *)
Theorem fetched_series_is_replayed fs env ticker start end_ bar bars :
  let key := storage_key isoformat ticker start end_ in
  let series :=
    {| Yahoo.bars := bar :: bars;
       Yahoo.metadata := {| source := "yahoo"; Yahoo.ticker := upper ticker;
                            currency := "USD"; is_adjusted := true;
                            frequency := "daily" |} |} in
  let stored_data := serialize (Yahoo.bars series) (Yahoo.metadata series) in
  exists_ sha256_hexdigest fs key = false →
  exists_ sha256_hexdigest (concurrent_writes env fs) key = false →
  upstream env = Ok (bar :: bars) →
  write_fault env = NoFault →
  stored_data ≠ [] →
  deserialize stored_data = Parsed (bar :: bars) (Yahoo.metadata series) →
  ∃ fs1,
    get_price_series sha256_hexdigest isoformat serialize deserialize
      (Some fs) env ticker start end_ = (Ok series, Some fs1)
    ∧ ∀ env2, read_fault env2 = NoFault →
        get_price_series sha256_hexdigest isoformat serialize deserialize
          (Some fs1) env2 ticker start end_ = (Ok series, Some fs1).
Proof.
  intros key series stored_data Hnew Hstill Hup Hfault Hne Hround.
  unfold get_price_series. fold key. rewrite Hnew.
  unfold fetch_fresh. rewrite Hup. fold series. simpl. fold stored_data.
  unfold store_if_absent. rewrite Hstill, Hfault.
  set (fs1 := (write sha256_hexdigest (concurrent_writes env fs) NoFault key stored_data).2).
  exists fs1. split; [done|]. intros env2 Hread.
  assert (fs1 !! _key_to_path sha256_hexdigest key = Some stored_data) as Hfile.
  { apply write_lookup_written; [|done]. unfold write. by destruct stored_data. }
  rewrite (exists_stored _ _ _ _ Hfile). unfold load_replay. fold key.
  rewrite (read_stored _ _ _ _ Hfile Hne) by (rewrite Hread; done).
  by rewrite Hround.
Qed.

(** X15. When the key of a request is already stored, the call never turns
    to the upstream: its result does not depend on what the upstream would
    answer, and the store is left as it is. In particular bytes that do not
    decode, or decode to another structure, are reported as a
    [BadRequestError], not refetched over. *)
Theorem stored_key_is_never_refetched fs env ticker start end_ data :
  let key := storage_key isoformat ticker start end_ in
  let run env :=
    get_price_series sha256_hexdigest isoformat serialize deserialize
      (Some fs) env ticker start end_ in
  fs !! _key_to_path sha256_hexdigest key = Some data →
  (run env).2 = Some fs
  ∧ (∀ env2, read_fault env2 = read_fault env → run env2 = run env)
  ∧ (read_fault env = NoFault →
     data = [] ∨ deserialize data = BadStructure
     ∨ (∃ detail, deserialize data = DecodeFailure detail) →
     ∃ e, (run env).1 = Err e ∧ exn_class e = "BadRequestError").
Proof.
  intros key run Hfile. unfold run, get_price_series. fold key.
  rewrite (exists_stored _ _ _ _ Hfile). split; [done|]. split.
  - intros env2 Hsame. unfold load_replay. by rewrite Hsame.
  - intros Hread Hbad. simpl. unfold load_replay, read. fold key.
    rewrite Hfile, Hread. destruct data as [|b data]; [eauto|].
    destruct Hbad as [?|[->|[detail ->]]]; [done|eauto..].
Qed.

(** X16. A store that cannot be written to does not fail the request: when
    the fetch succeeds and the write then fails, the fetched series is still
    returned, and no [exists] or [read] of any key can tell the store from
    what it was; the key stays absent. *)
Theorem failed_store_write_is_tolerated fs env ticker start end_ bar bars :
  let key := storage_key isoformat ticker start end_ in
  let series :=
    {| Yahoo.bars := bar :: bars;
       Yahoo.metadata := {| source := "yahoo"; Yahoo.ticker := upper ticker;
                            currency := "USD"; is_adjusted := true;
                            frequency := "daily" |} |} in
  exists_ sha256_hexdigest fs key = false →
  exists_ sha256_hexdigest (concurrent_writes env fs) key = false →
  upstream env = Ok (bar :: bars) →
  (∃ detail, write_fault env = OpenFails detail)
  ∨ (∃ n detail, write_fault env = WriteFails n detail)
  ∨ (∃ detail, write_fault env = ReplaceFails detail) →
  ∃ fs1,
    get_price_series sha256_hexdigest isoformat serialize deserialize
      (Some fs) env ticker start end_ = (Ok series, Some fs1)
    ∧ exists_ sha256_hexdigest fs1 key = false
    ∧ ∀ key', same_view sha256_hexdigest (concurrent_writes env fs) fs1 key'.
Proof.
  intros key series Hnew Hstill Hup Hfault.
  unfold get_price_series. fold key. rewrite Hnew.
  unfold fetch_fresh. rewrite Hup. fold series. simpl.
  unfold store_if_absent. rewrite Hstill.
  set (stored_data := serialize (bar :: bars) (Yahoo.metadata series)).
  eexists. split; [done|].
  assert (∃ e, (write sha256_hexdigest (concurrent_writes env fs) (write_fault env)
                  key stored_data).1 = Err e) as Hfailed.
  { unfold write. destruct stored_data; [eauto|].
    destruct Hfault as [[d ->]|[(n & d & ->)|[d ->]]]; eauto. }
  assert (∀ key', same_view sha256_hexdigest (concurrent_writes env fs)
                    (write sha256_hexdigest (concurrent_writes env fs) (write_fault env)
                       key stored_data).2 key') as Hview.
  { intros key'. apply same_file_same_view, write_lookup_unchanged. by left. }
  split; [|done]. destruct (Hview key) as [Hsame _]. exact (eq_trans Hsame Hstill).
Qed.
End ReplayFacts.

(** ** Aggregation: its failures and what it reads of the portfolio *)

Section AggregationOutcome.
Import PortfolioAgg.

Lemma accumulate_day_total aligned_returns weight_map i tickers acc :
  (∀ t, t ∈ tickers →
     is_Some (weight_map !! t)
     ∧ ∃ asset_returns, aligned_returns !! t = Some asset_returns
                        ∧ (i < length asset_returns)%nat) →
  ∃ ret, accumulate_day aligned_returns weight_map i tickers acc = Return ret.
Proof.
  revert acc. induction tickers as [|t tickers IH]; intros acc Hall; simpl; [eauto|].
  destruct (Hall t) as ([w Hw] & rs & Hrs & Hi); [left|].
  rewrite Hrs, Hw. destruct (lookup_lt_is_Some_2 rs i Hi) as [r ->].
  apply IH. intros t' ?. apply Hall. by right.
Qed.

Lemma accumulate_days_total aligned_returns weight_map tickers days :
  (∀ i t, i ∈ days → t ∈ tickers →
     is_Some (weight_map !! t)
     ∧ ∃ asset_returns, aligned_returns !! t = Some asset_returns
                        ∧ (i < length asset_returns)%nat) →
  ∃ rets, accumulate_days aligned_returns weight_map tickers days = Return rets
          ∧ length rets = length days.
Proof.
  induction days as [|i days IH]; intros Hall; simpl; [by exists []|].
  destruct (accumulate_day_total aligned_returns weight_map i tickers 0%float)
    as [ret ->].
  { intros t ?. apply Hall; [left|done]. }
  destruct IH as (rets & -> & Hlen).
  { intros i' t ? ?. apply Hall; [by right|done]. }
  simpl. eexists. split; [done|]. simpl. by rewrite Hlen.
Qed.

Lemma accumulate_day_ext aligned_returns wm1 wm2 i tickers acc :
  (∀ t, t ∈ tickers → wm1 !! t = wm2 !! t) →
  accumulate_day aligned_returns wm1 i tickers acc
  = accumulate_day aligned_returns wm2 i tickers acc.
Proof.
  revert acc. induction tickers as [|t tickers IH]; intros acc Hagree; simpl; [done|].
  rewrite (Hagree t) by left.
  destruct (aligned_returns !! t) as [rs|]; [|done].
  destruct (wm2 !! t); [|done]. destruct (rs !! i); [|done].
  apply IH. intros t' ?. apply Hagree. by right.
Qed.

Lemma accumulate_days_ext aligned_returns wm1 wm2 tickers days :
  (∀ t, t ∈ tickers → wm1 !! t = wm2 !! t) →
  accumulate_days aligned_returns wm1 tickers days
  = accumulate_days aligned_returns wm2 tickers days.
Proof.
  intros Hagree. induction days as [|i days IH]; simpl; [done|].
  by rewrite (accumulate_day_ext _ wm1 wm2), IH.
Qed.

Lemma missing_weights_ext (wm1 wm2 : gmap string float) (tickers : list string) :
  (∀ t, t ∈ tickers → wm1 !! t = wm2 !! t) →
  filter (fun ticker => wm1 !! ticker = None) tickers
  = filter (fun ticker => wm2 !! ticker = None) tickers.
Proof.
  induction tickers as [|t tickers IH]; intros Hagree; [done|].
  rewrite !filter_cons, (Hagree t) by left.
  rewrite IH by (intros t' ?; apply Hagree; by right). done.
Qed.

(** X17. [aggregate_portfolio_returns] fails in three ways only, each a
    [ValueError] of its own guard, tried in this order: the mapping is empty;
    some series has not the length of the date list; some ticker has no
    weight (every ticker reported is one). Otherwise it returns the dates
    and the benchmark it was given and one return per date: no [KeyError]
    or [IndexError] of the loops can reach the caller. *)
Theorem aggregation_fails_only_at_its_guards
    aligned_returns dates portfolio benchmark_returns :
  let outcome :=
    aggregate_portfolio_returns aligned_returns dates portfolio benchmark_returns in
  (aligned_returns = ∅ ∧ outcome = Raise (ValueError AlignedReturnsEmpty))
  ∨ (aligned_returns ≠ ∅
     ∧ (∃ t asset_returns, aligned_returns !! t = Some asset_returns
                           ∧ length asset_returns ≠ length dates)
     ∧ outcome = Raise (ValueError ReturnLengthMismatch))
  ∨ (aligned_returns ≠ ∅
     ∧ (∀ t asset_returns, aligned_returns !! t = Some asset_returns →
                           length asset_returns = length dates)
     ∧ ∃ missing, missing ≠ []
         ∧ (∀ t, t ∈ missing → t ∈ dom aligned_returns ∧ weight_of portfolio t = None)
         ∧ outcome = Raise (ValueError (MissingWeights missing)))
  ∨ (∃ rets,
       outcome = Return {| dates := dates; returns := rets;
                           benchmark_returns := benchmark_returns |}
       ∧ length rets = length dates).
Proof.
  intros outcome. unfold outcome, aggregate_portfolio_returns.
  destruct (sorted_keys_spec aligned_returns) as (_ & _ & Hmem).
  case_decide as Hempty; [by left|]. right.
  case_bool_decide as Hlen; simpl.
  2:{ left. split; [done|]. split; [|done].
      apply map_not_Forall in Hlen; [|apply _].
      destruct Hlen as (t & rs & ? & ?). eauto. }
  right.
  destruct (filter _ (sorted_keys aligned_returns)) as [|t0 missing] eqn:Hf.
  - right.
    destruct (accumulate_days_total aligned_returns (build_weight_map portfolio)
                (sorted_keys aligned_returns) (seq 0 (length dates)))
      as (rets & -> & Hrets).
    { intros i t Hi Ht. apply elem_of_seq in Hi. split.
      - destruct (build_weight_map portfolio !! t) eqn:Hw; [eauto|].
        assert (t ∈ filter (fun ticker => build_weight_map portfolio !! ticker = None)
                      (sorted_keys aligned_returns)) as Hin
          by (by apply list_elem_of_filter).
        rewrite Hf in Hin. by apply elem_of_nil in Hin.
      - apply Hmem, elem_of_dom in Ht as [rs Hrs]. exists rs. split; [done|].
        rewrite (Hlen t rs Hrs). lia. }
    simpl. exists rets. split; [done|]. by rewrite Hrets, length_seq.
  - left. split; [done|]. split; [exact Hlen|].
    exists (t0 :: missing). split; [done|]. split; [|done].
    intros t Ht. rewrite <- Hf in Ht. apply list_elem_of_filter in Ht as [Hnone Ht].
    rewrite build_weight_map_lookup in Hnone. split; [by apply Hmem|done].
Qed.

(** X18. Of the portfolio, the aggregation reads the weights of the tickers
    of the mapping and nothing else: two portfolios that give those tickers
    the same weights get the same outcome, whatever else they hold and
    whatever their currency, benchmark and dates. *)
Theorem aggregation_reads_only_the_weights
    aligned_returns dates portfolio1 portfolio2 benchmark_returns :
  (∀ t, t ∈ dom aligned_returns →
        weight_of portfolio1 t = weight_of portfolio2 t) →
  aggregate_portfolio_returns aligned_returns dates portfolio1 benchmark_returns
  = aggregate_portfolio_returns aligned_returns dates portfolio2 benchmark_returns.
Proof.
  intros Hagree. unfold aggregate_portfolio_returns.
  destruct (sorted_keys_spec aligned_returns) as (_ & _ & Hmem).
  assert (∀ t, t ∈ sorted_keys aligned_returns →
               build_weight_map portfolio1 !! t = build_weight_map portfolio2 !! t)
    as Hmaps.
  { intros t Ht. rewrite !build_weight_map_lookup. by apply Hagree, Hmem. }
  case_decide; [done|]. destruct (negb _); [done|].
  rewrite (missing_weights_ext _ _ _ Hmaps).
  by rewrite (accumulate_days_ext _ _ _ _ _ Hmaps).
Qed.
End AggregationOutcome.

(** ** Alignment: the order of the series *)

Section AlignmentOrder.
Import Returns.

Lemma build_date_sets_lookup l rs :
  NoDup (ticker <$> l) → rs ∈ l →
  build_date_sets l !! ticker rs = Some (dates_of rs).
Proof. intros. by apply (foldl_insert_lookup_NoDup ticker dates_of). Qed.

Lemma build_date_sets_Permutation l1 l2 :
  NoDup (ticker <$> l1) → l1 ≡ₚ l2 → build_date_sets l1 = build_date_sets l2.
Proof.
  intros Hnd Hperm.
  assert (NoDup (ticker <$> l2)) as Hnd2 by (by rewrite <- Hperm).
  apply map_eq. intros t.
  destruct (decide (t ∈ ticker <$> l1)) as [Hin|Hout].
  - apply list_elem_of_fmap in Hin as (rs & -> & Hrs).
    rewrite build_date_sets_lookup by done.
    rewrite build_date_sets_lookup; [done..|by rewrite <- Hperm].
  - unfold build_date_sets. rewrite !foldl_insert_lookup_notin; [done|..|done].
    by rewrite <- Hperm.
Qed.

Lemma Forall2_lookup_functional (m : gmap Z float) ds row1 row2 :
  Forall2 (fun d r => m !! d = Some r) ds row1 →
  Forall2 (fun d r => m !! d = Some r) ds row2 → row1 = row2.
Proof.
  intros H1. revert row2. induction H1 as [|d r ds row1 Hr _ IH]; intros row2 H2.
  - by apply Forall2_nil_inv_l in H2.
  - apply Forall2_cons_inv_l in H2 as (r' & row2' & Hr' & H2 & ->).
    f_equal; [congruence|by apply IH].
Qed.

(** X19. The outcome of [align_return_series] does not depend on the order
    in which the series are passed: for series of pairwise distinct tickers,
    any reordering of the list gives the same aligned mapping and the same
    dates, or the same failure. *)
Theorem alignment_ignores_order (l1 l2 : list ReturnSeries)
    (original_start original_end : Z) :
  NoDup (ticker <$> l1) → l1 ≡ₚ l2 →
  align_return_series l1 original_start original_end
  = align_return_series l2 original_start original_end.
Proof.
  intros Hnd Hperm.
  assert (NoDup (ticker <$> l2)) as Hnd2 by (by rewrite <- Hperm).
  unfold align_return_series.
  destruct l1 as [|rs1 l1'] eqn:E1.
  { apply Permutation_nil_l in Hperm. by subst. }
  destruct l2 as [|rs2 l2'] eqn:E2.
  { by apply Permutation_nil_r in Hperm. }
  rewrite <- E1, <- E2 in *.
  rewrite <- (build_date_sets_Permutation l1 l2 Hnd Hperm).
  destruct (set_intersection_spec ((map_to_list (build_date_sets l1)).*2))
    as (common & -> & Hcommon).
  { intros Hnil. assert (dates_of rs1 ∈ (map_to_list (build_date_sets l1)).*2) as Hin.
    { apply date_sets_values; [done|]. exists rs1. split; [|done]. rewrite E1. left. }
    rewrite Hnil in Hin. by apply elem_of_nil in Hin. }
  simpl. case_decide; [done|].
  destruct (sorted_dates_spec common) as [_ Hmem].
  assert (∀ l, NoDup (ticker <$> l) → (∀ rs, rs ∈ l → rs ∈ l1) →
            ∀ rs d, rs ∈ l → d ∈ sorted_dates common → is_Some (return_map rs !! d))
    as Hdefined.
  { intros l _ Hsub rs d Hrs Hd. rewrite return_map_lookup.
    apply return_on_is_Some. apply Hmem in Hd. apply (Hcommon d); [done|].
    apply date_sets_values; [done|]. exists rs. split; [by apply Hsub|done]. }
  destruct (build_aligned_spec l1 (sorted_dates common) ∅ Hnd)
    as (aligned1 & -> & Hin1 & Hout1); [by apply (Hdefined l1)|].
  destruct (build_aligned_spec l2 (sorted_dates common) ∅ Hnd2)
    as (aligned2 & -> & Hin2 & Hout2).
  { apply (Hdefined l2); [done|]. intros rs ?. by rewrite Hperm. }
  simpl. do 2 f_equal. apply map_eq. intros t.
  destruct (decide (t ∈ ticker <$> l1)) as [Hin|Hout].
  - apply list_elem_of_fmap in Hin as (rs & -> & Hrs).
    destruct (Hin1 rs Hrs) as (row1 & -> & Hrow1).
    destruct (Hin2 rs) as (row2 & -> & Hrow2); [by rewrite <- Hperm|].
    f_equal. by eapply Forall2_lookup_functional.
  - rewrite Hout1 by done. rewrite Hout2; [done|]. by rewrite <- Hperm.
Qed.
End AlignmentOrder.

(** ** From aligned series to portfolio returns *)

Section AlignThenAggregate.

(** X20. What [align_return_series] returns always passes the guards of
    [aggregate_portfolio_returns]: for series of pairwise distinct tickers
    with a date in common, and a portfolio that gives each of their tickers
    a weight, aligning and then aggregating returns a portfolio series over
    exactly the common dates, with one return per date. *)
Theorem aligned_series_aggregate (l : list Returns.ReturnSeries)
    (original_start original_end : Z) (portfolio : PortfolioAgg.Portfolio)
    (benchmark_returns : option (list float)) :
  NoDup (Returns.ticker <$> l) →
  (∃ d, Returns.common_date l d) → l ≠ [] →
  (∀ rs, rs ∈ l → is_Some (PortfolioAgg.weight_of portfolio (Returns.ticker rs))) →
  ∃ aligned ds rets,
    Returns.align_return_series l original_start original_end = Return (aligned, ds)
    ∧ PortfolioAgg.aggregate_portfolio_returns aligned ds portfolio benchmark_returns
      = Return {| PortfolioAgg.dates := ds; PortfolioAgg.returns := rets;
                  PortfolioAgg.benchmark_returns := benchmark_returns |}
    ∧ length rets = length ds
    ∧ ds ≠ []
    ∧ ∀ d, d ∈ ds ↔ Returns.common_date l d.
Proof.
  intros Hnd [d0 Hd0] Hne Hweights.
  unfold Returns.align_return_series.
  destruct l as [|rs1 l'] eqn:E1; [done|]. rewrite <- E1 in *.
  assert (rs1 ∈ l) as Hrs1 by (rewrite E1; left).
  destruct (set_intersection_spec ((map_to_list (Returns.build_date_sets l)).*2))
    as (common & -> & Hcommon).
  { intros Hnil.
    assert (Returns.dates_of rs1 ∈ (map_to_list (Returns.build_date_sets l)).*2) as Hin
      by (apply date_sets_values; eauto).
    rewrite Hnil in Hin. by apply elem_of_nil in Hin. }
  assert (∀ d, d ∈ common ↔ Returns.common_date l d) as Hdates.
  { intros d. rewrite Hcommon. split.
    - intros Hall rs Hrs. apply Hall. apply date_sets_values; eauto.
    - intros Hall s Hs. apply date_sets_values in Hs as (rs & Hrs & ->); [|done].
      by apply Hall. }
  simpl. destruct (decide (common = ∅)) as [Hc|Hc].
  { exfalso. subst common. apply Hdates in Hd0. by apply not_elem_of_empty in Hd0. }
  destruct (sorted_dates_spec common) as [_ Hmem].
  destruct (build_aligned_spec l (Returns.sorted_dates common) ∅ Hnd)
    as (aligned & -> & Hin & Hout).
  { intros rs d Hrs Hd. rewrite return_map_lookup. apply return_on_is_Some.
    by apply Hmem, Hdates in Hd; apply Hd. }
  simpl. set (ds := Returns.sorted_dates common).
  assert (∀ t row, aligned !! t = Some row →
            length row = length ds ∧ is_Some (PortfolioAgg.weight_of portfolio t))
    as Hrows.
  { intros t row Hrow.
    destruct (decide (t ∈ Returns.ticker <$> l)) as [Ht|Ht].
    - apply list_elem_of_fmap in Ht as (rs & -> & Hrs).
      destruct (Hin rs Hrs) as (row' & Hrow' & Hall).
      assert (row' = row) as -> by congruence.
      split; [symmetry; by eapply Forall2_length|by apply Hweights].
    - rewrite Hout, lookup_empty in Hrow by done. done. }
  destruct (sorted_keys_spec aligned) as (_ & _ & Hkeys).
  exists aligned, ds.
  unfold PortfolioAgg.aggregate_portfolio_returns.
  destruct (decide (aligned = ∅)) as [Hc'|Hc'].
  { exfalso. subst aligned. destruct (Hin rs1 Hrs1) as (row & Hrow & _).
    by rewrite lookup_empty in Hrow. }
  rewrite bool_decide_true by (intros t row Hrow; by destruct (Hrows t row Hrow)). simpl.
  destruct (filter _ (PortfolioAgg.sorted_keys aligned)) as [|t0 missing] eqn:Hf.
  2:{ exfalso.
      assert (t0 ∈ filter (fun ticker => PortfolioAgg.build_weight_map portfolio !! ticker = None)
                     (PortfolioAgg.sorted_keys aligned)) as Ht0
        by (rewrite Hf; left).
      apply list_elem_of_filter in Ht0 as [Hnone Ht0].
      apply Hkeys, elem_of_dom in Ht0 as [row Hrow].
      rewrite build_weight_map_lookup in Hnone.
      destruct (Hrows t0 row Hrow) as [_ [w Hw]]. congruence. }
  destruct (accumulate_days_total aligned (PortfolioAgg.build_weight_map portfolio)
              (PortfolioAgg.sorted_keys aligned) (seq 0 (length ds)))
    as (rets & -> & Hrets).
  { intros i t Hi Ht. apply elem_of_seq in Hi.
    apply Hkeys, elem_of_dom in Ht as [row Hrow].
    destruct (Hrows t row Hrow) as [Hlen Hw]. split.
    - by rewrite build_weight_map_lookup.
    - exists row. split; [done|]. lia. }
  simpl. exists rets. split; [done|]. split; [done|].
  split; [by rewrite Hrets, length_seq|]. split.
  - intros Hnil. apply Hdates, Hmem in Hd0. fold ds in Hd0. rewrite Hnil in Hd0.
    by apply elem_of_nil in Hd0.
  - intros d. unfold ds. by rewrite Hmem.
Qed.
End AlignThenAggregate.

(** ** Simulation: what the bootstrap draws and what the model accepts *)

Section BootstrapFacts.
Import MonteCarlo.
Variable Generator : Type.
Variable seed_generator : Z → result Generator.
Variable choice : Generator → list float → Z → result (list float * Generator).
Variable np_mean np_std_ddof1 : list float → float.

Lemma sample_paths_Forall (draw : Generator → result (list float * Generator))
    (P : list float → Prop) n rng paths :
  (∀ g xs g', draw g = Return (xs, g') → P xs) →
  sample_paths Generator draw n rng = Return paths → Forall P paths.
Proof.
  intros Hdraw. revert rng paths. induction n as [|n IH]; intros rng paths; simpl.
  - by intros [= <-].
  - destruct (draw rng) as [[xs g']|e] eqn:Hd; simpl; [|done].
    destruct (sample_paths _ draw n g') as [rest|e] eqn:Hrest; simpl; [|done].
    intros [= <-]. constructor; [by eapply Hdraw|by eapply IH].
Qed.

(** X21. The bootstrap invents no return: when the generator's [choice]
    draws from the array it is given, every value of every simulated path
    is one of the historical returns, and the metadata of the simulation
    records the method, the two sizes, the seed and the number of
    historical returns of the call. *)
Theorem bootstrap_resamples_history
    os_entropy historical_returns num_simulations horizon_days random_seed sim :
  (∀ g n xs g', choice g historical_returns n = Return (xs, g') →
                Forall (fun x => x ∈ historical_returns) xs) →
  simulate_bootstrap Generator seed_generator choice np_mean np_std_ddof1
    os_entropy historical_returns num_simulations horizon_days random_seed
  = Return sim →
  Forall (Forall (fun x => x ∈ historical_returns)) (simulated_paths sim)
  ∧ simulation_method (metadata sim) = "historical_bootstrap"
  ∧ number_of_simulations (metadata sim) = num_simulations
  ∧ MonteCarlo.horizon_days (metadata sim) = horizon_days
  ∧ MonteCarlo.random_seed (metadata sim) = random_seed
  ∧ historical_returns_count (metadata sim) = Z.of_nat (length historical_returns).
Proof.
  intros Hchoice. unfold simulate_bootstrap.
  destruct historical_returns as [|r0 rest] eqn:Ehist; [done|]. rewrite <- Ehist in *.
  destruct (default_rng _ _ _ _) as [rng|e]; simpl; [|done].
  destruct (sample_paths _ _ _ _) as [paths|e] eqn:Hpaths; simpl; [|done].
  unfold SimulationMetadata_init. destruct (_ && _); simpl; [|done].
  unfold MonteCarloSimulation_init.
  destruct (validate_paths_shape paths) as [v|e] eqn:Hv; [|done].
  apply validate_paths_shape_id in Hv as ->. intros [= <-]. simpl.
  split; [|done].
  eapply sample_paths_Forall; [|exact Hpaths].
  intros g xs g'. apply Hchoice.
Qed.
End BootstrapFacts.

Section PathsShape.
Import MonteCarlo.

Lemma check_path_lengths_Return i paths len :
  check_path_lengths i paths len = Return () →
  Forall (fun path => length path = len) paths.
Proof.
  revert i. induction paths as [|path paths IH]; intros i; simpl; [by constructor|].
  case_decide; [|done]. intros Hrest. constructor; [done|by eapply IH].
Qed.

Lemma check_path_lengths_Raise i paths len e :
  check_path_lengths i paths len = Raise e →
  ∃ k path,
    paths !! k = Some path ∧ length path ≠ len
    ∧ (∀ j p, (j < k)%nat → paths !! j = Some p → length p = len)
    ∧ e = ValueError (PathLengthMismatch (i + k) (length path) len).
Proof.
  revert i. induction paths as [|path paths IH]; intros i; simpl; [done|].
  case_decide as Hlen.
  - intros (k & p & Hk & Hp & Hbefore & ->)%IH. exists (S k), p.
    split; [done|]. split; [done|]. split.
    + intros [|j] q Hj; simpl; [by intros [= <-]|]. apply Hbefore. lia.
    + do 2 f_equal. lia.
  - intros [= <-]. exists 0%nat, path. split; [done|]. split; [done|]. split.
    + intros j p Hj. lia.
    + do 2 f_equal. lia.
Qed.

(** X22. The validator of [simulated_paths] accepts a matrix, unchanged,
    exactly when it is non-empty and all its paths have one length. When it
    refuses a non-empty matrix, the path it reports is the first whose
    length differs from that of path 0, with both lengths. *)
Theorem paths_shape_is_checked (v : list (list float)) :
  (validate_paths_shape v = Return v
   ↔ v ≠ [] ∧ ∃ len, Forall (fun path => length path = len) v)
  ∧ (∀ v', validate_paths_shape v = Return v' → v' = v)
  ∧ (∀ e, validate_paths_shape v = Raise e →
       (v = [] ∧ e = ValueError SimulatedPathsEmpty)
       ∨ ∃ i path first,
           v !! i = Some path ∧ head v = Some first
           ∧ length path ≠ length first
           ∧ (∀ j p, (j < i)%nat → v !! j = Some p → length p = length first)
           ∧ e = ValueError (PathLengthMismatch i (length path) (length first))).
Proof.
  split; [|split].
  - unfold validate_paths_shape. destruct v as [|first rest]; [split; [done|by intros []]|].
    split.
    + destruct (check_path_lengths _ _ _) as [[]|e] eqn:Hcheck; simpl; [|done].
      intros _. split; [done|]. eexists. by eapply check_path_lengths_Return.
    + intros [_ [len Hall]].
      rewrite (check_path_lengths_uniform 0 (first :: rest) (length first)); [done|].
      pose proof Hall as Hall'. apply Forall_cons in Hall' as [-> _]. done.
  - intros v'. apply validate_paths_shape_id.
  - intros e. unfold validate_paths_shape. destruct v as [|first rest]; [intros [= <-]; by left|].
    destruct (check_path_lengths _ _ _) as [[]|e'] eqn:Hcheck; simpl; [done|].
    intros [= <-]. right.
    apply check_path_lengths_Raise in Hcheck as (k & path & Hk & Hne & Hbefore & ->).
    exists k, path, first. done.
Qed.
End PathsShape.

(** ** Regression: what reaches the caller *)

Section RegressionOutcome.
Import Regression.
Variable lstsq : list vec4 → list float → result (vec4 * Z).
Variable matvec : list vec4 → vec4 → list float.
Variable inv_gram : list vec4 → result mat4.
Variable np_sum np_mean : list float → float.
Variable t_cdf : float → Z → float.

Lemma RegressionStatistics_init_bounds st st' :
  RegressionStatistics_init st = Return st' →
  st' = st
  ∧ in_unit_interval (r_squared st) = true
  ∧ in_unit_interval (adjusted_r_squared st) = true
  ∧ in_unit_interval (alpha_p_value st) = true
  ∧ in_unit_interval (market_p_value st) = true
  ∧ in_unit_interval (smb_p_value st) = true
  ∧ in_unit_interval (hml_p_value st) = true.
Proof.
  unfold RegressionStatistics_init. destruct (_ && _) eqn:Hguard; [|done].
  intros [= <-]. split; [done|].
  do 5 (apply andb_prop in Hguard as [Hguard ?]). by repeat split.
Qed.

Lemma regression_handlers_Raise r e :
  regression_handlers r = Raise e → ∃ v, e = ValueError v.
Proof. destruct r as [res|[]]; simpl; intros [= <-]; eauto. Qed.

(** X23. Whatever the solver does, [run_factor_regression] reaches its
    caller in one of two ways. A failure is always a [ValueError]: errors
    of the linear algebra and of the result models do not pass through. A
    result has been validated: R², adjusted R² and the four p-values lie in
    [0, 1], and it counts at least 30 observations, the length of the
    excess-return vector; the data held at least 30 dates. *)
Theorem regression_outcome_is_validated aligned_data :
  match run_factor_regression lstsq matvec inv_gram np_sum np_mean t_cdf aligned_data with
  | Raise e => ∃ v, e = ValueError v
  | Return res =>
      (30 ≤ length (dates (matrix aligned_data)))%nat
      ∧ 30 ≤ num_observations res
      ∧ (∃ y, np_subtract (portfolio_returns (matrix aligned_data))
                          (risk_free_rates (matrix aligned_data)) = Return y
              ∧ num_observations res = Z.of_nat (length y))
      ∧ in_unit_interval (r_squared (statistics res)) = true
      ∧ in_unit_interval (adjusted_r_squared (statistics res)) = true
      ∧ in_unit_interval (alpha_p_value (statistics res)) = true
      ∧ in_unit_interval (market_p_value (statistics res)) = true
      ∧ in_unit_interval (smb_p_value (statistics res)) = true
      ∧ in_unit_interval (hml_p_value (statistics res)) = true
  end.
Proof.
  unfold run_factor_regression, MIN_OBSERVATIONS.
  destruct (_ <? 30) eqn:Hshort; [eauto|]. apply Z.ltb_ge in Hshort.
  destruct (np_subtract _ _) as [y|e] eqn:Hy; simpl.
  2:{ unfold np_subtract in Hy. case_decide; [done|].
      destruct (portfolio_returns _) as [|? [|? ?]], (risk_free_rates _) as [|? [|? ?]];
        simplify_eq; eauto. }
  destruct (column_stack _ _ _ _) as [X|e] eqn:HX; simpl.
  2:{ unfold column_stack in HX. case_decide; simplify_eq. eauto. }
  destruct (regression_handlers _) as [res|e] eqn:Hrun.
  2:{ by eapply regression_handlers_Raise. }
  apply regression_handlers_Return in Hrun. revert Hrun.
  unfold regression_body.
  destruct (lstsq X y) as [fit|e]; simpl; [|done].
  destruct (fit.2 <? 4); [done|].
  destruct (np_subtract y _) as [residuals|e]; simpl; [|done].
  destruct (inv_gram X) as [XtX_inv|e]; simpl; [|done].
  destruct (RegressionStatistics_init _) as [st|e] eqn:Hst; simpl; [|done].
  apply RegressionStatistics_init_bounds in Hst as (-> & Hbounds).
  unfold FactorRegressionResults_init, MIN_OBSERVATIONS.
  destruct (_ <=? _) eqn:Hobs; [|done]. apply Z.leb_le in Hobs.
  intros [= <-]. simpl in *. split; [lia|]. split; [done|]. split; [eauto|].
  exact Hbounds.
Qed.
End RegressionOutcome.

(** * The further properties on sample data *)

(** X3 on the two sample bars of AAPL: one return, dated 2023-01-04. *)
Lemma price_returns_of_consecutive_bars_witness :
  ∃ rs,
    PriceReturns.price_series_to_returns MoreSamples.aapl_series = Done rs
    ∧ Returns.ticker rs = "AAPL"
    ∧ PriceReturns.returns_of_bars Samples.two_bars (Returns.returns rs).
Proof.
  apply (price_returns_of_consecutive_bars MoreSamples.aapl_series).
  - simpl. lia.
  - left. repeat constructor; done.
  - repeat constructor.
Defined.

(** X4 on one bar, on two bars of which the second has no adjusted close,
    and on the two sample bars. *)
Lemma price_returns_refusals_witness :
  PriceReturns.price_series_to_returns MoreSamples.one_bar_series
  = Failed (ValueErrorOf PriceSeriesTooShort)
  ∧ PriceReturns.price_series_to_returns MoreSamples.mixed_series
    = Failed (ValueErrorOf (MixedAdjustedPrices "AAPL"))
  ∧ (2 ≤ length (Yahoo.bars MoreSamples.aapl_series))%nat
  ∧ PriceReturns.uniform_adjustment (Yahoo.bars MoreSamples.aapl_series).
Proof.
  destruct (price_returns_refusals MoreSamples.one_bar_series) as (Hshort & _ & _).
  destruct (price_returns_refusals MoreSamples.mixed_series) as (_ & Hmixed & _).
  destruct (price_returns_refusals MoreSamples.aapl_series) as (_ & _ & Hdone).
  split; [apply Hshort; simpl; lia|]. split.
  - apply Hmixed; [simpl; lia|]. intros [Hall|Hall].
    + apply Forall_cons in Hall as [_ Hall]. apply Forall_cons in Hall as [Hbar _].
      by apply Hbar.
    + apply Forall_cons in Hall as [Hbar _]. discriminate Hbar.
  - destruct (Hdone {| Returns.ticker := "AAPL";
                       Returns.returns :=
                         [ {| Returns.trading_date := Samples.jan_4;
                              Returns.return_ := (126.5 / 125.5 - 1)%float |} ];
                       Returns.uses_adjusted_prices := true |})
      as (Hlen & Huniform & _); [vm_compute; reflexivity|]. by split.
Defined.

(** X5 on a portfolio series of the days 2 to 31 and factor bars of the
    days 0 to 30: every date has a return, and the contract holds. *)
Lemma factor_alignment_witness :
  let portfolio_returns := MoreSamples.portfolio_series 2 30 in
  let factor_series := MoreSamples.factor_series 31 in
  (length (PortfolioAgg.dates portfolio_returns)
   ≤ length (PortfolioAgg.returns portfolio_returns))%nat
  ∧ Factors.factor_alignment_contract portfolio_returns factor_series
      (Factors.align_portfolio_with_factors portfolio_returns factor_series).
Proof.
  intros portfolio_returns factor_series.
  assert (length (PortfolioAgg.dates portfolio_returns)
          ≤ length (PortfolioAgg.returns portfolio_returns))%nat as Hlen
    by (vm_compute; lia).
  split; [exact Hlen|].
  exact (factor_alignment portfolio_returns factor_series Hlen).
Defined.

(** X6 on the same series: 29 aligned days, one portfolio day and two
    factor days dropped. *)
Lemma factor_alignment_accounting_witness :
  let portfolio_returns := MoreSamples.portfolio_series 2 30 in
  let factor_series := MoreSamples.factor_series 31 in
  ∃ data,
    Factors.align_portfolio_with_factors portfolio_returns factor_series = Done data
    ∧ Factors.aligned_days (Factors.alignment data) = 29
    ∧ Factors.portfolio_dropped_days (Factors.alignment data) = 1
    ∧ Factors.factor_dropped_days (Factors.alignment data) = 2
    ∧ Factors.rectangular (Factors.matrix data)
    ∧ Factors.day_accounting portfolio_returns factor_series data.
Proof.
  intros portfolio_returns factor_series.
  eexists. split; [vm_compute; reflexivity|].
  split; [reflexivity|]. split; [reflexivity|]. split; [reflexivity|].
  apply (factor_alignment_accounting portfolio_returns factor_series).
  vm_compute. reflexivity.
Defined.

(** X7 on a portfolio series of the days 0 to 29 and factor bars of the
    days 0 to 30, with the stand-in solver: 30 aligned days reach the
    least-squares step. *)
Lemma aligned_data_reaches_regression_witness :
  let portfolio_returns := MoreSamples.portfolio_series 0 30 in
  let factor_series := MoreSamples.factor_series 31 in
  ∃ data,
    Factors.align_portfolio_with_factors portfolio_returns factor_series = Done data
    ∧ (30 ≤ length (Regression.dates (Factors.matrix data)))%nat
    ∧ let m := Factors.matrix data in
      let y := zip_with PrimFloat.sub (Regression.portfolio_returns m)
                        (Regression.risk_free_rates m) in
      let X := Regression.rows_of_columns (Regression.market_excess_returns m)
                 (Regression.smb_returns m) (Regression.hml_returns m) in
      length y = length (Regression.dates m)
      ∧ length X = length (Regression.dates m)
      ∧ Regression.run_factor_regression Ols.lstsq Ols.matvec Ols.inv_gram
          Instances.sum_left Instances.mean_left Ols.t_cdf
          (Factors.regression_input data)
        = Regression.regression_handlers
            (Regression.regression_body Ols.lstsq Ols.matvec Ols.inv_gram
               Instances.sum_left Instances.mean_left Ols.t_cdf X y).
Proof.
  intros portfolio_returns factor_series.
  eexists. split; [vm_compute; reflexivity|].
  split; [vm_compute; lia|].
  apply (aligned_data_reaches_regression Ols.lstsq Ols.matvec Ols.inv_gram
           Instances.sum_left Instances.mean_left Ols.t_cdf
           portfolio_returns factor_series).
  - vm_compute. reflexivity.
  - vm_compute. lia.
Defined.

(** X8 with a function that counts its calls: the first call runs it once and
    caches 42; a later call under the key returns 42 and runs nothing. *)
Lemma memoized_result_is_replayed_witness :
  Memoization.memoize_request_sync "prices:AAPL" (MoreSamples.counting_fetch 42) None 0%nat
  = (inr 42, Some {["prices:AAPL" := 42]}, 1%nat)
  ∧ ∀ (func2 : nat → (string + Z) * nat) (w2 : nat),
      Memoization.memoize_request_sync "prices:AAPL" func2
        (Some {["prices:AAPL" := 42]}) w2
      = (inr 42, Some {["prices:AAPL" := 42]}, w2).
Proof.
  assert (Memoization.memoize_request_sync "prices:AAPL"
            (MoreSamples.counting_fetch 42) None 0%nat
          = (inr 42, Some {["prices:AAPL" := 42]}, 1%nat)) as Hfirst
    by reflexivity.
  split; [exact Hfirst|].
  exact (proj1 (memoized_result_is_replayed _ _ _ _ _ _ _ Hfirst)).
Defined.

(** X9 with a function that fails: nothing is cached, and the next call
    under the key runs its function; so does a call after a clearing. *)
Lemma memo_miss_runs_function_witness :
  Memoization.memoize_request_sync "prices:AAPL" MoreSamples.failing_fetch None 0%nat
  = (inl "upstream is down", Some ∅, 1%nat)
  ∧ (Memoization.memoize_request_sync "prices:AAPL" (MoreSamples.counting_fetch 42)
       (Some ∅) 1%nat).1.1 = inr 42
  ∧ (Memoization.memoize_request_sync "prices:AAPL" (MoreSamples.counting_fetch 42)
       (Some ∅) 1%nat).2 = 2%nat.
Proof.
  assert (Memoization.memoize_request_sync "prices:AAPL" MoreSamples.failing_fetch
            None 0%nat
          = (inl "upstream is down", Some ∅, 1%nat)) as Hfailed
    by reflexivity.
  split; [exact Hfailed|].
  destruct (memo_miss_runs_function "prices:AAPL" MoreSamples.failing_fetch None 0%nat)
    as [Hmiss _].
  exact (Hmiss _ _ _ (MoreSamples.counting_fetch 42) 1%nat Hfailed).
Defined.

(** X10 on a write that fails after one byte: the temporary file stays
    behind, yet no key reads differently. *)
Lemma failed_write_is_invisible_witness :
  ∃ e fs',
    Storage.write Instances.wrap_digest ∅
      (Storage.WriteFails 1 "No space left on device") Samples.aapl_key Samples.blob
    = (Storage.Err e, fs')
    ∧ fs' !! Storage.temp_path_of Instances.wrap_digest Samples.aapl_key
      = Some (take 1 Samples.blob)
    ∧ ∀ key', StoreContract.same_view Instances.wrap_digest ∅ fs' key'.
Proof.
  eexists _, _. split; [reflexivity|]. split; [vm_compute; reflexivity|].
  apply (failed_write_is_invisible Instances.wrap_digest ∅
           (Storage.WriteFails 1 "No space left on device")
           Samples.aapl_key Samples.blob _ _ eq_refl).
Defined.

(** X11 on the store that holds the AAPL request: a write under another key
    leaves what the AAPL key shows. *)
Lemma write_leaves_other_keys_witness :
  Instances.wrap_digest Samples.aapl_key ≠ Instances.wrap_digest "yahoo:ticker:MSFT"
  ∧ StoreContract.same_view Instances.wrap_digest MoreSamples.corrupt_store
      (Storage.write Instances.wrap_digest MoreSamples.corrupt_store Storage.NoFault
         "yahoo:ticker:MSFT" Samples.blob).2
      Samples.aapl_key.
Proof.
  assert (Instances.wrap_digest Samples.aapl_key
          ≠ Instances.wrap_digest "yahoo:ticker:MSFT") as Hne
    by (vm_compute; discriminate).
  split; [exact Hne|].
  exact (write_leaves_other_keys Instances.wrap_digest MoreSamples.corrupt_store
           Storage.NoFault "yahoo:ticker:MSFT" Samples.blob Samples.aapl_key Hne).
Defined.

(** X12 on a store built by a write that failed half way and one that
    succeeded: the key of the second reads back, that of the first is
    absent. *)
Lemma built_store_reads_cleanly_witness :
  let fs :=
    (Storage.write Instances.wrap_digest
       (Storage.write Instances.wrap_digest ∅
          (Storage.ReplaceFails "Permission denied") "yahoo:ticker:MSFT"
          Samples.blob).2
       Storage.NoFault Samples.aapl_key Samples.blob).2 in
  StoreContract.built_by_writes Instances.wrap_digest fs
  ∧ (∃ data, data ≠ []
       ∧ Storage.read Instances.wrap_digest fs Storage.NoFault Samples.aapl_key
         = Storage.Ok data)
  ∧ ∃ e, Storage.read Instances.wrap_digest fs Storage.NoFault "yahoo:ticker:MSFT"
         = Storage.Err e
         ∧ Storage.exn_class e = "NotFoundError".
Proof.
  intros fs.
  assert (StoreContract.built_by_writes Instances.wrap_digest fs) as Hbuilt
    by (do 2 apply StoreContract.built_write; apply StoreContract.built_empty).
  split; [exact Hbuilt|]. split.
  - destruct (built_store_reads_cleanly Instances.wrap_digest fs Samples.aapl_key Hbuilt)
      as [[_ Hread]|[Habsent _]]; [exact Hread|].
    vm_compute in Habsent. discriminate Habsent.
  - destruct (built_store_reads_cleanly Instances.wrap_digest fs "yahoo:ticker:MSFT" Hbuilt)
      as [[Hpresent _]|[_ Hread]]; [|exact Hread].
    vm_compute in Hpresent. discriminate Hpresent.
Defined.

(** X13 on the keyword arguments of the AAPL request, in two orders. *)
Lemma storage_key_ignores_order_witness :
  NoDup MoreSamples.aapl_kwargs.*1
  ∧ Storage.make_storage_key "yahoo" MoreSamples.aapl_kwargs
    = Storage.make_storage_key "yahoo" MoreSamples.aapl_kwargs_reordered.
Proof.
  assert (NoDup MoreSamples.aapl_kwargs.*1) as Hnd
    by (apply (bool_decide_unpack _); vm_compute; exact I).
  split; [exact Hnd|].
  apply (storage_key_ignores_order "yahoo" MoreSamples.aapl_kwargs
           MoreSamples.aapl_kwargs_reordered Hnd).
  apply perm_swap.
Defined.

(** X14 on an empty store and an upstream that answers the two sample bars:
    the call returns them, and every later call replays them. *)
Lemma fetched_series_is_replayed_witness :
  ∃ fs1,
    Yahoo.get_price_series Instances.wrap_digest Instances.isoformat
      Samples.serialize_blob Samples.deserialize_blob
      (Some ∅) (Samples.quiet (Storage.Ok Samples.two_bars))
      "aapl" Samples.jan_3 Samples.jan_4
    = (Storage.Ok MoreSamples.aapl_series, Some fs1)
    ∧ ∀ env2, Yahoo.read_fault env2 = Storage.NoFault →
        Yahoo.get_price_series Instances.wrap_digest Instances.isoformat
          Samples.serialize_blob Samples.deserialize_blob
          (Some fs1) env2 "aapl" Samples.jan_3 Samples.jan_4
        = (Storage.Ok MoreSamples.aapl_series, Some fs1).
Proof.
  eapply (fetched_series_is_replayed Instances.wrap_digest Instances.isoformat
            Samples.serialize_blob Samples.deserialize_blob
            ∅ (Samples.quiet (Storage.Ok Samples.two_bars))
            "aapl" Samples.jan_3 Samples.jan_4).
  - vm_compute. reflexivity.
  - vm_compute. reflexivity.
  - reflexivity.
  - reflexivity.
  - done.
  - reflexivity.
Defined.

(** X15 on the store whose bytes under the AAPL key do not decode: the
    upstream has the bars, and the call still reports the stored bytes. *)
Lemma stored_key_is_never_refetched_witness :
  let run env :=
    Yahoo.get_price_series Instances.wrap_digest Instances.isoformat
      Samples.serialize_blob Samples.deserialize_blob
      (Some MoreSamples.corrupt_store) env "AAPL" Samples.jan_3 Samples.jan_4 in
  let env := Samples.quiet (Storage.Ok Samples.two_bars) in
  (run env).2 = Some MoreSamples.corrupt_store
  ∧ ∃ e, (run env).1 = Storage.Err e ∧ Storage.exn_class e = "BadRequestError".
Proof.
  intros run env.
  destruct (stored_key_is_never_refetched Instances.wrap_digest Instances.isoformat
              Samples.serialize_blob Samples.deserialize_blob
              MoreSamples.corrupt_store env "AAPL" Samples.jan_3 Samples.jan_4
              Samples.other_blob)
    as (Hstore & _ & Hcorrupt); [vm_compute; reflexivity|].
  split; [exact Hstore|]. apply Hcorrupt; [reflexivity|].
  right. right. eexists. reflexivity.
Defined.

(** X16 on an empty store whose disk refuses the rename: the bars are
    returned, and the key stays absent. *)
Lemma failed_store_write_is_tolerated_witness :
  let env := MoreSamples.faulty (Storage.ReplaceFails "Permission denied")
               (Storage.Ok Samples.two_bars) in
  ∃ fs1,
    Yahoo.get_price_series Instances.wrap_digest Instances.isoformat
      Samples.serialize_blob Samples.deserialize_blob
      (Some ∅) env "AAPL" Samples.jan_3 Samples.jan_4
    = (Storage.Ok MoreSamples.aapl_series, Some fs1)
    ∧ Storage.exists_ Instances.wrap_digest fs1
        (Yahoo.storage_key Instances.isoformat "AAPL" Samples.jan_3 Samples.jan_4)
      = false
    ∧ ∀ key', StoreContract.same_view Instances.wrap_digest ∅ fs1 key'.
Proof.
  intros env.
  eapply (failed_store_write_is_tolerated Instances.wrap_digest Instances.isoformat
            Samples.serialize_blob Samples.deserialize_blob
            ∅ env "AAPL" Samples.jan_3 Samples.jan_4).
  - vm_compute. reflexivity.
  - vm_compute. reflexivity.
  - reflexivity.
  - right. right. eexists. reflexivity.
Defined.

(** X18 on the two-ticker returns: the portfolio restated with its holdings
    in another order, a holding of C, another currency, a benchmark and
    other dates aggregates to the same series. *)
Lemma aggregation_reads_only_the_weights_witness :
  (∀ t, t ∈ dom Samples.ab_returns →
        PortfolioAgg.weight_of Samples.ab_portfolio t
        = PortfolioAgg.weight_of MoreSamples.ab_portfolio_restated t)
  ∧ PortfolioAgg.aggregate_portfolio_returns Samples.ab_returns Samples.ab_dates
      Samples.ab_portfolio None
    = PortfolioAgg.aggregate_portfolio_returns Samples.ab_returns Samples.ab_dates
        MoreSamples.ab_portfolio_restated None.
Proof.
  assert (∀ t, t ∈ dom Samples.ab_returns →
               PortfolioAgg.weight_of Samples.ab_portfolio t
               = PortfolioAgg.weight_of MoreSamples.ab_portfolio_restated t) as Hagree.
  { intros t Ht. apply elem_of_dom in Ht as [asset_returns Ht].
    unfold Samples.ab_returns in Ht.
    rewrite !lookup_insert_Some, lookup_empty in Ht.
    destruct Ht as [[<- _]|[_ [[<- _]|[_ ?]]]]; [reflexivity|reflexivity|done]. }
  split; [exact Hagree|].
  exact (aggregation_reads_only_the_weights Samples.ab_returns Samples.ab_dates
           Samples.ab_portfolio MoreSamples.ab_portfolio_restated None Hagree).
Defined.

(** X19 on the two sample series, passed in both orders. *)
Lemma alignment_ignores_order_witness :
  NoDup (Returns.ticker <$> [Samples.acme; Samples.bolt])
  ∧ Returns.align_return_series [Samples.acme; Samples.bolt] 1 4
    = Returns.align_return_series [Samples.bolt; Samples.acme] 1 4.
Proof.
  assert (NoDup (Returns.ticker <$> [Samples.acme; Samples.bolt])) as Hnd
    by (apply (bool_decide_unpack _); vm_compute; exact I).
  split; [exact Hnd|].
  apply (alignment_ignores_order [Samples.acme; Samples.bolt]
           [Samples.bolt; Samples.acme] 1 4 Hnd).
  apply perm_swap.
Defined.

(** X20 on the two sample series and a portfolio holding half of each: the
    portfolio series covers the two common days. *)
Lemma aligned_series_aggregate_witness :
  let l := [Samples.acme; Samples.bolt] in
  ∃ aligned ds rets,
    Returns.align_return_series l 1 4 = Return (aligned, ds)
    ∧ PortfolioAgg.aggregate_portfolio_returns aligned ds
        MoreSamples.acme_bolt_portfolio None
      = Return {| PortfolioAgg.dates := ds; PortfolioAgg.returns := rets;
                  PortfolioAgg.benchmark_returns := None |}
    ∧ length rets = length ds
    ∧ ds ≠ []
    ∧ ∀ d, d ∈ ds ↔ Returns.common_date l d.
Proof.
  intros l.
  apply (aligned_series_aggregate l 1 4 MoreSamples.acme_bolt_portfolio None).
  - apply (bool_decide_unpack _). vm_compute. exact I.
  - exists 2. intros rs Hrs.
    apply elem_of_cons in Hrs as [->|Hrs]; [|apply elem_of_cons in Hrs as [->|Hrs]].
    + apply (bool_decide_unpack _). vm_compute. exact I.
    + apply (bool_decide_unpack _). vm_compute. exact I.
    + by apply elem_of_nil in Hrs.
  - done.
  - intros rs Hrs.
    apply elem_of_cons in Hrs as [->|Hrs]; [|apply elem_of_cons in Hrs as [->|Hrs]].
    + eexists. reflexivity.
    + eexists. reflexivity.
    + by apply elem_of_nil in Hrs.
Defined.

Lemma lcg_draws_Forall (P : float → Prop) f n g :
  (∀ x, P (f x)) → Forall P (Instances.lcg_draws f n g).1.
Proof.
  intros Hf. revert g. induction n as [|n IH]; intros g; simpl; [constructor|].
  constructor; [apply Hf|apply IH].
Qed.

Lemma lcg_choice_members g a n xs g' :
  a ≠ [] →
  Instances.lcg_choice g a n = Return (xs, g') → Forall (fun x => x ∈ a) xs.
Proof.
  intros Hne. unfold Instances.lcg_choice. destruct (n <? 0); [done|].
  intros [= Hdraws]. apply (f_equal fst) in Hdraws. simpl in Hdraws. subst xs.
  apply lcg_draws_Forall. intros x.
  assert (0 < Z.of_nat (length a)) as Hlen by (destruct a; [done|simpl; lia]).
  destruct (lookup_lt_is_Some_2 a (Z.to_nat (x mod Z.of_nat (length a)))) as [v Hv].
  { pose proof (Z.mod_pos_bound x _ Hlen). lia. }
  rewrite Hv. simpl. by eapply list_elem_of_lookup_2.
Qed.

(** X21 with the stand-in generator: a bootstrap of two paths over three
    days from three historical returns holds none but those three. *)
Lemma bootstrap_resamples_history_witness :
  let historical_returns := [0.01; -0.02; 0.03]%float in
  ∃ sim,
    MonteCarlo.simulate_bootstrap Z Instances.lcg_seed Instances.lcg_choice
      Instances.mean_left Instances.std_ddof1_left
      0 historical_returns 2 3 (Some 42) = Return sim
    ∧ Forall (Forall (fun x => x ∈ historical_returns)) (MonteCarlo.simulated_paths sim)
    ∧ MonteCarlo.simulation_method (MonteCarlo.metadata sim) = "historical_bootstrap"
    ∧ MonteCarlo.number_of_simulations (MonteCarlo.metadata sim) = 2
    ∧ MonteCarlo.horizon_days (MonteCarlo.metadata sim) = 3
    ∧ MonteCarlo.random_seed (MonteCarlo.metadata sim) = Some 42
    ∧ MonteCarlo.historical_returns_count (MonteCarlo.metadata sim) = 3.
Proof.
  intros historical_returns.
  eexists. split; [vm_compute; reflexivity|].
  apply (bootstrap_resamples_history Z Instances.lcg_seed Instances.lcg_choice
           Instances.mean_left Instances.std_ddof1_left
           0 historical_returns 2 3 (Some 42)).
  - intros g n xs g'. by apply lcg_choice_members.
  - vm_compute. reflexivity.
Defined.

(** X22 on a matrix of two paths of two days, and on one whose third path
    is the first of another length. *)
Lemma paths_shape_is_checked_witness :
  MonteCarlo.validate_paths_shape [[0.01; 0.02]; [0.03; -0.01]]%float
  = Return [[0.01; 0.02]; [0.03; -0.01]]%float
  ∧ ∃ i path first,
      [[0.01; 0.02]; [0.03; -0.01]; [0.02]; []]%float !! i = Some path
      ∧ head [[0.01; 0.02]; [0.03; -0.01]; [0.02]; []]%float = Some first
      ∧ length path ≠ length first
      ∧ (∀ j p, (j < i)%nat →
           [[0.01; 0.02]; [0.03; -0.01]; [0.02]; []]%float !! j = Some p →
           length p = length first)
      ∧ ValueError (PathLengthMismatch 2 1 2)
        = ValueError (PathLengthMismatch i (length path) (length first)).
Proof.
  split.
  - apply (paths_shape_is_checked [[0.01; 0.02]; [0.03; -0.01]]%float).
    split; [done|]. exists 2%nat. repeat constructor.
  - destruct (paths_shape_is_checked [[0.01; 0.02]; [0.03; -0.01]; [0.02]; []]%float)
      as (_ & _ & Hrefused).
    destruct (Hrefused (ValueError (PathLengthMismatch 2 1 2))) as [[Hnil _]|Hfound];
      [reflexivity|discriminate Hnil|exact Hfound].
Defined.
